(** * GTFS2GMNS: the graph construction pipeline of [src/src/gtfs2gmns.py]

    A shallow embedding of the class [GTFS2GMNS]: ingest and normalisation
    of the five GTFS tables ([read_gtfs_data]), node construction
    ([create_nodes]), service, boarding and transferring links
    ([create_service_boarding_links], [create_transferring_links]) and the
    final assembly ([main]); and the path and file helpers of
    [src/test/utility_lib.py] that [read_gtfs_data] calls.

    Conventions of the embedding.
    - A data frame is a list of records, in row order.  Where the source
      relies on the row labels of a frame (column assignment aligns on
      them), the rows are paired with their label.
    - Integer columns are [Z]; text columns are [string]; a cell that may
      be null (NaN) is an [option].
    - Coordinates and lengths are floats in the source.  They are carried
      as rationals [Q]; rounding and NaN are outside the embedding.
    - Code that raises returns [Err]; the exception is named after the
      Python exception the statement raises.
    - [pd.to_timedelta] reads many forms of text.  The clock form
      [H..H:MM:SS] is embedded ([TimeConv]); what the library makes of
      any other text is a parameter of the sections that convert times.
    - The helpers imported from [func_lib] ([determine_terminal_flag],
      [stop_sequence_label], the [convert_route_type_*] tables,
      [calculate_distance_from_geometry], ...) are not part of the sources
      at hand; they are parameters of the sections that use them. *)

From Stdlib Require Import ZArith QArith String Ascii List Lia DecimalString.
From stdpp Require Import gmap strings list sorting pretty.

Close Scope Q_scope.
Open Scope Z_scope.

(** ** Results of code that may raise *)

Inductive error : Type :=
  | ValueError (msg : string)
  | KeyError (msg : string)
  | IndexError (msg : string)
  | OverflowError (msg : string).

Inductive result (A : Type) : Type :=
  | Ok (a : A)
  | Err (e : error).
Arguments Ok {A} a.
Arguments Err {A} e.

Definition rbind {A B} (r : result A) (k : A -> result B) : result B :=
  match r with
  | Ok a => k a
  | Err e => Err e
  end.

Notation "'let*' x ':=' r 'in' k" := (rbind r (fun x => k))
  (at level 10, x name, r at level 100, k at level 200).

Definition of_option {A} (o : option A) (e : error) : result A :=
  match o with
  | Some a => Ok a
  | None => Err e
  end.

Fixpoint rmap {A B} (f : A -> result B) (l : list A) : result (list B) :=
  match l with
  | [] => Ok []
  | a :: l' =>
      let* b := f a in
      let* bs := rmap f l' in
      Ok (b :: bs)
  end.

(** ** Time stamps: [pd.to_timedelta(...) + datetime(2021, 1, 1)] *)

Module TimeConv.

(** The clock form [H..H:MM:SS] of [pd.to_timedelta]: hours are any
    non-empty run of digits, minutes and seconds two digits below 60.
    [pd.to_timedelta] reads other forms too (blanks, a field of one
    digit, minutes of 60 and more, days and units); they are outside the
    fragment modelled here, which gives [None] on them: no answer, not an
    exception.  [Ingest.convert_cell] takes what the library does there
    as a parameter. *)

Definition is_digit (c : ascii) : bool :=
  let n := nat_of_ascii c in ((48 <=? n) && (n <=? 57))%nat.

Definition digit_val (c : ascii) : Z := Z.of_nat (nat_of_ascii c) - 48.

Fixpoint digits (acc : Z) (s : string) : option Z :=
  match s with
  | EmptyString => Some acc
  | String c r =>
      if is_digit c then digits (10 * acc + digit_val c) r else None
  end.

Definition number (s : string) : option Z :=
  match s with
  | EmptyString => None
  | _ => digits 0 s
  end.

Fixpoint split_colon (s : string) : list string :=
  match s with
  | EmptyString => [EmptyString]
  | String c r =>
      if Ascii.eqb c ":" then EmptyString :: split_colon r
      else match split_colon r with
           | h :: t => String c h :: t
           | [] => [String c EmptyString]
           end
  end.

Definition parse_hms (s : string) : option (Z * Z * Z) :=
  match split_colon s with
  | [hh; mm; ss] =>
      match number hh, number mm, number ss with
      | Some h, Some m, Some sec =>
          if ((String.length mm =? 2)%nat && (String.length ss =? 2)%nat
              && (m <? 60) && (sec <? 60))%bool
          then Some (h, m, sec) else None
      | _, _, _ => None
      end
  | _ => None
  end.

(** A timedelta, in whole seconds.  pandas holds a timedelta, and the
    time stamp [timedelta + tt], in 64-bit nanoseconds, and does not
    return the sum of the fields when one of the two does not fit.
    Durations under a million hours (some 114 years, the time stamp then
    stays before 2136) fit both; longer ones are outside the fragment
    too. *)
Definition to_timedelta (s : string) : option Z :=
  match parse_hms s with
  | Some (h, m, sec) =>
      if h <? 1000000 then Some (3600 * h + 60 * m + sec) else None
  | None => None
  end.

(** The proleptic Gregorian calendar of [datetime]: day number (days
    since 1970-01-01) to year, month and day of the month, and back. *)
Definition civil_from_days (z : Z) : Z * Z * Z :=
  let z := z + 719468 in
  let era := z / 146097 in
  let doe := z - era * 146097 in
  let yoe := (doe - doe / 1460 + doe / 36524 - doe / 146096) / 365 in
  let y := yoe + era * 400 in
  let doy := doe - (365 * yoe + yoe / 4 - yoe / 100) in
  let mp := (5 * doy + 2) / 153 in
  let d := doy - (153 * mp + 2) / 5 + 1 in
  let m := if mp <? 10 then mp + 3 else mp - 9 in
  (if m <=? 2 then y + 1 else y, m, d).

Definition days_from_civil (y m d : Z) : Z :=
  let y := if m <=? 2 then y - 1 else y in
  let era := y / 400 in
  let yoe := y - era * 400 in
  let doy := (153 * (if m >? 2 then m - 3 else m + 9) + 2) / 5 + d - 1 in
  let doe := yoe * 365 + yoe / 4 - yoe / 100 + doy in
  era * 146097 + doe - 719468.

Record Timestamp : Type := mkTimestamp {
  year : Z; month : Z; day : Z; hour : Z; minute : Z; second : Z
}.

(** [datetime(y, m, d, 0, 0, 0, 0) + timedelta] *)
Definition add_timedelta (y m d : Z) (td : Z) : Timestamp :=
  let total := days_from_civil y m d * 86400 + td in
  let dn := total / 86400 in
  let sod := total mod 86400 in
  let '(yy, mm, dd) := civil_from_days dn in
  {| year := yy; month := mm; day := dd;
     hour := sod / 3600; minute := (sod mod 3600) / 60;
     second := sod mod 60 |}.

(** [tt = datetime.datetime(2021, 1, 1, 0, 0, 0, 0)] and the lambda
    [x.hour * 60 + x.minute + 1440 * (x.day - 1)]. *)
Definition tt_plus (td : Z) : Timestamp := add_timedelta 2021 1 1 td.

Definition to_minute (x : Timestamp) : Z :=
  hour x * 60 + minute x + 1440 * (day x - 1).

(** One cell of [arrival_time] / [departure_time] through both steps. *)
Definition convert_time (s : string) : option Z :=
  match to_timedelta s with
  | Some td => Some (to_minute (tt_plus td))
  | None => None
  end.

End TimeConv.

(** ** Data frames *)

Module Frame.

(** [df.drop_duplicates(subset=[key])], which keeps the first row of each
    key ([keep='first'] is the default). *)
Fixpoint drop_duplicates_from {A K : Type} `{EqDecision K}
    (key : A -> K) (seen : list K) (df : list A) : list A :=
  match df with
  | [] => []
  | a :: df' =>
      if decide (key a ∈ seen) then drop_duplicates_from key seen df'
      else a :: drop_duplicates_from key (key a :: seen) df'
  end.

Definition drop_duplicates {A K : Type} `{EqDecision K}
    (key : A -> K) (df : list A) : list A :=
  drop_duplicates_from key [] df.

(** [df.drop_duplicates(subset=[key], keep='last')]: a row stays when no
    later row has its key. *)
Fixpoint drop_duplicates_last {A K : Type} `{EqDecision K}
    (key : A -> K) (df : list A) : list A :=
  match df with
  | [] => []
  | a :: df' =>
      if decide (key a ∈ map key df') then drop_duplicates_last key df'
      else a :: drop_duplicates_last key df'
  end.

(** [pd.merge(left, right, on=key)].  The default is [how='inner']: one
    output row per pair of rows with equal keys, in the order of the left
    frame. *)
Definition merge {A B K : Type} `{EqDecision K}
    (kl : A -> K) (kr : B -> K) (left : list A) (right : list B) : list (A * B) :=
  flat_map (fun a => map (fun b => (a, b))
                         (filter (fun b => kr b = kl a) right)) left.

(** What a left merge ([how='left']) would give: a left row without a
    match is kept, with nulls on the right. *)
Definition merge_left {A B K : Type} `{EqDecision K}
    (kl : A -> K) (kr : B -> K) (left : list A) (right : list B)
    : list (A * option B) :=
  flat_map (fun a => match filter (fun b => kr b = kl a) right with
                     | [] => [(a, None)]
                     | bs => map (fun b => (a, Some b)) bs
                     end) left.

(** [df.sort_values(by=[key])] for a text key and for an integer key.
    The order of rows with equal keys is not fixed by pandas' default
    sort; the frames sorted here have distinct keys, or are only read
    through properties that do not depend on that order. *)
Definition str_le {A} (key : A -> string) : relation A :=
  fun a b => String.leb (key a) (key b) = true.

Definition int_le {A} (key : A -> Z) : relation A :=
  fun a b => key a <= key b.

#[export] Instance str_le_dec {A} (key : A -> string) a b : Decision (str_le key a b).
Proof. unfold str_le. apply _. Defined.

#[export] Instance int_le_dec {A} (key : A -> Z) a b : Decision (int_le key a b).
Proof. unfold int_le. apply _. Defined.

Definition sort_values_str {A} (key : A -> string) (df : list A) : list A :=
  merge_sort (str_le key) df.

Definition sort_values_int {A} (key : A -> Z) (df : list A) : list A :=
  merge_sort (int_le key) df.

(** The rows of a frame with their labels after [reset_index] or a merge
    (a [RangeIndex]). *)
Definition labelled {A} (df : list A) : list (nat * A) :=
  zip (seq 0 (length df)) df.

(** [np.linspace(start=1, stop=n, num=n).astype('int32')]: 1, 2, ..., n. *)
Definition linspace_1 (n : nat) : list Z := map Z.of_nat (seq 1 n).

(** [dict(zip(keys, values))]: a later pair replaces an earlier one. *)
Definition dict_zip {V} (keys : list string) (values : list V) : gmap string V :=
  foldl (fun m kv => <[kv.1 := kv.2]> m) ∅ (zip keys values).

Definition dict_zip_Z {V} (keys : list Z) (values : list V) : gmap Z V :=
  foldl (fun m kv => <[kv.1 := kv.2]> m) ∅ (zip keys values).

(** [series.unique()]: the values in order of first appearance. *)
Definition unique {K} `{EqDecision K} (l : list K) : list K :=
  drop_duplicates (fun k => k) l.

(** [df.groupby(key)]: the groups in increasing key order, each with its
    rows in frame order. *)
Definition groupby {A} (key : A -> string) (df : list A) : list (string * list A) :=
  map (fun k => (k, filter (fun a => key a = k) df))
      (merge_sort (str_le (fun k => k)) (unique (map key df))).

End Frame.

(** ** Ingest and normalisation: [read_gtfs_data] *)

Module Ingest.
Import Frame.

Record Stop : Type := mkStop {
  s_stop_id : string; s_stop_name : string; s_stop_lat : Q; s_stop_lon : Q
}.

Record Route : Type := mkRoute {
  r_route_id : string; r_route_short_name : string;
  r_route_long_name : string; r_route_type : Z
}.

(** A row of [trips.txt]; [t_direction_id] is [Some d] when the file has
    the column (where a file has it, every row does). *)
Record TripIn : Type := mkTripIn {
  ti_route_id : string; ti_trip_id : string; ti_direction_id : option Z
}.

(** A row of [trip_df] after the recoding of the direction. *)
Record Trip : Type := mkTrip {
  t_route_id : string; t_trip_id : string; t_direction_id : string;
  t_directed_route_id : string
}.

(** A row of [stop_times.txt]; a null time is [None]. *)
Record StopTimeIn : Type := mkStopTimeIn {
  sti_trip_id : string;
  sti_arrival_time : option string;
  sti_departure_time : option string;
  sti_stop_id : string;
  sti_stop_sequence : Z
}.

(** A row of [stop_time_df] once the times are minutes.  A time that was
    null stays null.  The two last columns are added by
    [determine_terminal_flag] and [stop_sequence_label]; before that they
    hold the empty string. *)
Record StopTime : Type := mkStopTime {
  st_trip_id : string;
  st_arrival_time : option Z;
  st_departure_time : option Z;
  st_stop_id : string;
  st_stop_sequence : Z;
  st_terminal_flag : string;
  st_stop_sequence_label : string
}.

(** A row of [directed_trip_route_stop_time_df], the enriched frame. *)
Record Enriched : Type := mkEnriched {
  trip_id : string;
  route_id : string;
  direction_id : string;
  directed_route_id : string;
  route_short_name : string;
  route_long_name : string;
  route_type : Z;
  arrival_time : option Z;
  departure_time : option Z;
  stop_id : string;
  stop_sequence : Z;
  terminal_flag : string;
  stop_sequence_label : string;
  directed_route_stop_id : string;
  directed_service_stop_id : string;
  directed_service_id : string;
  stop_name : string;
  stop_lat : Q;
  stop_lon : Q;
  agency_name : string
}.

(** The five tables, as read by [pd.read_csv]. *)
Record GTFS : Type := mkGTFS {
  agency_df : list string;          (* the column agency_name *)
  stop_df : list Stop;
  route_df : list Route;
  trip_df : list TripIn;
  stop_time_df : list StopTimeIn
}.

(** *** Trips and routes *)

(** [str(2 - int(x['direction_id']))], with ["0"] for a missing column. *)
Definition recode_direction (d : option Z) : string :=
  pretty (2 - default 0 d).

Definition direct_trip (t : TripIn) : Trip :=
  let d := recode_direction (ti_direction_id t) in
  {| t_route_id := ti_route_id t; t_trip_id := ti_trip_id t;
     t_direction_id := d;
     t_directed_route_id := ti_route_id t +:+ "." +:+ d |}.

(** [trip_df['direction_id'] = trip_df.apply(..., axis=1)] and the column
    [directed_route_id].  On a table without rows the row-wise [apply]
    returns a frame, not a column, and the assignment raises. *)
Definition recode_trips (trip_df : list TripIn) : result (list Trip) :=
  match trip_df with
  | [] => Err (ValueError "Columns must be same length as key")
  | _ => Ok (map direct_trip trip_df)
  end.

(** The double quote character, and [s.strip(dquote)]. *)
Definition dquote : ascii := ascii_of_nat 34.

Fixpoint lstrip_quote (s : string) : string :=
  match s with
  | String c r => if Ascii.eqb c dquote then lstrip_quote r else s
  | EmptyString => EmptyString
  end.

Definition strip_quote (s : string) : string :=
  String.rev (lstrip_quote (String.rev (lstrip_quote s))).

(** [df['route_id'][0][0] == dquote] *)
Definition first_is_quote (ids : list string) : result bool :=
  match ids with
  | [] => Err (KeyError "0")
  | EmptyString :: _ => Err (IndexError "string index out of range")
  | String c _ :: _ => Ok (Ascii.eqb c dquote)
  end.

Definition set_route_id_r (r : Route) (i : string) : Route :=
  {| r_route_id := i; r_route_short_name := r_route_short_name r;
     r_route_long_name := r_route_long_name r; r_route_type := r_route_type r |}.

Definition set_route_id_t (t : Trip) (i : string) : Trip :=
  {| t_route_id := i; t_trip_id := t_trip_id t;
     t_direction_id := t_direction_id t;
     t_directed_route_id := t_directed_route_id t |}.

Definition repair_quotes (routes : list Route) (trips : list Trip)
    : result (list Route * list Trip) :=
  let* qr := first_is_quote (map r_route_id routes) in
  let* qt := first_is_quote (map t_route_id trips) in
  if negb (Bool.eqb qr qt) then
    if qr then Ok (map (fun r => set_route_id_r r (strip_quote (r_route_id r))) routes, trips)
    else Ok (routes, map (fun t => set_route_id_t t (strip_quote (t_route_id t))) trips)
  else Ok (routes, trips).

(** [trip_route_df = pd.merge(trip_df, route_df, on='route_id')] *)
Definition merge_trip_route (trips : list Trip) (routes : list Route)
    : list (Trip * Route) :=
  merge t_route_id r_route_id trips routes.

(** *** Stop times without a time *)

(** [df.dropna(subset=['arrival_time'], how='any')] *)
Definition dropna_arrival (df : list StopTimeIn) : list StopTimeIn :=
  filter (fun r => is_Some (sti_arrival_time r)) df.

(** [series != s], element by element: a null differs from every string. *)
Definition ne_str (v : option string) (s : string) : bool :=
  match v with
  | Some t => negb (String.eqb t s)
  | None => true
  end.

Definition drop_rows_without_time (df : list StopTimeIn) : list StopTimeIn :=
  let df := dropna_arrival df in
  let df := filter (fun r => ne_str (sti_arrival_time r) EmptyString = true) df in
  let df := filter (fun r => ne_str (sti_departure_time r) EmptyString = true) df in
  let df := filter (fun r => ne_str (sti_arrival_time r) " " = true) df in
  let df := filter (fun r => ne_str (sti_departure_time r) " " = true) df in
  df.

(** *** Minutes *)

Section Minutes.

(** What [pd.to_timedelta(...) + tt] and the lambda make of a string
    outside the clock form of [TimeConv]: minutes, a null, or an
    exception of the library.  The parser of pandas is not part of this
    repository, and its answer there is a parameter. *)
Variable other_time : string -> result (option Z).

(** A cell through [pd.to_timedelta(...) + tt] and the lambda; a null
    cell gives NaT and then a null. *)
Definition convert_cell (c : option string) : result (option Z) :=
  match c with
  | None => Ok None
  | Some s =>
      match TimeConv.convert_time s with
      | Some m => Ok (Some m)
      | None => other_time s
      end
  end.

Definition convert_row (r : StopTimeIn) : result StopTime :=
  let* a := convert_cell (sti_arrival_time r) in
  let* d := convert_cell (sti_departure_time r) in
  Ok {| st_trip_id := sti_trip_id r; st_arrival_time := a;
        st_departure_time := d; st_stop_id := sti_stop_id r;
        st_stop_sequence := sti_stop_sequence r;
        st_terminal_flag := EmptyString;
        st_stop_sequence_label := EmptyString |}.

End Minutes.

(** *** The time window *)

(** [series.min()], which skips nulls; the minimum of nothing is null. *)
Definition series_min (l : list (option Z)) : option Z :=
  foldr (fun c acc =>
           match c, acc with
           | Some x, Some y => Some (Z.min x y)
           | Some x, None => Some x
           | None, _ => acc
           end) None l.

(** A comparison with a null is false. *)
Definition le_cell (a : option Z) (b : Z) : bool :=
  match a with Some x => x <=? b | None => false end.

Definition ge_cell (a : option Z) (b : Z) : bool :=
  match a with Some x => b <=? x | None => false end.

(** The body of the loop over the groups: [mask1 and mask2]. *)
Definition in_window (period_start_time period_end_time : Z)
    (trip_stop_time_df : list StopTime) : bool :=
  let mask1 := le_cell (series_min (map st_arrival_time trip_stop_time_df))
                       period_end_time in
  let mask2 := ge_cell (series_min (map st_arrival_time trip_stop_time_df))
                       period_start_time in
  mask1 && mask2.

(** [m] is the minimum arrival time among the rows of one trip. *)
Definition min_arrival (g : list StopTime) (m : Z) : Prop :=
  (exists r, r ∈ g /\ st_arrival_time r = Some m)
  /\ (forall r x, r ∈ g -> st_arrival_time r = Some x -> m <= x).

(** The frames of the trips, each sorted by [stop_sequence], before the
    window is applied. *)
Definition trip_frames (df : list StopTime) : list (list StopTime) :=
  map (fun g => sort_values_int st_stop_sequence g.2) (groupby st_trip_id df).

Definition select_trips (period_start_time period_end_time : Z)
    (df : list StopTime) : list (list StopTime) :=
  filter (fun g => in_window period_start_time period_end_time g = true)
         (trip_frames df).

(** [pd.concat(objs, axis=0)] *)
Definition concat_frames {A} (objs : list (list A)) : result (list A) :=
  match objs with
  | [] => Err (ValueError "No objects to concatenate")
  | _ => Ok (concat objs)
  end.

(** *** The enriched frame *)

Definition enrich (agency_name : string)
    (tr : Trip * Route) (st : StopTime) (s : Stop) : Enriched :=
  let directed_route_stop_id := t_directed_route_id tr.1 +:+ "." +:+ st_stop_id st in
  {| trip_id := t_trip_id tr.1;
     route_id := t_route_id tr.1;
     direction_id := t_direction_id tr.1;
     directed_route_id := t_directed_route_id tr.1;
     route_short_name := r_route_short_name tr.2;
     route_long_name := r_route_long_name tr.2;
     route_type := r_route_type tr.2;
     arrival_time := st_arrival_time st;
     departure_time := st_departure_time st;
     stop_id := st_stop_id st;
     stop_sequence := st_stop_sequence st;
     terminal_flag := st_terminal_flag st;
     stop_sequence_label := st_stop_sequence_label st;
     directed_route_stop_id := directed_route_stop_id;
     directed_service_stop_id :=
       directed_route_stop_id +:+ ":" +:+ st_stop_sequence_label st;
     directed_service_id :=
       t_directed_route_id tr.1 +:+ ":" +:+ st_stop_sequence_label st;
     stop_name := s_stop_name s;
     stop_lat := s_stop_lat s;
     stop_lon := s_stop_lon s;
     agency_name := agency_name |}.

Section ReadGtfsData.

(** The answer of pandas on a time outside the clock form, see
    [convert_cell]. *)
Variable other_time : string -> result (option Z).

(** The two labelling passes of [func_lib], each from the frame of one
    trip to that frame with one more column. *)
Variable determine_terminal_flag : list StopTime -> list StopTime.
Variable stop_sequence_label_pass : list StopTime -> list StopTime.

Variables period_start_time period_end_time : Z.

Definition read_gtfs_data (gtfs : GTFS) : result (list (Trip * Route) * list Enriched) :=
  let* agency_name := of_option (head (agency_df gtfs)) (KeyError "0") in
  let* trips := recode_trips (trip_df gtfs) in
  let* repaired := repair_quotes (route_df gtfs) trips in
  let trip_route_df := merge_trip_route repaired.2 repaired.1 in
  let stop_times := drop_rows_without_time (stop_time_df gtfs) in
  let* stop_times := rmap (convert_row other_time) stop_times in
  let input_list := select_trips period_start_time period_end_time stop_times in
  let intermediate_output_list := map determine_terminal_flag input_list in
  let output_list := map stop_sequence_label_pass intermediate_output_list in
  let* stop_time_df_with_terminal := concat_frames output_list in
  let merged := merge (fun tr => t_trip_id tr.1) st_trip_id
                      trip_route_df stop_time_df_with_terminal in
  let with_stops := merge (fun p => st_stop_id p.2) s_stop_id merged (stop_df gtfs) in
  Ok (trip_route_df,
      map (fun p => enrich agency_name p.1.1 p.1.2 p.2) with_stops).

End ReadGtfsData.

End Ingest.

(** ** Node construction: [create_nodes] *)

Module Nodes.
Import Frame Ingest.

(** A row of the node table.  The column [geometry], a rendering of the
    two coordinates as text, is left out. *)
Record Node : Type := mkNode {
  name : string;
  node_id : Z;
  physical_node_id : Z;
  x_coord : Q;
  y_coord : Q;
  n_route_type : Z;
  n_route_id : string;
  node_type : string;
  n_directed_route_id : string;
  n_directed_service_id : string;
  zone_id : string;
  n_agency_name : string;
  n_terminal_flag : string;
  ctrl_type : string;
  agent_type : string
}.

(** [frame[col] = other[col']] assigns by row label.  [loc other label]
    is the row of [other] that a row of [frame] labelled [label] reads.
    pandas fills a null where [other] has no such label; the embedding
    reports [KeyError] there (the frames of [create_nodes] take their
    labels from [temp_df], so this does not arise, see
    [create_nodes_returns]). *)
Fixpoint loc {A} (other : list (nat * A)) (label : nat) : result A :=
  match other with
  | [] => Err (KeyError "label")
  | (i, a) :: other' => if decide (i = label) then Ok a else loc other' label
  end.

Section CreateNodes.

(** The two route type tables of [func_lib]. *)
Variable convert_route_type_to_node_type_p : Z -> string.
Variable convert_route_type_to_node_type_s : Z -> string.

(** [temp_df] and the sorted column [name] with its labels, for the key
    column [key]. *)
Definition temp_df_of (key : Enriched -> string) (df : list Enriched)
    : list (nat * Enriched) :=
  drop_duplicates (fun p => key p.2) (labelled df).

Definition sorted_names (key : Enriched -> string) (temp_df : list (nat * Enriched))
    : list (nat * string) :=
  sort_values_str snd (map (fun p => (p.1, key p.2)) temp_df).

(** [node_id]: the positions 1, 2, ... of the sorted frame, plus [base]. *)
Definition node_ids (base : Z) (n : nat) : list Z :=
  map (fun k => k + base) (linspace_1 n).

Definition physical_node (temp_df : list (nat * Enriched))
    (row : (nat * string) * Z) : result Node :=
  let* r := loc temp_df row.1.1 in
  Ok {| name := row.1.2;
        node_id := row.2;
        physical_node_id := row.2;
        x_coord := stop_lon r;
        y_coord := stop_lat r;
        n_route_type := route_type r;
        n_route_id := route_id r;
        node_type := convert_route_type_to_node_type_p (route_type r);
        n_directed_route_id := EmptyString;
        n_directed_service_id := EmptyString;
        zone_id := EmptyString;
        n_agency_name := agency_name r;
        n_terminal_flag := terminal_flag r;
        ctrl_type := EmptyString;
        agent_type := EmptyString |}.

(** The physical nodes and [stop_name_id_dict].  On a frame without rows
    pandas calls the route type table on a row of nulls to find what the
    row-wise [apply] of [node_type] returns, so that what happens there
    depends on the table; [create_nodes] raises on such a frame in either
    case, see [physical_ids_of]. *)
Definition physical_node_df (df : list Enriched)
    : result (list Node * gmap string Z) :=
  let temp_df := temp_df_of stop_id df in
  let names := sorted_names stop_id temp_df in
  let ids := node_ids 1000000 (length names) in
  let* nodes := rmap (physical_node temp_df) (zip names ids) in
  Ok (nodes, dict_zip (map snd names) ids).

(** [service_node_df['physical_node_id'] =
    temp_df.apply(lambda x: stop_name_id_dict[x.stop_id], axis=1)].  On a
    frame without rows the row-wise [apply] returns a frame, not a
    column, and the assignment raises. *)
Definition physical_ids_of (stop_name_id_dict : gmap string Z)
    (temp_df : list (nat * Enriched)) : result (list (nat * Z)) :=
  match temp_df with
  | [] => Err (ValueError "Cannot set a DataFrame with multiple columns to the single column physical_node_id")
  | _ =>
      rmap (fun p => let* i := of_option (stop_name_id_dict !! stop_id p.2)
                                         (KeyError (stop_id p.2)) in
                     Ok (p.1, i)) temp_df
  end.

Definition service_node (temp_df : list (nat * Enriched))
    (physical : list (nat * Z)) (row : (nat * string) * Z) : result Node :=
  let* pid := loc physical row.1.1 in
  let* r := loc temp_df row.1.1 in
  Ok {| name := row.1.2;
        node_id := row.2;
        physical_node_id := pid;
        x_coord := (stop_lon r - (1 # 10000))%Q;
        y_coord := (stop_lat r - (1 # 10000))%Q;
        n_route_type := route_type r;
        n_route_id := route_id r;
        node_type := convert_route_type_to_node_type_s (route_type r);
        n_directed_route_id := directed_route_id r;
        n_directed_service_id := directed_service_id r;
        zone_id := EmptyString;
        n_agency_name := agency_name r;
        n_terminal_flag := terminal_flag r;
        ctrl_type := EmptyString;
        agent_type := EmptyString |}.

Definition service_node_df (stop_name_id_dict : gmap string Z)
    (df : list Enriched) : result (list Node) :=
  let temp_df := temp_df_of directed_service_stop_id df in
  let names := sorted_names directed_service_stop_id temp_df in
  let ids := node_ids 1500000 (length names) in
  let* physical := physical_ids_of stop_name_id_dict temp_df in
  rmap (service_node temp_df physical) (zip names ids).

(** [create_nodes]: the physical nodes, then the service nodes.  On a
    frame without rows no node is built: [physical_ids_of] raises. *)
Definition create_nodes (df : list Enriched) : result (list Node) :=
  let* physical := physical_node_df df in
  let* service := service_node_df physical.2 df in
  Ok (physical.1 ++ service).

End CreateNodes.

End Nodes.

(** ** Links *)

Module Links.
Import Frame Ingest Nodes.

(** A cell of a column that holds numbers in some rows and text in
    others. *)
Inductive cell : Type :=
  | CInt (z : Z)
  | CStr (s : string).

(** A row of the link list, in the order of the 23 positions, without
    position 18 ([geometry], text rendered from the coordinates).  A
    travel time computed from a null arrival time is null. *)
Record Link : Type := mkLink {
  link_id : Z;
  from_node_id : Z;
  to_node_id : Z;
  facility_type : string;
  dir_flag : Z;
  l_directed_route_id : cell;
  link_type : Z;
  link_type_name : string;
  l_length : Q;
  lanes : Z;
  capacity : Z;
  free_speed : option Q;
  cost : Z;
  VDF_fftt1 : option Q;
  VDF_cap1 : Z;
  VDF_alpha1 : Q;
  VDF_beta1 : Z;
  VDF_penalty1 : Q;
  allowed_use : string;
  l_agency_name : string;
  l_stop_sequence : cell;
  l_directed_service_id : string
}.

Definition Qlt_bool (a b : Q) : bool := negb (Qle_bool b a).

Definition Qmin (a b : Q) : Q := if Qle_bool a b then a else b.

Section CreateLinks.

(** The helpers of [func_lib] used for links. *)
Variable convert_route_type_to_link_type : Z -> string.
Variable allowed_use_function : Z -> string.
Variable calculate_distance_from_geometry : Q -> Q -> Q -> Q -> Q.
Variable transferring_penalty : string -> string -> Q.
Variable allowed_use_transferring : string -> string -> string.

Variables period_start_time period_end_time : Z.

(** *** Service links *)

(** The body of [for k in range(number_of_records - 1)] for the rows
    [k] and [k + 1] of [one_line_df]. *)
Definition service_link (node_id_dict : gmap string Z) (agency_name0 : string)
    (number_of_trips : Z) (number_of_route_links : Z) (a b : Enriched)
    : result Link :=
  let link_id := 1000000 + number_of_route_links + 1 in
  let* from_node_id := of_option (node_id_dict !! directed_service_stop_id a)
                                 (KeyError (directed_service_stop_id a)) in
  let* to_node_id := of_option (node_id_dict !! directed_service_stop_id b)
                               (KeyError (directed_service_stop_id b)) in
  let length := calculate_distance_from_geometry
                  (stop_lon a) (stop_lat a) (stop_lon b) (stop_lat b) in
  let lanes := number_of_trips in
  let capacity := 999999 in
  let VDF_fftt1 :=
    match arrival_time b, arrival_time a with
    | Some tb, Some ta => Some (inject_Z (tb - ta))
    | _, _ => None
    end in
  Ok {| link_id := link_id;
        from_node_id := from_node_id;
        to_node_id := to_node_id;
        facility_type := convert_route_type_to_link_type (route_type a);
        dir_flag := 1;
        l_directed_route_id := CStr (directed_route_id a);
        link_type := 1;
        link_type_name := "service_links";
        l_length := length;
        lanes := lanes;
        capacity := capacity;
        free_speed :=
          (fun t => ((length / 1000) / (t + (1 # 1000))) * 60)%Q <$> VDF_fftt1;
        cost := 0;
        VDF_fftt1 := VDF_fftt1;
        VDF_cap1 := lanes * capacity;
        VDF_alpha1 := (15 # 100)%Q;
        VDF_beta1 := 4;
        VDF_penalty1 := 0%Q;
        allowed_use := allowed_use_function (route_type a);
        l_agency_name := agency_name0;
        l_stop_sequence := CInt (stop_sequence a);
        l_directed_service_id := directed_service_id a |}.

(** The inner loop over the rows of [one_line_df]; it returns the links
    in the order they are appended and the counter after the loop. *)
Fixpoint service_links_of_line (node_id_dict : gmap string Z)
    (agency_name0 : string) (number_of_trips : Z)
    (number_of_route_links : Z) (one_line_df : list Enriched)
    : result (list Link * Z) :=
  match one_line_df with
  | a :: ((b :: _) as rest) =>
      let* l := service_link node_id_dict agency_name0 number_of_trips
                             number_of_route_links a b in
      let* r := service_links_of_line node_id_dict agency_name0 number_of_trips
                                      (number_of_route_links + 1) rest in
      Ok (l :: r.1, r.2)
  | _ => Ok ([], number_of_route_links)
  end.

(** The state of the loop over the groups of [directed_service_id]. *)
Record ServiceState : Type := mkServiceState {
  one_agency_link_list : list Link;
  number_of_route_links : Z;
  frequency_dict : gmap string Z;
  labeled_directed_service_list : list string
}.

Definition service_group (node_id_dict : gmap string Z)
    (st : ServiceState) (group : string * list Enriched) : result ServiceState :=
  let directed_service_id := group.1 in
  let route_df := group.2 in
  if decide (directed_service_id ∈ labeled_directed_service_list st) then Ok st
  else
    let trips := unique (map trip_id route_df) in
    let number_of_trips := Z.of_nat (length trips) in
    let* first_trip := of_option (head trips) (IndexError "index 0 is out of bounds") in
    let one_line_df := filter (fun r => trip_id r = first_trip) route_df in
    let one_line_df := sort_values_int stop_sequence one_line_df in
    let agency_name0 := default EmptyString (agency_name <$> head one_line_df) in
    let* r := service_links_of_line node_id_dict agency_name0 number_of_trips
                                    (number_of_route_links st) one_line_df in
    Ok {| one_agency_link_list := one_agency_link_list st ++ r.1;
          number_of_route_links := r.2;
          frequency_dict := <[directed_service_id := number_of_trips]> (frequency_dict st);
          labeled_directed_service_list :=
            labeled_directed_service_list st ++ [directed_service_id] |}.

Fixpoint service_groups (node_id_dict : gmap string Z) (st : ServiceState)
    (groups : list (string * list Enriched)) : result ServiceState :=
  match groups with
  | [] => Ok st
  | g :: groups' =>
      let* st' := service_group node_id_dict st g in
      service_groups node_id_dict st' groups'
  end.

(** *** Boarding links *)

(** The body of the loop over the service nodes: the inbound and the
    outbound link of [row]. *)
Definition boarding_links_of_node (directed_service_dict : gmap Z string)
    (node_lon_dict node_lat_dict : gmap Z Q) (frequency_dict : gmap string Z)
    (number_of_route_links number_of_sta2route_links : Z) (row : Node)
    : result (Link * Link) :=
  let link_id := 1000000 + number_of_route_links + number_of_sta2route_links in
  let from_node_id := physical_node_id row in
  let to_node_id := node_id row in
  let facility_type := convert_route_type_to_link_type (n_route_type row) in
  let to_node_lon := x_coord row in
  let to_node_lat := y_coord row in
  let* from_node_lon := of_option (node_lon_dict !! physical_node_id row)
                                  (KeyError "physical_node_id") in
  let* from_node_lat := of_option (node_lat_dict !! physical_node_id row)
                                  (KeyError "physical_node_id") in
  let length := calculate_distance_from_geometry
                  from_node_lon from_node_lat to_node_lon to_node_lat in
  let* directed_service_id := of_option (directed_service_dict !! to_node_id)
                                        (KeyError "node_id") in
  let allowed_use := allowed_use_function (n_route_type row) in
  let* frequency := of_option (frequency_dict !! n_directed_service_id row)
                              (KeyError (n_directed_service_id row)) in
  let VDF_fftt1 :=
    Qmin ((1 # 2) * (inject_Z (period_end_time - period_start_time)
                     / inject_Z frequency))%Q 10%Q in
  let mk (link_id from_node_id to_node_id : Z) (fftt : Q) : Link :=
    {| link_id := link_id;
       from_node_id := from_node_id;
       to_node_id := to_node_id;
       facility_type := facility_type;
       dir_flag := 1;
       l_directed_route_id := CStr (n_directed_route_id row);
       link_type := 2;
       link_type_name := "boarding_links";
       l_length := length;
       lanes := 1;
       capacity := 999999;
       free_speed := Some 2%Q;
       cost := 0;
       VDF_fftt1 := Some fftt;
       VDF_cap1 := 1 * 999999;
       VDF_alpha1 := (15 # 100)%Q;
       VDF_beta1 := 4;
       VDF_penalty1 := 0%Q;
       allowed_use := allowed_use;
       l_agency_name := n_agency_name row;
       l_stop_sequence := CInt (-1);
       l_directed_service_id := directed_service_id |} in
  let link_list_inbound := mk link_id from_node_id to_node_id VDF_fftt1 in
  let number_of_sta2route_links := number_of_sta2route_links + 1 in
  let link_id := 1000000 + number_of_route_links + number_of_sta2route_links in
  let link_list_outbound := mk link_id to_node_id from_node_id 1%Q in
  Ok (link_list_inbound, link_list_outbound).

Fixpoint boarding_links (directed_service_dict : gmap Z string)
    (node_lon_dict node_lat_dict : gmap Z Q) (frequency_dict : gmap string Z)
    (number_of_route_links number_of_sta2route_links : Z)
    (service_node_df : list Node) : result (list Link) :=
  match service_node_df with
  | [] => Ok []
  | row :: rows =>
      let* io := boarding_links_of_node directed_service_dict node_lon_dict
                   node_lat_dict frequency_dict number_of_route_links
                   number_of_sta2route_links row in
      let* r := boarding_links directed_service_dict node_lon_dict node_lat_dict
                  frequency_dict number_of_route_links
                  (number_of_sta2route_links + 2) rows in
      Ok (io.1 :: io.2 :: r)
  end.

(** [create_service_boarding_links] *)
Definition create_service_boarding_links (df : list Enriched)
    (node_df : list Node) (one_agency_link_list0 : list Link)
    : result (list Link) :=
  let node_id_dict := dict_zip (map name node_df) (map node_id node_df) in
  let directed_service_dict := dict_zip_Z (map node_id node_df) (map name node_df) in
  let node_lon_dict := dict_zip_Z (map node_id node_df) (map x_coord node_df) in
  let node_lat_dict := dict_zip_Z (map node_id node_df) (map y_coord node_df) in
  let iteration_group := groupby directed_service_id df in
  let* st := service_groups node_id_dict
               {| one_agency_link_list := one_agency_link_list0;
                  number_of_route_links := 0;
                  frequency_dict := ∅;
                  labeled_directed_service_list := [] |}
               iteration_group in
  let service_node_df :=
    filter (fun n => node_id n ≠ physical_node_id n) node_df in
  let* boarding := boarding_links directed_service_dict node_lon_dict
                     node_lat_dict (frequency_dict st)
                     (number_of_route_links st) 0 service_node_df in
  Ok (one_agency_link_list st ++ boarding).

(** *** Transferring links *)

(** The four masks of the bounding box around [(ref_x, ref_y)]. *)
Definition in_box (ref_x ref_y : Q) (n : Node) : bool :=
  let mask1 := Qle_bool (ref_x - (3 # 1000)) (x_coord n) in
  let mask2 := Qle_bool (x_coord n) (ref_x + (3 # 1000)) in
  let mask3 := Qle_bool (ref_y - (3 # 1000)) (y_coord n) in
  let mask4 := Qle_bool (y_coord n) (ref_y + (3 # 1000)) in
  mask1 && mask2 && mask3 && mask4.

Definition transfer_link (link_id from_node_id to_node_id : Z) (length : Q)
    (p q : Node) : Link :=
  {| link_id := link_id;
     from_node_id := from_node_id;
     to_node_id := to_node_id;
     facility_type := "sta2sta";
     dir_flag := 1;
     l_directed_route_id := CInt (-1);
     link_type := 3;
     link_type_name := "transferring_links";
     l_length := length;
     lanes := 1;
     capacity := 999999;
     free_speed := Some 1%Q;
     cost := 60;
     VDF_fftt1 := Some ((length / 1000) / 1)%Q;
     VDF_cap1 := 1 * 999999;
     VDF_alpha1 := (15 # 100)%Q;
     VDF_beta1 := 4;
     VDF_penalty1 := transferring_penalty (node_type p) (node_type q);
     allowed_use := allowed_use_transferring (node_type p) (node_type q);
     l_agency_name := EmptyString;
     l_stop_sequence := CStr EmptyString;
     l_directed_service_id := EmptyString |}.

(** The loop [for j in range(len(neighboring_node_df))] for the origin
    [p], from the neighbour at the head of [neighbors] on.  It returns the
    links appended and the counter [number_of_transferring_links]. *)
Fixpoint transfer_from (p : Node) (neighbors : list Node) (count : Z)
    (labeled_list : list (string * string))
    (number_of_transferring_links : Z) : list Link * Z :=
  match neighbors with
  | [] => ([], number_of_transferring_links)
  | q :: rest =>
      if 10 <=? count then ([], number_of_transferring_links)
      else if decide ((n_route_id p, n_agency_name p) = (n_route_id q, n_agency_name q))
      then transfer_from p rest count labeled_list number_of_transferring_links
      else
        let length := calculate_distance_from_geometry
                        (x_coord p) (y_coord p) (x_coord q) (y_coord q) in
        if Qlt_bool (321869 # 1000) length || Qlt_bool length 1
        then transfer_from p rest count labeled_list number_of_transferring_links
        else if decide ((n_route_id q, n_agency_name q) ∈ labeled_list)
        then transfer_from p rest count labeled_list number_of_transferring_links
        else
          let l1 := transfer_link (number_of_transferring_links + 1)
                                  (node_id p) (node_id q) length p q in
          let l2 := transfer_link (number_of_transferring_links + 1 + 1)
                                  (node_id q) (node_id p) length p q in
          let r := transfer_from p rest (count + 1)
                     (labeled_list ++ [(n_route_id q, n_agency_name q)])
                     (number_of_transferring_links + 1 + 1) in
          (l1 :: l2 :: r.1, r.2)
  end.

(** One turn of [for i in range(len(physical_node_df))]. *)
Definition transfer_of_origin (physical_node_df : list Node) (p : Node)
    (number_of_transferring_links : Z) : list Link * Z :=
  let neighboring_node_df :=
    filter (fun n => in_box (x_coord p) (y_coord p) n = true) physical_node_df in
  transfer_from p neighboring_node_df 0 [] number_of_transferring_links.

Fixpoint transfer_loop (physical_node_df : list Node) (origins : list Node)
    (number_of_transferring_links : Z) : list Link :=
  match origins with
  | [] => []
  | p :: origins' =>
      let r := transfer_of_origin physical_node_df p number_of_transferring_links in
      r.1 ++ transfer_loop physical_node_df origins' r.2
  end.

Definition physical_of (all_node_df : list Node) : list Node :=
  filter (fun n => node_id n = physical_node_id n) all_node_df.

(** [create_transferring_links] *)
Definition create_transferring_links (all_node_df : list Node)
    (all_link_list : list Link) : list Link :=
  let physical_node_df := physical_of all_node_df in
  all_link_list ++ transfer_loop physical_node_df physical_node_df 0.

End CreateLinks.

End Links.

(** ** Assembly: [main] *)

Module Assembly.
Import Frame Ingest Nodes Links.

(** [all_link_df.drop_duplicates(subset=['from_node_id', 'to_node_id'],
    keep='last')] *)
Definition endpoints (l : Link) : Z * Z := (from_node_id l, to_node_id l).

Definition drop_duplicate_links (all_link_list : list Link) : list Link :=
  drop_duplicates_last endpoints all_link_list.

Section Main.

Variable other_time : string -> result (option Z).
Variable determine_terminal_flag : list StopTime -> list StopTime.
Variable stop_sequence_label_pass : list StopTime -> list StopTime.
Variable convert_route_type_to_node_type_p : Z -> string.
Variable convert_route_type_to_node_type_s : Z -> string.
Variable convert_route_type_to_link_type : Z -> string.
Variable allowed_use_function : Z -> string.
Variable calculate_distance_from_geometry : Q -> Q -> Q -> Q -> Q.
Variable transferring_penalty : string -> string -> Q.
Variable allowed_use_transferring : string -> string -> string.

(** [hhmm_to_minutes(time_period)] is part of [func_lib]; the window is
    taken in minutes. *)
Variables period_start_time period_end_time : Z.

Definition main (gtfs : GTFS) : result (list Node * list Link) :=
  let* read := read_gtfs_data other_time determine_terminal_flag
                 stop_sequence_label_pass
                 period_start_time period_end_time gtfs in
  let directed_trip_route_stop_time_df := read.2 in
  let* node_df := create_nodes convert_route_type_to_node_type_p
                    convert_route_type_to_node_type_s
                    directed_trip_route_stop_time_df in
  let* all_link_list :=
    create_service_boarding_links convert_route_type_to_link_type
      allowed_use_function calculate_distance_from_geometry
      period_start_time period_end_time
      directed_trip_route_stop_time_df node_df [] in
  let all_link_list :=
    create_transferring_links calculate_distance_from_geometry
      transferring_penalty allowed_use_transferring node_df all_link_list in
  let all_link_df := drop_duplicate_links all_link_list in
  Ok (node_df, all_link_df).

End Main.

End Assembly.


(** ** The helpers of [utility_lib.py] *)

Module UtilityLib.

Definition backslash : ascii := ascii_of_nat 92.

(** [path.replace(backslash, "/")], for a path given as text. *)
Fixpoint path2linux (path : string) : string :=
  match path with
  | EmptyString => EmptyString
  | String c rest =>
      String (if Ascii.eqb c backslash then "/"%char else c) (path2linux rest)
  end.

Fixpoint has_dot (s : string) : bool :=
  match s with
  | EmptyString => false
  | String c rest => Ascii.eqb c "."%char || has_dot rest
  end.

(** [file.split(".")[-1]]: what follows the last dot of [file], and the
    whole of [file] when it has no dot. *)
Fixpoint last_segment (file : string) : string :=
  match file with
  | EmptyString => EmptyString
  | String c rest =>
      if has_dot rest then last_segment rest
      else if Ascii.eqb c "."%char then rest
      else file
  end.

Section Folder.

(** [os.path.join], and what [os.listdir] and [os.walk] find in the
    folder: the file names of the folder, and for each folder of the walk
    its path with its file names. *)
Variable os_path_join : string -> string -> string.
Variable listdir : list string.
Variable walk : list (string * list string).

Definition get_txt_files_from_folder (dir_name file_type : string)
    (isTraverseSubdirectory : bool) : list string :=
  if isTraverseSubdirectory then
    let files_list := flat_map (fun rf => map (os_path_join rf.1) rf.2) walk in
    map path2linux (filter (fun file => last_segment file = file_type) files_list)
  else
    map (fun file => path2linux (os_path_join dir_name file))
        (filter (fun file => last_segment file = file_type) listdir).

End Folder.

(** [mask = [file in dir_files for file in required_files]] and
    [all(mask)]. *)
Definition check_required_files_exist (required_files dir_files : list string) : bool :=
  forallb (fun file => bool_decide (file ∈ dir_files)) required_files.

(** The files the mask reports as missing. *)
Definition missing_files (required_files dir_files : list string) : list string :=
  filter (fun file => file ∉ dir_files) required_files.

(** Step 1 of [read_gtfs_data]: the test whose failure raises
    [Exception("Error: Required files not exist in the folder!")]. *)
Definition required_files : list string :=
  ["agency.txt"; "stops.txt"; "routes.txt"; "trips.txt"; "stop_times.txt"].

Definition required_files_exist (os_path_join : string -> string -> string)
    (listdir : list string) (gtfs_dir : string) : bool :=
  let required := map (fun file => path2linux (os_path_join gtfs_dir file)) required_files in
  let txt_files_from_folder_abspath :=
    get_txt_files_from_folder os_path_join listdir [] gtfs_dir "txt" false in
  check_required_files_exist required txt_files_from_folder_abspath.

End UtilityLib.
(** ** Statements about times *)

Module TimeSpecs.
Import TimeConv.

(** The number written by two digits, and the text [HH:MM:SS] of six
    digits. *)
Definition two_digits (d1 d2 : ascii) : Z := 10 * digit_val d1 + digit_val d2.

Definition hh_mm_ss (h1 h2 m1 m2 s1 s2 : ascii) : string :=
  String h1 (String h2 (String ":" (String m1 (String m2
    (String ":" (String s1 (String s2 EmptyString))))))).

End TimeSpecs.

(** ** Statements about nodes *)

Module NodeSpecs.
Import Frame Ingest Nodes.

(** What a physical node carries: the columns of the row [r] of the
    enriched frame, under the name and the identifier of [row]. *)
Definition physical_from (convert_route_type_to_node_type_p : Z -> string)
    (row : (nat * string) * Z) (r : Enriched) (n : Node) : Prop :=
  name n = row.1.2 /\ node_id n = row.2 /\ physical_node_id n = row.2
  /\ x_coord n = stop_lon r /\ y_coord n = stop_lat r
  /\ n_route_type n = route_type r /\ n_route_id n = route_id r
  /\ node_type n = convert_route_type_to_node_type_p (route_type r)
  /\ n_agency_name n = agency_name r
  /\ n_terminal_flag n = terminal_flag r.

(** [r] is the first row of the frame [df] whose [stop_id] is [s]; [i]
    is its position. *)
Definition first_occurrence (df : list Enriched) (s : string) (i : nat)
    (r : Enriched) : Prop :=
  df !! i = Some r /\ stop_id r = s
  /\ forall j r', (j < i)%nat -> df !! j = Some r' -> stop_id r' <> s.

End NodeSpecs.


(** ** Statements about transferring links *)

Module LinkSpecs.
Import Frame Ingest Nodes Links.


(** The links [links] are numbered [base + 1], [base + 2], ... in the
    order of the list. *)
Definition numbered_from (base : Z) (links : list Link) : Prop :=
  map link_id links = map (fun k => base + Z.of_nat k) (seq 1 (length links)).

(** The two boarding links of the service node [row]: from its physical
    node to it with a waiting time of at most 10, and back with the time
    1, both of one length. *)
Definition boarding_pair (row : Node) (p : Link * Link) : Prop :=
  from_node_id p.1 = physical_node_id row /\ to_node_id p.1 = node_id row
  /\ from_node_id p.2 = node_id row /\ to_node_id p.2 = physical_node_id row
  /\ l_length p.1 = l_length p.2
  /\ (exists t, VDF_fftt1 p.1 = Some t /\ (t <= 10)%Q)
  /\ VDF_fftt1 p.2 = Some 1%Q.

(** Two transferring links that join the same two nodes in the two
    directions, with one length. *)
Definition reciprocal (p : Link * Link) : Prop :=
  from_node_id p.2 = to_node_id p.1 /\ to_node_id p.2 = from_node_id p.1
  /\ l_length p.2 = l_length p.1.


End LinkSpecs.

(** ** Statements about service nodes *)

Module ServiceSpecs.
Import Frame Ingest Nodes.

(** What a service node carries: the columns of the row [r] of the
    enriched frame, with the coordinates moved by 0.0001. *)
Definition service_from (convert_route_type_to_node_type_s : Z -> string)
    (r : Enriched) (n : Node) : Prop :=
  x_coord n = (stop_lon r - (1 # 10000))%Q
  /\ y_coord n = (stop_lat r - (1 # 10000))%Q
  /\ n_route_type n = route_type r /\ n_route_id n = route_id r
  /\ node_type n = convert_route_type_to_node_type_s (route_type r)
  /\ n_directed_route_id n = directed_route_id r
  /\ n_directed_service_id n = directed_service_id r
  /\ n_agency_name n = agency_name r
  /\ n_terminal_flag n = terminal_flag r.

End ServiceSpecs.

(** ** Statements about the enriched frame *)

Module IngestSpecs.
Import Frame Ingest.

(** The row [r] of the enriched frame carries the agency of the feed, a
    trip of [trips.txt], a pair of [trip_route_df] with its route, and a
    stop of [stops.txt] with its coordinates. *)
Definition joined (gtfs : GTFS) (trip_route_df : list (Trip * Route))
    (r : Enriched) : Prop :=
  head (agency_df gtfs) = Some (agency_name r)
  /\ (exists t, t ∈ trip_df gtfs /\ ti_trip_id t = trip_id r)
  /\ (exists tr, tr ∈ trip_route_df
                 /\ t_trip_id tr.1 = trip_id r
                 /\ r_route_id tr.2 = route_id r
                 /\ r_route_type tr.2 = route_type r)
  /\ (exists s, s ∈ stop_df gtfs
                /\ s_stop_id s = stop_id r
                /\ s_stop_lat s = stop_lat r
                /\ s_stop_lon s = stop_lon r).

End IngestSpecs.
(** ** Concrete feeds *)

Module Fixtures.
Import Frame Ingest Nodes Links.

Definition stop_A : Stop :=
  {| s_stop_id := "A"; s_stop_name := "Stop A"; s_stop_lat := 0%Q; s_stop_lon := 0%Q |}.

Definition stop_B : Stop :=
  {| s_stop_id := "B"; s_stop_name := "Stop B"; s_stop_lat := 0%Q;
     s_stop_lon := (1 # 1000)%Q |}.

Definition route_R1 : Route :=
  {| r_route_id := "R1"; r_route_short_name := "1";
     r_route_long_name := "Line 1"; r_route_type := 3 |}.

Definition stop_time (trip stop : string) (sequence : Z) (arrival departure : option string)
    : StopTimeIn :=
  {| sti_trip_id := trip; sti_arrival_time := arrival;
     sti_departure_time := departure; sti_stop_id := stop;
     sti_stop_sequence := sequence |}.

(** One trip on one route, from A at 06:00 to B at 06:10. *)
Definition early_feed : GTFS :=
  {| agency_df := ["Metro"];
     stop_df := [stop_A; stop_B];
     route_df := [route_R1];
     trip_df := [ {| ti_route_id := "R1"; ti_trip_id := "T1"; ti_direction_id := Some 0 |} ];
     stop_time_df := [ stop_time "T1" "A" 1 (Some "06:00:00") (Some "06:00:00");
                       stop_time "T1" "B" 2 (Some "06:10:00") (Some "06:10:00") ] |}.

(** Two trips between 07:10 and 07:20; the route R2 of the second trip is
    not in the routes table. *)
Definition orphan_feed : GTFS :=
  {| agency_df := ["Metro"];
     stop_df := [stop_A; stop_B];
     route_df := [route_R1];
     trip_df := [ {| ti_route_id := "R1"; ti_trip_id := "T1"; ti_direction_id := Some 0 |};
                  {| ti_route_id := "R2"; ti_trip_id := "T2"; ti_direction_id := Some 0 |} ];
     stop_time_df := [ stop_time "T1" "A" 1 (Some "07:10:00") (Some "07:10:00");
                       stop_time "T1" "B" 2 (Some "07:20:00") (Some "07:20:00");
                       stop_time "T2" "A" 1 (Some "07:15:00") (Some "07:15:00");
                       stop_time "T2" "B" 2 (Some "07:25:00") (Some "07:25:00") ] |}.

(** A stop time with an arrival time and a null departure time. *)
Definition no_departure : StopTimeIn :=
  stop_time "T1" "A" 1 (Some "07:10:00") None.

(** Rows of one trip by arrival minute, in sequence order. *)
Definition trip_at (arrivals : list Z) : list StopTime :=
  imap (fun i a => {| st_trip_id := "T1"; st_arrival_time := Some a;
                      st_departure_time := Some a; st_stop_id := "A";
                      st_stop_sequence := Z.of_nat i;
                      st_terminal_flag := EmptyString;
                      st_stop_sequence_label := EmptyString |}) arrivals.

(** The enriched frame of one bus trip T1 on route R1 from A (07:10) to
    B (07:20), with the flags and a label of the two labelling passes. *)
Definition labelled_stop_time (stop : string) (sequence minute : Z) (flag : string)
    : StopTime :=
  {| st_trip_id := "T1"; st_arrival_time := Some minute;
     st_departure_time := Some minute; st_stop_id := stop;
     st_stop_sequence := sequence; st_terminal_flag := flag;
     st_stop_sequence_label := "A;B" |}.

Definition trip_T1 : Trip :=
  direct_trip {| ti_route_id := "R1"; ti_trip_id := "T1"; ti_direction_id := Some 0 |}.

Definition two_stop_frame : list Enriched :=
  [ enrich "Metro" (trip_T1, route_R1) (labelled_stop_time "A" 1 430 "origin") stop_A;
    enrich "Metro" (trip_T1, route_R1) (labelled_stop_time "B" 2 440 "destination") stop_B ].

(** A route type table that names every node a stop. *)
Definition stop_node_type (route_type : Z) : string := "stop".

(** Stop number [k] of a frame with one row per stop: trip T1 of route R1
    calls at the stops named 0, 1, 2, ... in turn. *)
Definition numbered_stop (k : nat) : Enriched :=
  enrich "Metro" (trip_T1, route_R1)
         (labelled_stop_time (pretty k) (Z.of_nat k + 1) 430 EmptyString)
         {| s_stop_id := pretty k; s_stop_name := pretty k;
            s_stop_lat := 0%Q; s_stop_lon := 0%Q |}.

Definition numbered_stops (n : nat) : list Enriched :=
  map numbered_stop (seq 0 n).

(** A frame in which the stop B occurs twice: trip T1 of the bus route R1
    runs from A to B, trip T2 of the rail route R2 starts at B and ends
    at C. *)
Definition route_R2 : Route :=
  {| r_route_id := "R2"; r_route_short_name := "2";
     r_route_long_name := "Line 2"; r_route_type := 2 |}.

Definition trip_T2 : Trip :=
  direct_trip {| ti_route_id := "R2"; ti_trip_id := "T2"; ti_direction_id := Some 1 |}.

Definition stop_C : Stop :=
  {| s_stop_id := "C"; s_stop_name := "Stop C"; s_stop_lat := (1 # 1000)%Q;
     s_stop_lon := (1 # 1000)%Q |}.

Definition shared_stop_frame : list Enriched :=
  [ enrich "Metro" (trip_T1, route_R1) (labelled_stop_time "A" 1 430 "origin") stop_A;
    enrich "Metro" (trip_T1, route_R1) (labelled_stop_time "B" 2 440 "destination") stop_B;
    enrich "Metro" (trip_T2, route_R2)
           {| st_trip_id := "T2"; st_arrival_time := Some 450;
              st_departure_time := Some 450; st_stop_id := "B";
              st_stop_sequence := 1; st_terminal_flag := "origin";
              st_stop_sequence_label := "B;C" |} stop_B;
    enrich "Metro" (trip_T2, route_R2)
           {| st_trip_id := "T2"; st_arrival_time := Some 460;
              st_departure_time := Some 460; st_stop_id := "C";
              st_stop_sequence := 2; st_terminal_flag := "destination";
              st_stop_sequence_label := "B;C" |} stop_C ].

(** A distance in the plane for the evaluations: 100000 metres to the
    degree, along the axes. *)
Definition Qdist (a b : Q) : Q := if Qle_bool a b then (b - a)%Q else (a - b)%Q.

Definition grid_distance (from_lon from_lat to_lon to_lat : Q) : Q :=
  Qred ((Qdist from_lon to_lon + Qdist from_lat to_lat) * 100000)%Q.

(** What [read_gtfs_data] makes of [orphan_feed] for the window 07:00 to
    08:00 when the two labelling passes change nothing: the two rows of
    trip T1. *)
Definition unlabelled_stop_time (stop : string) (sequence minute : Z) : StopTime :=
  {| st_trip_id := "T1"; st_arrival_time := Some minute;
     st_departure_time := Some minute; st_stop_id := stop;
     st_stop_sequence := sequence; st_terminal_flag := EmptyString;
     st_stop_sequence_label := EmptyString |}.

Definition orphan_frame : list Enriched :=
  [ enrich "Metro" (trip_T1, route_R1) (unlabelled_stop_time "A" 1 430) stop_A;
    enrich "Metro" (trip_T1, route_R1) (unlabelled_stop_time "B" 2 440) stop_B ].

(** The node table of [two_stop_frame], and its service and boarding
    links for the window 07:00 to 08:00 and the distance above. *)
Definition bus_link_type (route_type : Z) : string := "bus".

Definition walk_use (route_type : Z) : string := "w".

Definition two_stop_nodes : list Node :=
  Eval vm_compute in
    match create_nodes stop_node_type stop_node_type two_stop_frame with
    | Ok node_df => node_df
    | Err _ => []
    end.

Definition two_stop_links : list Link :=
  Eval vm_compute in
    match create_service_boarding_links bus_link_type walk_use grid_distance 420 480
                                        two_stop_frame two_stop_nodes [] with
    | Ok links => links
    | Err _ => []
    end.

(** A feed whose routes table writes the route in double quotes, and
    whose trips table does not. *)
Definition quoted (s : string) : string :=
  String dquote (s +:+ String dquote EmptyString).

Definition quoted_route : Route :=
  {| r_route_id := quoted "green2"; r_route_short_name := "G2";
     r_route_long_name := "Green 2"; r_route_type := 3 |}.

Definition green_trip : Trip :=
  direct_trip {| ti_route_id := "green2"; ti_trip_id := "T1"; ti_direction_id := Some 0 |}.

(** The tables of transfers taken constant, a time parser that reads
    the clock form alone, and what [main] returns for [orphan_feed] and
    the window 07:00 to 08:00 with these, when the two labelling passes
    change nothing. *)
Definition no_penalty (from_type to_type : string) : Q := 0%Q.

Definition walk_transfer (from_type to_type : string) : string := "w".

Definition clock_only (s : string) : result (option Z) :=
  Err (ValueError "unit abbreviation w/o a number").

Definition orphan_network : list Node * list Link :=
  Eval vm_compute in
    match Assembly.main clock_only id id stop_node_type stop_node_type bus_link_type walk_use
                        grid_distance no_penalty walk_transfer 420 480 orphan_feed with
    | Ok out => out
    | Err _ => ([], [])
    end.

End Fixtures.
(** ** Theorems *)

Module TimeConvFacts.
Import TimeConv.

Example tt_is_day_18628 : days_from_civil 2021 1 1 = 18628.
Proof. reflexivity. Qed.

Example scenario_F : convert_time "25:10:00" = Some 1510.
Proof. vm_compute. reflexivity. Qed.

Example roll_over_february :
  tt_plus (3600 * 744) =
  {| year := 2021; month := 2; day := 1; hour := 0; minute := 0; second := 0 |}.
Proof. vm_compute. reflexivity. Qed.

Lemma digit_val_nonneg c : is_digit c = true -> 0 <= digit_val c <= 9.
Proof.
  unfold is_digit, digit_val. cbv zeta.
  rewrite andb_true_iff, !Nat.leb_le. lia.
Qed.

Lemma digits_nonneg s : forall acc v, 0 <= acc -> digits acc s = Some v -> 0 <= v.
Proof.
  induction s as [|c r IH]; simpl; intros acc v Hacc Hd.
  - congruence.
  - destruct (is_digit c) eqn:Hc; [|discriminate].
    apply digit_val_nonneg in Hc. eapply IH; [|exact Hd]. lia.
Qed.

Lemma number_nonneg s v : number s = Some v -> 0 <= v.
Proof.
  destruct s; simpl; [discriminate|].
  intros H. eapply (digits_nonneg (String a s) 0); [lia|exact H].
Qed.

Lemma parse_hms_range s h m sec :
  parse_hms s = Some (h, m, sec) -> 0 <= h /\ 0 <= m < 60 /\ 0 <= sec < 60.
Proof.
  unfold parse_hms.
  destruct (split_colon s) as [|hh [|mm [|ss [|? ?]]]]; try discriminate.
  destruct (number hh) eqn:Hh; [|discriminate].
  destruct (number mm) eqn:Hm; [|discriminate].
  destruct (number ss) eqn:Hs; [|discriminate].
  destruct (_ && _)%bool eqn:Hc; [|discriminate].
  intros [= <- <- <-].
  rewrite !andb_true_iff, !Z.ltb_lt in Hc.
  apply number_nonneg in Hh, Hm, Hs. lia.
Qed.

(** In January the day of the month is the day offset plus one. *)
Lemma january_day d :
  0 <= d < 31 -> civil_from_days (18628 + d) = (2021, 1, d + 1).
Proof.
  intros Hd.
  assert (Hall : forallb (fun k => let '(y, m, dd) := civil_from_days (18628 + k) in
                            (y =? 2021) && (m =? 1) && (dd =? k + 1))
                         (map Z.of_nat (seq 0 31)) = true)
    by (vm_compute; reflexivity).
  rewrite forallb_forall in Hall.
  specialize (Hall d).
  destruct (civil_from_days (18628 + d)) as [[y m] dd].
  assert (Hin : In d (map Z.of_nat (seq 0 31))).
  { apply in_map_iff. exists (Z.to_nat d). split; [lia|].
    apply in_seq. lia. }
  specialize (Hall Hin).
  rewrite !andb_true_iff, !Z.eqb_eq in Hall. destruct Hall as [[-> ->] ->].
  reflexivity.
Qed.

Lemma tt_plus_fields h m sec :
  0 <= h < 744 -> 0 <= m < 60 -> 0 <= sec < 60 ->
  tt_plus (3600 * h + 60 * m + sec) =
  {| year := 2021; month := 1; day := h / 24 + 1;
     hour := h mod 24; minute := m; second := sec |}.
Proof.
  intros Hh Hm Hs. unfold tt_plus, add_timedelta.
  rewrite tt_is_day_18628.
  set (td := 3600 * h + 60 * m + sec).
  assert (Hq : (18628 * 86400 + td) / 86400 = 18628 + h / 24).
  { subst td. pose proof (Z.div_mod h 24 ltac:(lia)).
    pose proof (Z.mod_pos_bound h 24 ltac:(lia)).
    symmetry. apply (Z.div_unique _ _ _ ((h mod 24) * 3600 + 60 * m + sec)); lia. }
  assert (Hr : (18628 * 86400 + td) mod 86400 = (h mod 24) * 3600 + 60 * m + sec).
  { subst td. pose proof (Z.div_mod h 24 ltac:(lia)).
    pose proof (Z.mod_pos_bound h 24 ltac:(lia)).
    symmetry. apply (Z.mod_unique _ _ (18628 + h / 24)); lia. }
  rewrite Hq, Hr.
  rewrite january_day
    by (split; [apply Z.div_pos; lia | apply Z.div_lt_upper_bound; lia]).
  pose proof (Z.mod_pos_bound h 24 ltac:(lia)) as Hb.
  f_equal.
  - symmetry. apply (Z.div_unique _ _ _ (60 * m + sec)); lia.
  - assert (Hm3600 : (h mod 24 * 3600 + 60 * m + sec) mod 3600 = 60 * m + sec)
      by (symmetry; apply (Z.mod_unique _ _ (h mod 24)); lia).
    rewrite Hm3600. symmetry. apply (Z.div_unique _ _ _ sec); lia.
  - symmetry. apply (Z.mod_unique _ _ ((h mod 24) * 60 + m)); lia.
Qed.

(** Within January 2021 the day of the month counts the whole days of
    the duration: under 744 hours the minutes are [60 * h + m]. *)
Lemma convert_time_within_january (s : string) (h m sec : Z) :
  parse_hms s = Some (h, m, sec) ->
  h < 744 ->
  convert_time s = Some ((h mod 24) * 60 + m + 1440 * (h / 24))
  /\ (h mod 24) * 60 + m + 1440 * (h / 24) = 60 * h + m.
Proof.
  intros Hp Hh.
  destruct (parse_hms_range _ _ _ _ Hp) as (Hh0 & Hm & Hs).
  split.
  - unfold convert_time, to_timedelta. rewrite Hp.
    replace (h <? 1000000) with true by (symmetry; apply Z.ltb_lt; lia).
    rewrite tt_plus_fields by lia.
    unfold to_minute. simpl. do 2 f_equal. lia.
  - pose proof (Z.div_mod h 24 ltac:(lia)). lia.
Qed.

(** The day of the month starts again on the first of February. *)
Example convert_time_744_hours : convert_time "744:00:00" = Some 0.
Proof. vm_compute. reflexivity. Qed.

Lemma digit_not_colon c : is_digit c = true -> Ascii.eqb c ":" = false.
Proof.
  intros Hc. destruct (Ascii.eqb_spec c ":") as [->|]; [discriminate Hc | reflexivity].
Qed.

Lemma number_two_digits d1 d2 :
  is_digit d1 = true -> is_digit d2 = true ->
  number (String d1 (String d2 EmptyString)) = Some (TimeSpecs.two_digits d1 d2).
Proof.
  intros H1 H2. unfold number, digits. rewrite H1, H2.
  unfold TimeSpecs.two_digits. apply f_equal. lia.
Qed.

Lemma split_colon_hh_mm_ss h1 h2 m1 m2 s1 s2 :
  is_digit h1 = true -> is_digit h2 = true ->
  is_digit m1 = true -> is_digit m2 = true ->
  is_digit s1 = true -> is_digit s2 = true ->
  split_colon (TimeSpecs.hh_mm_ss h1 h2 m1 m2 s1 s2)
  = [String h1 (String h2 EmptyString);
     String m1 (String m2 EmptyString);
     String s1 (String s2 EmptyString)].
Proof.
  intros Hh1 Hh2 Hm1 Hm2 Hs1 Hs2.
  apply digit_not_colon in Hh1, Hh2, Hm1, Hm2, Hs1, Hs2.
  unfold TimeSpecs.hh_mm_ss. cbn [split_colon].
  rewrite Hh1, Hh2, Hm1, Hm2, Hs1, Hs2. reflexivity.
Qed.

Lemma parse_hms_hh_mm_ss h1 h2 m1 m2 s1 s2 :
  is_digit h1 = true -> is_digit h2 = true ->
  is_digit m1 = true -> is_digit m2 = true ->
  is_digit s1 = true -> is_digit s2 = true ->
  TimeSpecs.two_digits m1 m2 < 60 -> TimeSpecs.two_digits s1 s2 < 60 ->
  parse_hms (TimeSpecs.hh_mm_ss h1 h2 m1 m2 s1 s2)
  = Some (TimeSpecs.two_digits h1 h2, TimeSpecs.two_digits m1 m2,
          TimeSpecs.two_digits s1 s2).
Proof.
  intros Hh1 Hh2 Hm1 Hm2 Hs1 Hs2 Hm Hs. unfold parse_hms.
  rewrite split_colon_hh_mm_ss by assumption.
  rewrite !number_two_digits by assumption.
  apply Z.ltb_lt in Hm, Hs. rewrite Hm, Hs. reflexivity.
Qed.

End TimeConvFacts.

Module TimeClaims.
Import TimeConv TimeConvFacts TimeSpecs.

(** C9.  A time [HH:MM:SS], a duration from midnight whose two-digit hour
    field may be 24 and more, is converted to the integer
    [hour * 60 + minute + 1440 * day_offset], where [hour] is the hour of
    the day, [HH mod 24], and [day_offset] the number of whole days of the
    duration, [HH / 24]: the minutes from midnight, [60 * HH + MM].  The
    time 25:10:00 gives 1510. *)
Theorem convert_time_hh_mm_ss (h1 h2 m1 m2 s1 s2 : ascii) :
  is_digit h1 = true -> is_digit h2 = true ->
  is_digit m1 = true -> is_digit m2 = true ->
  is_digit s1 = true -> is_digit s2 = true ->
  two_digits m1 m2 < 60 -> two_digits s1 s2 < 60 ->
  convert_time (hh_mm_ss h1 h2 m1 m2 s1 s2)
  = Some ((two_digits h1 h2 mod 24) * 60 + two_digits m1 m2
          + 1440 * (two_digits h1 h2 / 24))
  /\ (two_digits h1 h2 mod 24) * 60 + two_digits m1 m2
      + 1440 * (two_digits h1 h2 / 24)
     = 60 * two_digits h1 h2 + two_digits m1 m2
  /\ convert_time "25:10:00" = Some 1510.
Proof.
  intros Hh1 Hh2 Hm1 Hm2 Hs1 Hs2 Hm Hs.
  assert (Hp := parse_hms_hh_mm_ss h1 h2 m1 m2 s1 s2 Hh1 Hh2 Hm1 Hm2 Hs1 Hs2 Hm Hs).
  apply digit_val_nonneg in Hh1, Hh2.
  assert (Hh : two_digits h1 h2 < 744) by (unfold two_digits; lia).
  destruct (convert_time_within_january _ _ _ _ Hp Hh) as [Hconv Hminutes].
  split; [exact Hconv|]. split; [exact Hminutes|].
  vm_compute. reflexivity.
Qed.

Lemma convert_time_hh_mm_ss_witness :
  convert_time (hh_mm_ss "2" "5" "1" "0" "0" "0")
  = Some ((two_digits "2" "5" mod 24) * 60 + two_digits "1" "0"
          + 1440 * (two_digits "2" "5" / 24))
  /\ (two_digits "2" "5" mod 24) * 60 + two_digits "1" "0"
      + 1440 * (two_digits "2" "5" / 24)
     = 60 * two_digits "2" "5" + two_digits "1" "0"
  /\ convert_time "25:10:00" = Some 1510.
Proof.
  apply (convert_time_hh_mm_ss "2" "5" "1" "0" "0" "0"); reflexivity.
Defined.

(** The same time through the two steps of the code: the time stamp is
    2021-01-02 01:10:00. *)
Example convert_time_25_10 :
  hh_mm_ss "2" "5" "1" "0" "0" "0" = "25:10:00"
  /\ tt_plus (3600 * 25 + 60 * 10) =
     {| year := 2021; month := 1; day := 2; hour := 1; minute := 10; second := 0 |}.
Proof. split; vm_compute; reflexivity. Qed.

End TimeClaims.

(** ** Ingest: rows without a time, the window, the trip and route merge *)

Module IngestFacts.
Import Frame Ingest.

Lemma series_min_None (l : list (option Z)) :
  series_min l = None <-> forall x, Some x ∉ l.
Proof.
  induction l as [|c l IH]; simpl.
  - split; [intros _ x Hx; inversion Hx | reflexivity].
  - destruct c as [x|].
    + split.
      * destruct (series_min l); discriminate.
      * intros H. exfalso. apply (H x). left.
    + rewrite IH. split.
      * intros H x Hx. apply elem_of_cons in Hx as [Hx|Hx]; [discriminate|].
        exact (H x Hx).
      * intros H x Hx. apply (H x). right. exact Hx.
Qed.

(** [series_min] is the least of the cells that are not null. *)
Lemma series_min_Some (l : list (option Z)) (m : Z) :
  series_min l = Some m <-> Some m ∈ l /\ forall x, Some x ∈ l -> m <= x.
Proof.
  revert m. induction l as [|c l IH]; intros m; simpl.
  - split; [discriminate | intros [H _]; inversion H].
  - destruct c as [x|].
    + destruct (series_min l) as [y|] eqn:Hy.
      * destruct (IH y) as [IH1 _]. destruct (IH1 eq_refl) as [Hin Hle].
        split.
        -- intros [= <-]. split.
           ++ destruct (Z.min_spec x y) as [[_ ->]|[_ ->]]; [left | right; exact Hin].
           ++ intros z Hz. apply elem_of_cons in Hz as [[= ->]|Hz]; [lia|].
              specialize (Hle z Hz). lia.
        -- intros [Hm Hall]. f_equal.
           assert (m <= x) by (apply Hall; left).
           assert (m <= y) by (apply Hall; right; exact Hin).
           apply elem_of_cons in Hm as [[= ->]|Hm]; [lia|].
           specialize (Hle m Hm). lia.
      * pose proof (proj1 (series_min_None l) Hy) as Hnone.
        split.
        -- intros [= <-]. split; [left|].
           intros z Hz. apply elem_of_cons in Hz as [[= ->]|Hz]; [lia|].
           exfalso. exact (Hnone z Hz).
        -- intros [Hm _]. apply elem_of_cons in Hm as [[= ->]|Hm]; [reflexivity|].
           exfalso. exact (Hnone m Hm).
    + rewrite IH. split.
      * intros [Hm Hall]. split; [right; exact Hm|].
        intros z Hz. apply elem_of_cons in Hz as [Hz|Hz]; [discriminate|].
        exact (Hall z Hz).
      * intros [Hm Hall]. apply elem_of_cons in Hm as [Hm|Hm]; [discriminate|].
        split; [exact Hm|]. intros z Hz. apply Hall. right. exact Hz.
Qed.

Lemma series_min_min_arrival (g : list StopTime) (m : Z) :
  series_min (map st_arrival_time g) = Some m <-> min_arrival g m.
Proof.
  rewrite series_min_Some. unfold min_arrival. split.
  - intros [Hin Hall]. split.
    + apply list_elem_of_fmap in Hin as (r & Hr & Hin). exists r. split; [exact Hin|].
      symmetry. exact Hr.
    + intros r x Hr Hx. apply Hall. rewrite <- Hx.
      apply list_elem_of_fmap. exists r. split; [reflexivity | exact Hr].
  - intros [(r & Hr & Hm) Hall]. split.
    + rewrite <- Hm. apply list_elem_of_fmap. exists r. split; [reflexivity | exact Hr].
    + intros x Hx. apply list_elem_of_fmap in Hx as (r' & Hr' & Hin).
      apply (Hall r' x Hin). symmetry. exact Hr'.
Qed.

Lemma in_window_iff (period_start_time period_end_time : Z) (g : list StopTime) :
  in_window period_start_time period_end_time g = true <->
  exists m, min_arrival g m /\ period_start_time <= m <= period_end_time.
Proof.
  unfold in_window. cbv zeta.
  destruct (series_min (map st_arrival_time g)) as [m|] eqn:Hmin; simpl.
  - rewrite andb_true_iff, !Z.leb_le. split.
    + intros H. exists m. split; [|lia]. apply series_min_min_arrival. exact Hmin.
    + intros (m' & Hm' & Hr). apply series_min_min_arrival in Hm'.
      rewrite Hmin in Hm'. injection Hm' as ->. lia.
  - split; [discriminate|].
    intros (m & Hm & _). apply series_min_min_arrival in Hm. congruence.
Qed.

(** The rows the five filters keep. *)
Lemma drop_rows_without_time_spec (df : list StopTimeIn) (r : StopTimeIn) :
  r ∈ drop_rows_without_time df <->
  r ∈ df
  /\ (exists a, sti_arrival_time r = Some a /\ a <> EmptyString /\ a <> " ")
  /\ sti_departure_time r <> Some EmptyString
  /\ sti_departure_time r <> Some " ".
Proof.
  unfold drop_rows_without_time, dropna_arrival. cbv zeta.
  rewrite !list_elem_of_filter. unfold ne_str.
  destruct (sti_arrival_time r) as [a|], (sti_departure_time r) as [d|];
    rewrite ?negb_true_iff, ?String.eqb_neq; split.
  - intros (? & ? & ? & ? & ? & ?). split; [assumption|].
    split; [exists a; auto|]. split; congruence.
  - intros (? & (a' & [= <-] & ? & ?) & ? & ?).
    repeat split; eauto; congruence.
  - intros (? & ? & ? & ? & ? & ?). split; [assumption|].
    split; [exists a; auto|]. split; congruence.
  - intros (? & (a' & [= <-] & ? & ?) & ? & ?).
    repeat split; eauto.
  - intros (? & ? & ? & ? & [? Hs] & ?). discriminate.
  - intros (? & (a' & ? & ?) & ?). discriminate.
  - intros (? & ? & ? & ? & [? Hs] & ?). discriminate.
  - intros (? & (a' & ? & ?) & ?). discriminate.
Qed.

(** The number of rows of an inner merge: the matches of each left row. *)
Lemma merge_length {A B K : Type} `{EqDecision K}
    (kl : A -> K) (kr : B -> K) (left : list A) (right : list B) :
  length (merge kl kr left right) =
  sum_list (map (fun a => length (filter (fun b => kr b = kl a) right)) left).
Proof.
  unfold merge. induction left as [|a left IH]; simpl; [reflexivity|].
  rewrite length_app, length_map, IH. reflexivity.
Qed.

(** A left row without a match is lost by the inner merge, and kept by a
    left merge. *)
Lemma merge_orphan {A B K : Type} `{EqDecision K}
    (kl : A -> K) (kr : B -> K) (left : list A) (right : list B) (a : A) :
  (forall b, b ∈ right -> kr b <> kl a) ->
  forall b, (a, b) ∉ merge kl kr left right.
Proof.
  intros Hno b Hin. unfold merge in Hin.
  apply list_elem_of_In, in_flat_map in Hin as (a' & _ & Hin).
  apply in_map_iff in Hin as (b' & [= -> ->] & Hb).
  apply list_elem_of_In, list_elem_of_filter in Hb as [Hk Hb].
  exact (Hno _ Hb Hk).
Qed.

Lemma merge_left_keeps {A B K : Type} `{EqDecision K}
    (kl : A -> K) (kr : B -> K) (left : list A) (right : list B) (a : A) :
  a ∈ left -> exists ob, (a, ob) ∈ merge_left kl kr left right.
Proof.
  intros Ha. unfold merge_left.
  destruct (filter (fun b => kr b = kl a) right) as [|b bs] eqn:Hf.
  - exists None. apply list_elem_of_In, in_flat_map. exists a.
    split; [apply list_elem_of_In; exact Ha|]. rewrite Hf. left. reflexivity.
  - exists (Some b). apply list_elem_of_In, in_flat_map. exists a.
    split; [apply list_elem_of_In; exact Ha|]. rewrite Hf. left. reflexivity.
Qed.

End IngestFacts.

Module IngestClaims.
Import Frame Ingest Fixtures IngestFacts.

(** C7.  A trip is kept exactly when the minimum arrival time among its
    rows lies in the window, both bounds included: the trips selected are
    the trip frames that have a minimum arrival time [m] with
    [period_start_time <= m <= period_end_time]. *)
Theorem select_trips_window (period_start_time period_end_time : Z)
    (df : list StopTime) (g : list StopTime) :
  g ∈ select_trips period_start_time period_end_time df <->
  g ∈ trip_frames df
  /\ exists m, min_arrival g m /\ period_start_time <= m <= period_end_time.
Proof.
  unfold select_trips. rewrite list_elem_of_filter, in_window_iff. tauto.
Qed.

(** The two bounds are kept, and a trip that starts before the window is
    dropped although its later stops fall inside. *)
Example window_start_kept : in_window 420 480 (trip_at [420; 430]) = true.
Proof. reflexivity. Qed.

Example window_end_kept : in_window 420 480 (trip_at [480; 490]) = true.
Proof. reflexivity. Qed.

Example window_before_dropped : in_window 420 480 (trip_at [419; 430; 440]) = false.
Proof. reflexivity. Qed.

Example window_after_dropped : in_window 420 480 (trip_at [481; 490]) = false.
Proof. reflexivity. Qed.

(** C8 fails on the code: a row with an arrival time and a null departure
    time passes the five filters, since only [arrival_time] is given to
    [dropna]. *)
Theorem null_departure_is_kept :
  sti_departure_time no_departure = None
  /\ drop_rows_without_time [no_departure] = [no_departure].
Proof. split; reflexivity. Qed.

(** A null, empty or blank arrival time and an empty or blank departure
    time do remove the row. *)
Example null_arrival_dropped :
  drop_rows_without_time [stop_time "T1" "A" 1 None (Some "07:10:00")] = [].
Proof. reflexivity. Qed.

Example blank_departure_dropped :
  drop_rows_without_time [stop_time "T1" "A" 1 (Some "07:10:00") (Some " ")] = [].
Proof. reflexivity. Qed.

Example empty_departure_dropped :
  drop_rows_without_time [stop_time "T1" "A" 1 (Some "07:10:00") (Some EmptyString)] = [].
Proof. reflexivity. Qed.

(** C1 fails on the code: the merge of trips and routes is an inner
    merge.  On a feed with two trips, one of them on a route that the
    routes table does not have, [read_gtfs_data] returns a trip and route
    frame of one row. *)
Theorem orphan_trip_is_dropped
    (other_time : string -> result (option Z))
    (determine_terminal_flag stop_sequence_label_pass : list StopTime -> list StopTime) :
  length (trip_df orphan_feed) = 2%nat
  /\ exists trip_route_df df,
       read_gtfs_data other_time determine_terminal_flag stop_sequence_label_pass
                      420 480 orphan_feed = Ok (trip_route_df, df)
       /\ map (fun tr => t_trip_id tr.1) trip_route_df = ["T1"]
       /\ length (merge_left t_route_id r_route_id
                             (map direct_trip (trip_df orphan_feed))
                             (route_df orphan_feed)) = 2%nat.
Proof.
  split; [reflexivity|].
  eexists _, _. split; [|split].
  - vm_compute. reflexivity.
  - reflexivity.
  - reflexivity.
Qed.

End IngestClaims.

(** ** Assembly: the final deduplication and the empty window *)

Module FrameFacts.
Import Frame.

Section DropDuplicatesLast.
Context {A K : Type} `{EqDecision K} (key : A -> K).

Lemma drop_duplicates_last_subset (df : list A) (a : A) :
  a ∈ drop_duplicates_last key df -> a ∈ df.
Proof.
  induction df as [|b df IH]; simpl; [trivial|].
  destruct (decide (key b ∈ map key df)).
  - intros H. right. exact (IH H).
  - intros H. apply elem_of_cons in H as [->|H]; [left | right; exact (IH H)].
Qed.

Lemma drop_duplicates_last_keys (df : list A) (k : K) :
  k ∈ map key (drop_duplicates_last key df) <-> k ∈ map key df.
Proof.
  induction df as [|b df IH]; simpl; [reflexivity|].
  destruct (decide (key b ∈ map key df)) as [Hin|Hout]; simpl.
  - rewrite IH. split; [intros H; right; exact H|].
    intros H. apply elem_of_cons in H as [->|H]; assumption.
  - rewrite !elem_of_cons, IH. reflexivity.
Qed.

Lemma drop_duplicates_last_NoDup (df : list A) :
  NoDup (map key (drop_duplicates_last key df)).
Proof.
  induction df as [|b df IH]; simpl; [constructor|].
  destruct (decide (key b ∈ map key df)) as [Hin|Hout]; simpl; [exact IH|].
  constructor; [|exact IH].
  rewrite drop_duplicates_last_keys. exact Hout.
Qed.

(** A row survives exactly when it is the last one of its key. *)
Lemma drop_duplicates_last_spec (df : list A) (a : A) :
  a ∈ drop_duplicates_last key df <->
  exists pre post, df = pre ++ a :: post /\ key a ∉ map key post.
Proof.
  induction df as [|b df IH]; simpl.
  - split; [intros H; inversion H|].
    intros (pre & post & Heq & _). destruct pre; discriminate.
  - destruct (decide (key b ∈ map key df)) as [Hin|Hout].
    + rewrite IH. split.
      * intros (pre & post & -> & Hlast). exists (b :: pre), post. split; [reflexivity | exact Hlast].
      * intros (pre & post & Heq & Hlast). destruct pre as [|c pre]; simpl in Heq.
        -- injection Heq as -> ->. contradiction.
        -- injection Heq as -> ->. exists pre, post. split; [reflexivity | exact Hlast].
    + rewrite elem_of_cons, IH. split.
      * intros [->|(pre & post & -> & Hlast)].
        -- exists [], df. split; [reflexivity | exact Hout].
        -- exists (b :: pre), post. split; [reflexivity | exact Hlast].
      * intros (pre & post & Heq & Hlast). destruct pre as [|c pre]; simpl in Heq.
        -- injection Heq as -> ->. left. reflexivity.
        -- injection Heq as -> ->. right. exists pre, post.
           split; [reflexivity | exact Hlast].
Qed.

(** The rows that survive keep their order. *)
Lemma drop_duplicates_last_sublist (df : list A) :
  sublist (drop_duplicates_last key df) df.
Proof.
  induction df as [|b df IH]; simpl; [constructor|].
  destruct (decide (key b ∈ map key df)); [apply sublist_cons | apply sublist_skip]; exact IH.
Qed.

End DropDuplicatesLast.

End FrameFacts.

Module AssemblyClaims.
Import Frame Ingest Nodes Links Assembly Fixtures FrameFacts.

(** C4.  The final link table has no two rows with the same pair
    [(from_node_id, to_node_id)]; its rows are exactly the emitted links
    that no later emitted link repeats in that pair, in the order of
    emission; and every pair that was emitted is still present. *)
Theorem drop_duplicate_links_keeps_last (emitted : list Link) :
  NoDup (map endpoints (drop_duplicate_links emitted))
  /\ (forall l, l ∈ drop_duplicate_links emitted <->
                exists before after,
                  emitted = before ++ l :: after
                  /\ endpoints l ∉ map endpoints after)
  /\ (forall pair, pair ∈ map endpoints emitted ->
                   pair ∈ map endpoints (drop_duplicate_links emitted))
  /\ sublist (drop_duplicate_links emitted) emitted.
Proof.
  unfold drop_duplicate_links. split; [|split; [|split]].
  - apply drop_duplicates_last_NoDup.
  - intros l. apply drop_duplicates_last_spec.
  - intros pair Hp. apply drop_duplicates_last_keys. exact Hp.
  - apply drop_duplicates_last_sublist.
Qed.

Section MainFacts.

Variable other_time : string -> result (option Z).
Variable determine_terminal_flag : list StopTime -> list StopTime.
Variable stop_sequence_label_pass : list StopTime -> list StopTime.
Variable convert_route_type_to_node_type_p : Z -> string.
Variable convert_route_type_to_node_type_s : Z -> string.
Variable convert_route_type_to_link_type : Z -> string.
Variable allowed_use_function : Z -> string.
Variable calculate_distance_from_geometry : Q -> Q -> Q -> Q -> Q.
Variable transferring_penalty : string -> string -> Q.
Variable allowed_use_transferring : string -> string -> string.

(** The link table that [main] returns is the deduplication of a list of
    emitted links. *)
Lemma main_links_deduplicated (period_start_time period_end_time : Z)
    (gtfs : GTFS) (node_df : list Node) (all_link_df : list Link) :
  main other_time determine_terminal_flag stop_sequence_label_pass
       convert_route_type_to_node_type_p convert_route_type_to_node_type_s
       convert_route_type_to_link_type allowed_use_function
       calculate_distance_from_geometry transferring_penalty
       allowed_use_transferring
       period_start_time period_end_time gtfs = Ok (node_df, all_link_df) ->
  exists emitted, all_link_df = drop_duplicate_links emitted.
Proof.
  unfold main. intros H.
  destruct (read_gtfs_data _ _ _ _ _ _) as [read|]; [simpl in H|discriminate].
  destruct (create_nodes _ _ _) as [nodes|]; [simpl in H|discriminate].
  destruct (create_service_boarding_links _ _ _ _ _ _ _ _) as [links|];
    [simpl in H|discriminate].
  injection H as _ <-. eexists. reflexivity.
Qed.

(** Whenever no trip is selected, [read_gtfs_data] raises. *)
Lemma read_gtfs_data_needs_a_trip (period_start_time period_end_time : Z)
    (gtfs : GTFS) (out : list (Trip * Route) * list Enriched) :
  read_gtfs_data other_time determine_terminal_flag stop_sequence_label_pass
                 period_start_time period_end_time gtfs = Ok out ->
  exists stop_times,
    rmap (convert_row other_time)
         (drop_rows_without_time (stop_time_df gtfs)) = Ok stop_times
    /\ select_trips period_start_time period_end_time stop_times <> [].
Proof.
  unfold read_gtfs_data. intros H.
  destruct (of_option _ _) as [agency|]; [simpl in H|discriminate].
  destruct (recode_trips _) as [trips|]; [simpl in H|discriminate].
  destruct (repair_quotes _ _) as [rep|]; [simpl in H|discriminate].
  destruct (rmap (convert_row other_time) _) as [stop_times|];
    [simpl in H|discriminate].
  exists stop_times. split; [reflexivity|].
  intros Hnil. rewrite Hnil in H. discriminate.
Qed.

(** C2 fails on the code.  The feed has one trip whose first arrival is
    06:00 and the window is 07:00 to 08:00: no trip is selected, the list
    given to [pd.concat] is empty, and the run ends with the
    [ValueError] of [pd.concat] instead of two empty tables. *)
Theorem empty_window_aborts :
  main other_time determine_terminal_flag stop_sequence_label_pass
       convert_route_type_to_node_type_p convert_route_type_to_node_type_s
       convert_route_type_to_link_type allowed_use_function
       calculate_distance_from_geometry transferring_penalty
       allowed_use_transferring
       420 480 early_feed = Err (ValueError "No objects to concatenate").
Proof. vm_compute. reflexivity. Qed.

End MainFacts.

End AssemblyClaims.

(** ** Nodes *)

Module NodeFacts.
Import Frame Ingest Nodes.

(** *** Results *)

Lemma rmap_Forall2 {A B} (f : A -> result B) (l : list A) (l' : list B) :
  rmap f l = Ok l' -> Forall2 (fun a b => f a = Ok b) l l'.
Proof.
  revert l'. induction l as [|a l IH]; simpl; intros l' H.
  - injection H as <-. constructor.
  - destruct (f a) as [b|] eqn:Hb; [simpl in H|discriminate].
    destruct (rmap f l) as [bs|]; [simpl in H|discriminate].
    injection H as <-. constructor; [exact Hb | apply IH; reflexivity].
Qed.

Lemma rmap_total {A B} (f : A -> result B) (l : list A) :
  (forall a, a ∈ l -> exists b, f a = Ok b) -> exists l', rmap f l = Ok l'.
Proof.
  induction l as [|a l IH]; simpl; intros H.
  - eexists. reflexivity.
  - destruct (H a) as [b Hb]; [apply list_elem_of_here|]. rewrite Hb. simpl.
    destruct IH as [bs Hbs]; [intros a' Ha'; apply H; right; exact Ha'|].
    rewrite Hbs. simpl. eexists. reflexivity.
Qed.

(** *** First occurrences *)

Section DropDuplicates.
Context {A K : Type} `{EqDecision K} (key : A -> K).

Lemma drop_duplicates_from_spec (seen : list K) (df : list A) (a : A) :
  a ∈ drop_duplicates_from key seen df <->
  exists pre post, df = pre ++ a :: post
                   /\ (key a ∉ seen) /\ key a ∉ map key pre.
Proof.
  revert seen. induction df as [|b df IH]; intros seen; simpl.
  - split; [intros H; inversion H|].
    intros (pre & post & Heq & _). destruct pre; discriminate.
  - destruct (decide (key b ∈ seen)) as [Hin|Hout].
    + rewrite IH. split.
      * intros (pre & post & -> & Hs & Hp). exists (b :: pre), post.
        split; [reflexivity|]. split; [exact Hs|]. simpl.
        rewrite not_elem_of_cons. split; [|exact Hp]. intros Heq.
        apply Hs. rewrite Heq. exact Hin.
      * intros (pre & post & Heq & Hs & Hp). destruct pre as [|c pre]; simpl in Heq.
        -- injection Heq as -> ->. contradiction.
        -- injection Heq as -> ->. exists pre, post. split; [reflexivity|].
           split; [exact Hs|]. simpl in Hp. apply not_elem_of_cons in Hp as [_ Hp].
           exact Hp.
    + rewrite elem_of_cons, IH. split.
      * intros [->|(pre & post & -> & Hs & Hp)].
        -- exists [], df. split; [reflexivity|]. split; [exact Hout|].
           simpl. apply not_elem_of_nil.
        -- exists (b :: pre), post. split; [reflexivity|].
           apply not_elem_of_cons in Hs as [Hne Hs]. split; [exact Hs|].
           simpl. apply not_elem_of_cons. split; [exact Hne | exact Hp].
      * intros (pre & post & Heq & Hs & Hp). destruct pre as [|c pre]; simpl in Heq.
        -- injection Heq as -> ->. left. reflexivity.
        -- injection Heq as -> ->. right. exists pre, post. split; [reflexivity|].
           simpl in Hp. apply not_elem_of_cons in Hp as [Hne Hp].
           split; [|exact Hp]. apply not_elem_of_cons. split; [exact Hne | exact Hs].
Qed.

Lemma drop_duplicates_from_keys (seen : list K) (df : list A) (k : K) :
  k ∈ map key (drop_duplicates_from key seen df) <-> k ∈ map key df /\ k ∉ seen.
Proof.
  revert seen. induction df as [|b df IH]; intros seen; simpl.
  - split; [intros H; inversion H | intros [H _]; inversion H].
  - destruct (decide (key b ∈ seen)) as [Hin|Hout]; simpl.
    + rewrite IH, elem_of_cons. split; [tauto|].
      intros [[->|H] Hs]; [contradiction | tauto].
    + rewrite !elem_of_cons, IH, not_elem_of_cons. split.
      * intros [->|[H [Hne Hs]]]; [tauto | tauto].
      * intros [[->|H] Hs]; [tauto|].
        destruct (decide (k = key b)) as [->|Hne]; [tauto | tauto].
Qed.

Lemma drop_duplicates_from_NoDup (seen : list K) (df : list A) :
  NoDup (map key (drop_duplicates_from key seen df)).
Proof.
  revert seen. induction df as [|b df IH]; intros seen; simpl; [constructor|].
  destruct (decide (key b ∈ seen)); simpl; [apply IH|].
  constructor; [|apply IH].
  rewrite drop_duplicates_from_keys. intros [_ H]. apply H. left.
Qed.

Lemma drop_duplicates_from_sublist (seen : list K) (df : list A) :
  sublist (drop_duplicates_from key seen df) df.
Proof.
  revert seen. induction df as [|b df IH]; intros seen; simpl; [constructor|].
  destruct (decide (key b ∈ seen)); [apply sublist_cons | apply sublist_skip]; apply IH.
Qed.

(** Rows with distinct keys all stay. *)
Lemma drop_duplicates_from_all (seen : list K) (df : list A) :
  NoDup (map key df) -> (forall a, a ∈ df -> key a ∉ seen) ->
  drop_duplicates_from key seen df = df.
Proof.
  revert seen. induction df as [|b df IH]; intros seen Hnd Hs; simpl; [reflexivity|].
  simpl in Hnd. apply NoDup_cons in Hnd as [Hb Hnd].
  destruct (decide (key b ∈ seen)) as [Hin|_].
  - exfalso. apply (Hs b); [left | exact Hin].
  - f_equal. apply IH; [exact Hnd|].
    intros a Ha. apply not_elem_of_cons. split.
    + intros Heq. apply Hb. rewrite <- Heq.
      apply list_elem_of_fmap. exists a. split; [reflexivity | exact Ha].
    + apply Hs. right. exact Ha.
Qed.

End DropDuplicates.

(** The number of rows that stay is the number of distinct keys. *)
Lemma drop_duplicates_from_length {A B K : Type} `{EqDecision K}
    (key : B -> K) (f : A -> B) (seen : list K) (df : list A) :
  length (drop_duplicates_from (fun a => key (f a)) seen df) =
  length (drop_duplicates_from key seen (map f df)).
Proof.
  revert seen. induction df as [|b df IH]; intros seen; simpl; [reflexivity|].
  destruct (decide (key (f b) ∈ seen)); simpl; rewrite IH; reflexivity.
Qed.

(** *** Labels *)

Lemma labelled_fst {A} (df : list A) : map fst (labelled df) = seq 0 (length df).
Proof. unfold labelled. apply fst_zip. rewrite length_seq. reflexivity. Qed.

Lemma labelled_snd {A} (df : list A) : map snd (labelled df) = df.
Proof. unfold labelled. apply snd_zip. rewrite length_seq. reflexivity. Qed.

(** A labelled row sits at its label. *)
Lemma labelled_split {A} (df : list A) pre (i : nat) (a : A) post :
  labelled df = pre ++ (i, a) :: post ->
  i = length pre /\ df = map snd pre ++ a :: map snd post.
Proof.
  intros Heq. split.
  - pose proof (labelled_fst df) as Hf. rewrite Heq in Hf.
    rewrite map_app in Hf. simpl in Hf.
    assert (Hl : seq 0 (length df) !! length (map fst pre) = Some i).
    { rewrite <- Hf. rewrite lookup_app_r by reflexivity.
      rewrite Nat.sub_diag. reflexivity. }
    apply lookup_seq in Hl as [Hl _]. rewrite length_map in Hl. simpl in Hl. lia.
  - pose proof (labelled_snd df) as Hs. rewrite Heq in Hs.
    rewrite map_app in Hs. simpl in Hs. symmetry. exact Hs.
Qed.

Lemma loc_elem {A} (other : list (nat * A)) (label : nat) (a : A) :
  NoDup (map fst other) -> (label, a) ∈ other -> loc other label = Ok a.
Proof.
  induction other as [|[i b] other IH]; simpl; intros Hnd Hin.
  - inversion Hin.
  - apply NoDup_cons in Hnd as [Hi Hnd].
    destruct (decide (i = label)) as [->|Hne].
    + apply elem_of_cons in Hin as [[= ->]|Hin]; [reflexivity|].
      exfalso. apply Hi. apply list_elem_of_fmap. exists (label, a).
      split; [reflexivity | exact Hin].
    + apply elem_of_cons in Hin as [[= -> ->]|Hin]; [contradiction|].
      apply IH; assumption.
Qed.

Lemma loc_Ok {A} (other : list (nat * A)) (label : nat) (a : A) :
  loc other label = Ok a -> (label, a) ∈ other.
Proof.
  induction other as [|[i b] other IH]; simpl; [discriminate|].
  destruct (decide (i = label)) as [->|Hne].
  - intros [= ->]. left.
  - intros H. right. apply IH. exact H.
Qed.

Lemma sublist_NoDup_fst {A} (l1 l2 : list (nat * A)) :
  sublist l1 l2 -> NoDup (map fst l2) -> NoDup (map fst l1).
Proof.
  intros Hs Hnd. eapply sublist_NoDup; [exact Hnd|].
  apply (fmap_sublist fst). exact Hs.
Qed.

(** *** Dictionaries *)

Lemma foldl_insert_lookup {K V} `{Countable K} (l : list (K * V)) (m : gmap K V) (k : K) :
  k ∈ map fst l \/ is_Some (m !! k) ->
  is_Some (foldl (fun m kv => <[kv.1 := kv.2]> m) m l !! k).
Proof.
  revert m. induction l as [|[k' v'] l IH]; intros m; simpl.
  - intros [H0|H0]; [inversion H0 | exact H0].
  - intros Hk. apply IH.
    destruct (decide (k' = k)) as [->|Hne].
    + right. rewrite lookup_insert_eq. eexists. reflexivity.
    + destruct Hk as [Hk|Hk].
      * apply elem_of_cons in Hk as [Hk|Hk]; [congruence | left; exact Hk].
      * right. rewrite lookup_insert_ne by exact Hne. exact Hk.
Qed.

Lemma foldl_insert_value {K V} `{Countable K} (l : list (K * V)) (m : gmap K V)
    (k : K) (v : V) :
  foldl (fun m kv => <[kv.1 := kv.2]> m) m l !! k = Some v ->
  (k, v) ∈ l \/ m !! k = Some v.
Proof.
  revert m. induction l as [|[k' v'] l IH]; intros m; simpl.
  - intros H0. right. exact H0.
  - intros Hk. apply IH in Hk as [Hk|Hk].
    + left. right. exact Hk.
    + destruct (decide (k' = k)) as [->|Hne].
      * rewrite lookup_insert_eq in Hk. injection Hk as ->. left. left.
      * rewrite lookup_insert_ne in Hk by exact Hne. right. exact Hk.
Qed.

Lemma dict_zip_lookup {V} (keys : list string) (values : list V) (k : string) :
  length keys = length values -> k ∈ keys ->
  exists v, dict_zip keys values !! k = Some v /\ v ∈ values.
Proof.
  intros Hlen Hk. unfold dict_zip.
  destruct (foldl_insert_lookup (zip keys values) ∅ k) as [v Hv].
  { left. rewrite fst_zip by lia. exact Hk. }
  exists v. split; [exact Hv|].
  apply foldl_insert_value in Hv as [Hv|Hv].
  - apply elem_of_zip_r in Hv. exact Hv.
  - rewrite lookup_empty in Hv. discriminate.
Qed.

End NodeFacts.

Module CreateNodesFacts.
Import Frame Ingest Nodes NodeFacts.

Lemma Forall2_map_eq {A B C} (R : A -> B -> Prop) (g : B -> C) (h : A -> C)
    (l : list A) (l' : list B) :
  (forall a b, R a b -> g b = h a) -> Forall2 R l l' -> map g l' = map h l.
Proof.
  intros Hgh HF. induction HF as [|a b l l' Hab _ IH]; simpl; [reflexivity|].
  rewrite (Hgh a b Hab), IH. reflexivity.
Qed.

Lemma node_ids_length (base : Z) (n : nat) : length (node_ids base n) = n.
Proof. unfold node_ids, linspace_1. rewrite !length_map, length_seq. reflexivity. Qed.

Lemma node_ids_elem (base : Z) (n : nat) (x : Z) :
  x ∈ node_ids base n <-> base + 1 <= x <= base + Z.of_nat n.
Proof.
  unfold node_ids, linspace_1. rewrite map_map. split.
  - intros Hx. apply list_elem_of_fmap in Hx as (k & -> & Hk).
    apply elem_of_seq in Hk. lia.
  - intros Hx. apply list_elem_of_fmap. exists (Z.to_nat (x - base)).
    split; [lia|]. apply elem_of_seq. lia.
Qed.

Lemma node_ids_NoDup (base : Z) (n : nat) : NoDup (node_ids base n).
Proof.
  unfold node_ids, linspace_1. rewrite map_map.
  assert (Hinj : Inj eq eq (fun k : nat => Z.of_nat k + base))
    by (intros a b Hab; lia).
  apply (NoDup_fmap_2 (fun k : nat => Z.of_nat k + base)), NoDup_seq.
Qed.

Lemma temp_df_NoDup (key : Enriched -> string) (df : list Enriched) :
  NoDup (map fst (temp_df_of key df)).
Proof.
  unfold temp_df_of, drop_duplicates.
  eapply sublist_NoDup_fst; [apply drop_duplicates_from_sublist|].
  rewrite labelled_fst. apply NoDup_seq.
Qed.

(** The number of rows of [temp_df] is the number of distinct keys. *)
Lemma temp_df_length (key : Enriched -> string) (df : list Enriched) :
  length (temp_df_of key df) = length (unique (map key df)).
Proof.
  unfold temp_df_of, unique, drop_duplicates.
  rewrite (drop_duplicates_from_length key snd), labelled_snd.
  apply (drop_duplicates_from_length (fun k : string => k) key).
Qed.

(** A row of [temp_df] is the first row of the frame with its key, and
    its label is the position of that row. *)
Lemma temp_df_first (key : Enriched -> string) (df : list Enriched)
    (i : nat) (r : Enriched) :
  (i, r) ∈ temp_df_of key df ->
  df !! i = Some r
  /\ forall j r', (j < i)%nat -> df !! j = Some r' -> key r' <> key r.
Proof.
  unfold temp_df_of, drop_duplicates. intros Hin.
  apply drop_duplicates_from_spec in Hin as (pre & post & Heq & _ & Hpre).
  apply labelled_split in Heq as [-> ->]. split.
  - rewrite lookup_app_r by (rewrite length_map; lia).
    rewrite length_map, Nat.sub_diag. reflexivity.
  - intros j r' Hj Hr' Hkey. apply Hpre. simpl.
    rewrite lookup_app_l in Hr' by (rewrite length_map; exact Hj).
    apply list_elem_of_lookup_2 in Hr'.
    apply list_elem_of_fmap in Hr' as (p & -> & Hp).
    rewrite <- Hkey. apply list_elem_of_fmap. exists p. split; [reflexivity | exact Hp].
Qed.

(** Every key of the frame has its row in [temp_df]. *)
Lemma temp_df_keys (key : Enriched -> string) (df : list Enriched) (r : Enriched) :
  r ∈ df -> exists i r', (i, r') ∈ temp_df_of key df /\ key r' = key r.
Proof.
  intros Hr. unfold temp_df_of, drop_duplicates.
  assert (Hk : key r ∈ map (fun p : nat * Enriched => key p.2)
                           (drop_duplicates_from (fun p => key p.2) [] (labelled df))).
  { apply drop_duplicates_from_keys. split; [|apply not_elem_of_nil].
    rewrite <- (labelled_snd df) in Hr.
    apply list_elem_of_fmap in Hr as (p & -> & Hp).
    apply list_elem_of_fmap. exists p. split; [reflexivity | exact Hp]. }
  apply list_elem_of_fmap in Hk as ([i r'] & Heq & Hp).
  exists i, r'. split; [exact Hp | symmetry; exact Heq].
Qed.

Lemma temp_df_subset (key : Enriched -> string) (df : list Enriched)
    (i : nat) (r : Enriched) :
  (i, r) ∈ temp_df_of key df -> r ∈ df.
Proof.
  intros H. apply temp_df_first in H as [H _].
  apply list_elem_of_lookup_2 in H. exact H.
Qed.

Lemma sorted_names_perm (key : Enriched -> string) (temp_df : list (nat * Enriched)) :
  sorted_names key temp_df ≡ₚ map (fun p => (p.1, key p.2)) temp_df.
Proof. unfold sorted_names, sort_values_str. apply merge_sort_Permutation. Qed.

Lemma sorted_names_length (key : Enriched -> string) (temp_df : list (nat * Enriched)) :
  length (sorted_names key temp_df) = length temp_df.
Proof. rewrite sorted_names_perm, length_map. reflexivity. Qed.

Lemma sorted_names_elem (key : Enriched -> string) (temp_df : list (nat * Enriched))
    (i : nat) (nm : string) :
  (i, nm) ∈ sorted_names key temp_df <->
  exists r, (i, r) ∈ temp_df /\ nm = key r.
Proof.
  rewrite sorted_names_perm. split.
  - intros H. apply list_elem_of_fmap in H as ([j r] & [= -> ->] & Hp).
    exists r. split; [exact Hp | reflexivity].
  - intros (r & Hr & ->). apply list_elem_of_fmap. exists (i, r).
    split; [reflexivity | exact Hr].
Qed.

Lemma sorted_names_snd (key : Enriched -> string) (temp_df : list (nat * Enriched)) :
  map snd (sorted_names key temp_df) ≡ₚ map (fun p => key p.2) temp_df.
Proof.
  rewrite sorted_names_perm, map_map. reflexivity.
Qed.

End CreateNodesFacts.

Module CreateNodesReturns.
Import Frame Ingest Nodes NodeSpecs NodeFacts CreateNodesFacts.

Section WithTables.

Variable convert_route_type_to_node_type_p : Z -> string.
Variable convert_route_type_to_node_type_s : Z -> string.

Lemma physical_node_Ok (temp_df : list (nat * Enriched)) row n :
  physical_node convert_route_type_to_node_type_p temp_df row = Ok n ->
  exists r, (row.1.1, r) ∈ temp_df /\ physical_from convert_route_type_to_node_type_p row r n.
Proof.
  unfold physical_node. destruct (loc temp_df row.1.1) as [r|] eqn:Hloc; [|discriminate].
  simpl. intros [= <-]. exists r. split; [apply loc_Ok; exact Hloc|].
  repeat split.
Qed.

Lemma physical_node_total (df : list Enriched) row :
  row.1 ∈ sorted_names stop_id (temp_df_of stop_id df) ->
  exists n, physical_node convert_route_type_to_node_type_p
                          (temp_df_of stop_id df) row = Ok n.
Proof.
  destruct row as [[i nm] id]. simpl. intros Hin.
  apply sorted_names_elem in Hin as (r & Hr & _).
  unfold physical_node. simpl.
  rewrite (loc_elem _ _ r (temp_df_NoDup _ _) Hr). simpl. eexists. reflexivity.
Qed.

Lemma physical_node_df_returns (df : list Enriched) :
  let temp_df := temp_df_of stop_id df in
  let names := sorted_names stop_id temp_df in
  let ids := node_ids 1000000 (length names) in
  exists P,
    physical_node_df convert_route_type_to_node_type_p df
      = Ok (P, dict_zip (map snd names) ids)
    /\ Forall2 (fun row n => physical_node convert_route_type_to_node_type_p
                                           temp_df row = Ok n) (zip names ids) P.
Proof.
  intros temp_df names ids. unfold physical_node_df. fold temp_df names ids.
  destruct (rmap_total (physical_node convert_route_type_to_node_type_p temp_df)
                       (zip names ids)) as [P HP].
  { intros [x id] Hin. apply physical_node_total. simpl.
    apply elem_of_zip_l in Hin. exact Hin. }
  exists P. rewrite HP. simpl. split; [reflexivity|].
  apply rmap_Forall2. exact HP.
Qed.

(** Every [stop_id] of the frame is a key of [stop_name_id_dict], and its
    value is one of the physical identifiers. *)
Lemma stop_name_id_dict_lookup (df : list Enriched) (r : Enriched) :
  let names := sorted_names stop_id (temp_df_of stop_id df) in
  let ids := node_ids 1000000 (length names) in
  r ∈ df ->
  exists i, dict_zip (map snd names) ids !! stop_id r = Some i /\ i ∈ ids.
Proof.
  intros names ids Hr. apply dict_zip_lookup.
  - unfold ids. rewrite node_ids_length, length_map. reflexivity.
  - destruct (temp_df_keys stop_id df r Hr) as (i & r' & Hin & Hkey).
    rewrite <- Hkey. apply list_elem_of_fmap. exists (i, stop_id r').
    split; [reflexivity|]. apply sorted_names_elem. exists r'. split; [exact Hin | reflexivity].
Qed.

Lemma temp_df_of_nonempty (key : Enriched -> string) (df : list Enriched) :
  df <> [] -> temp_df_of key df <> [].
Proof.
  destruct df as [|r df]; [congruence|]. intros _.
  unfold temp_df_of, drop_duplicates, labelled. cbn [length seq zip zip_with].
  cbn [drop_duplicates_from].
  destruct (decide (key (0%nat, r).2 ∈ [])) as [Hin|]; [inversion Hin | discriminate].
Qed.

Lemma length_pos_nonempty {A} (l : list A) : (0 < length l)%nat -> l <> [].
Proof. intros Hlen ->. simpl in Hlen. lia. Qed.

Lemma physical_ids_of_Ok (dict : gmap string Z) (temp_df : list (nat * Enriched))
    (physical : list (nat * Z)) :
  physical_ids_of dict temp_df = Ok physical ->
  rmap (fun p => let* i := of_option (dict !! stop_id p.2) (KeyError (stop_id p.2)) in
                 Ok (p.1, i)) temp_df = Ok physical.
Proof. destruct temp_df; [discriminate | intros H; exact H]. Qed.

Lemma physical_ids_of_returns (dict : gmap string Z) (temp_df : list (nat * Enriched)) :
  temp_df <> [] ->
  (forall p, p ∈ temp_df -> is_Some (dict !! stop_id p.2)) ->
  exists physical,
    physical_ids_of dict temp_df = Ok physical
    /\ Forall2 (fun p q => q.1 = p.1 /\ dict !! stop_id p.2 = Some q.2)
               temp_df physical.
Proof.
  intros Hne Hall.
  assert (Hrows : physical_ids_of dict temp_df
                  = rmap (fun p => let* i := of_option (dict !! stop_id p.2)
                                                       (KeyError (stop_id p.2)) in
                                   Ok (p.1, i)) temp_df)
    by (destruct temp_df; [contradiction | reflexivity]).
  rewrite Hrows.
  match goal with |- context [rmap ?f temp_df] => set (f0 := f) end.
  destruct (rmap_total f0 temp_df) as [physical Hp].
  { intros p Hp. destruct (Hall p Hp) as [i Hi]. exists (p.1, i).
    unfold f0. rewrite Hi. reflexivity. }
  exists physical. split; [exact Hp|].
  apply rmap_Forall2 in Hp. eapply Forall2_impl; [exact Hp|].
  intros p q. unfold f0. destruct (dict !! stop_id p.2) as [i|]; [|discriminate].
  simpl. intros [= <-]. split; reflexivity.
Qed.

Lemma Forall2_fst_eq {A B} (l : list (nat * A)) (k : list (nat * B))
    (R : nat * A -> nat * B -> Prop) :
  (forall p q, R p q -> q.1 = p.1) -> Forall2 R l k -> map fst k = map fst l.
Proof.
  intros HR HF. induction HF as [|p q l k Hpq _ IH]; simpl; [reflexivity|].
  rewrite (HR p q Hpq), IH. reflexivity.
Qed.

Lemma Forall2_elem_l {A B} (R : A -> B -> Prop) (l : list A) (k : list B) (a : A) :
  Forall2 R l k -> a ∈ l -> exists b, b ∈ k /\ R a b.
Proof.
  intros HF. induction HF as [|p q l k Hpq _ IH]; intros Ha.
  - inversion Ha.
  - apply elem_of_cons in Ha as [->|Ha].
    + exists q. split; [left | exact Hpq].
    + destruct (IH Ha) as (b & Hb & HR). exists b. split; [right; exact Hb | exact HR].
Qed.

Lemma Forall2_elem_r {A B} (R : A -> B -> Prop) (l : list A) (k : list B) (b : B) :
  Forall2 R l k -> b ∈ k -> exists a, a ∈ l /\ R a b.
Proof.
  intros HF. induction HF as [|p q l k Hpq _ IH]; intros Hb.
  - inversion Hb.
  - apply elem_of_cons in Hb as [->|Hb].
    + exists p. split; [left | exact Hpq].
    + destruct (IH Hb) as (a & Ha & HR). exists a. split; [right; exact Ha | exact HR].
Qed.

Lemma service_node_df_returns (dict : gmap string Z) (df : list Enriched) :
  df <> [] ->
  (forall r, r ∈ df -> is_Some (dict !! stop_id r)) ->
  let temp_df := temp_df_of directed_service_stop_id df in
  let names := sorted_names directed_service_stop_id temp_df in
  let ids := node_ids 1500000 (length names) in
  exists S,
    service_node_df convert_route_type_to_node_type_s dict df = Ok S
    /\ map node_id S = ids
    /\ forall n, n ∈ S -> exists r, r ∈ df
                                   /\ dict !! stop_id r = Some (physical_node_id n).
Proof.
  intros Hne Hdict temp_df names ids. unfold service_node_df. fold temp_df names ids.
  destruct (physical_ids_of_returns dict temp_df) as (physical & Hphys & HF).
  { apply temp_df_of_nonempty. exact Hne. }
  { intros [i r] Hp. apply Hdict. apply temp_df_subset in Hp. exact Hp. }
  rewrite Hphys. simpl.
  assert (Hnd : NoDup (map fst physical)).
  { rewrite (Forall2_fst_eq _ _ _ (fun p q H => proj1 H) HF). apply temp_df_NoDup. }
  destruct (rmap_total (service_node convert_route_type_to_node_type_s temp_df physical)
                       (zip names ids)) as [S HS].
  { intros [[i nm] id] Hin. apply elem_of_zip_l in Hin.
    apply sorted_names_elem in Hin as (r & Hr & _).
    destruct (Forall2_elem_l _ _ _ _ HF Hr) as ([j pid] & Hq & Hj & _).
    simpl in Hj. subst j. unfold service_node. simpl.
    rewrite (loc_elem physical i pid Hnd Hq). simpl.
    rewrite (loc_elem temp_df i r (temp_df_NoDup _ _) Hr). simpl. eexists. reflexivity. }
  exists S. split; [exact HS|]. apply rmap_Forall2 in HS. split.
  - assert (Hid : forall row n,
               service_node convert_route_type_to_node_type_s temp_df physical row = Ok n ->
               node_id n = row.2).
    { intros row n. unfold service_node.
      destruct (loc physical row.1.1); [simpl|discriminate].
      destruct (loc temp_df row.1.1); [simpl|discriminate].
      intros [= <-]. reflexivity. }
    rewrite (Forall2_map_eq _ node_id snd _ _ Hid HS).
    apply snd_zip. unfold ids. rewrite node_ids_length. reflexivity.
  - intros n Hn. destruct (Forall2_elem_r _ _ _ _ HS Hn) as (row & _ & Hrow).
    unfold service_node in Hrow.
    destruct (loc physical row.1.1) as [pid|] eqn:Hpid; [simpl in Hrow|discriminate].
    destruct (loc temp_df row.1.1) as [r|] eqn:Hr; [simpl in Hrow|discriminate].
    injection Hrow as <-. simpl.
    apply loc_Ok in Hpid. apply loc_Ok in Hr.
    destruct (Forall2_elem_r _ _ _ _ HF Hpid) as ([j r'] & Hin & Hj & Hd).
    simpl in Hj, Hd. subst j.
    assert (r' = r).
    { pose proof (loc_elem temp_df _ _ (temp_df_NoDup _ _) Hin) as H1.
      pose proof (loc_elem temp_df _ _ (temp_df_NoDup _ _) Hr) as H2.
      congruence. }
    subst r'. exists r. split; [|exact Hd].
    apply temp_df_subset in Hr. exact Hr.
Qed.

(** The columns [node_id] and [name] of the physical nodes. *)
Lemma physical_node_df_columns (temp_df : list (nat * Enriched))
    (names : list (nat * string)) (ids : list Z) (P : list Node) :
  length names = length ids ->
  Forall2 (fun row n => physical_node convert_route_type_to_node_type_p
                                      temp_df row = Ok n) (zip names ids) P ->
  map node_id P = ids /\ map name P = map snd names.
Proof.
  intros Hlen HP.
  assert (Hcol : forall row n,
             physical_node convert_route_type_to_node_type_p temp_df row = Ok n ->
             node_id n = row.2 /\ name n = row.1.2).
  { intros row n Hn. apply physical_node_Ok in Hn as (r & _ & Hname & Hid & _).
    split; assumption. }
  split.
  - rewrite (Forall2_map_eq _ node_id snd _ _ (fun row n H => proj1 (Hcol row n H)) HP).
    apply snd_zip. lia.
  - rewrite (Forall2_map_eq _ name (fun row => row.1.2) _ _
                            (fun row n H => proj2 (Hcol row n H)) HP).
    rewrite <- (map_map fst snd). f_equal. apply fst_zip. lia.
Qed.

(** On a frame with rows [create_nodes] returns the physical nodes,
    numbered from 1000001, followed by the service nodes, numbered from
    1500001; there are as many of each as distinct values of the key
    column. *)
Lemma create_nodes_returns (df : list Enriched) :
  df <> [] ->
  exists P dict S,
    physical_node_df convert_route_type_to_node_type_p df = Ok (P, dict)
    /\ service_node_df convert_route_type_to_node_type_s dict df = Ok S
    /\ create_nodes convert_route_type_to_node_type_p
                    convert_route_type_to_node_type_s df = Ok (P ++ S)
    /\ map node_id P = node_ids 1000000 (length (unique (map stop_id df)))
    /\ map node_id S
       = node_ids 1500000 (length (unique (map directed_service_stop_id df)))
    /\ forall n, n ∈ S -> physical_node_id n ∈ map node_id P.
Proof.
  intros Hne.
  destruct (physical_node_df_returns df) as (P & HP & HF).
  apply physical_node_df_columns in HF as [Hids Hnames];
    [|rewrite node_ids_length; reflexivity].
  destruct (service_node_df_returns
              (dict_zip (map snd (sorted_names stop_id (temp_df_of stop_id df)))
                        (node_ids 1000000
                           (length (sorted_names stop_id (temp_df_of stop_id df)))))
              df Hne) as (S & HS & HSids & Hphys).
  { intros r Hr. destruct (stop_name_id_dict_lookup df r Hr) as (i & Hi & _).
    exists i. exact Hi. }
  eexists P, _, S. split; [exact HP|]. split; [exact HS|].
  split; [unfold create_nodes; rewrite HP; simpl; rewrite HS; reflexivity|].
  split; [rewrite Hids, sorted_names_length, temp_df_length; reflexivity|].
  split; [rewrite HSids, sorted_names_length, temp_df_length; reflexivity|].
  intros n Hn. destruct (Hphys n Hn) as (r & Hr & Hd).
  destruct (stop_name_id_dict_lookup df r Hr) as (i & Hi & Hin).
  simpl in Hi, Hin. rewrite Hids. congruence.
Qed.

End WithTables.

(** On the frame without rows [create_nodes] raises. *)
Example create_nodes_needs_rows
    (convert_route_type_to_node_type_p convert_route_type_to_node_type_s : Z -> string) :
  exists msg, create_nodes convert_route_type_to_node_type_p
                           convert_route_type_to_node_type_s [] = Err (ValueError msg).
Proof. eexists. reflexivity. Qed.

End CreateNodesReturns.

(** ** The node table: identifiers and first occurrences *)

Module FirstRows.
Import Frame Ingest Nodes NodeSpecs NodeFacts CreateNodesFacts.

Lemma labelled_lookup {A} (df : list A) (i j : nat) (a : A) :
  labelled df !! i = Some (j, a) <-> j = i /\ df !! i = Some a.
Proof.
  unfold labelled. rewrite lookup_zip_Some, lookup_seq. split.
  - intros [[-> _] Ha]. split; [reflexivity | exact Ha].
  - intros [-> Ha]. split; [|exact Ha]. split; [reflexivity|].
    apply lookup_lt_Some in Ha. exact Ha.
Qed.

(** The converse of [temp_df_first]: the first row with a key stays. *)
Lemma temp_df_of_first (key : Enriched -> string) (df : list Enriched)
    (i : nat) (r : Enriched) :
  df !! i = Some r ->
  (forall j r', (j < i)%nat -> df !! j = Some r' -> key r' <> key r) ->
  (i, r) ∈ temp_df_of key df.
Proof.
  intros Hi Hfirst. unfold temp_df_of, drop_duplicates.
  apply drop_duplicates_from_spec.
  exists (take i (labelled df)), (drop (S i) (labelled df)).
  split; [symmetry; apply take_drop_middle; apply labelled_lookup; auto|].
  split; [apply not_elem_of_nil|].
  intros Hin. apply list_elem_of_fmap in Hin as ([j r'] & Heq & Hin).
  apply list_elem_of_lookup_1 in Hin as [k Hk].
  apply lookup_take_Some in Hk as [Hk Hlt].
  apply labelled_lookup in Hk as [-> Hk].
  simpl in Heq. apply (Hfirst k r' Hlt Hk). congruence.
Qed.

Lemma unique_nonempty {K} `{EqDecision K} (l : list K) :
  (0 < length l)%nat -> (0 < length (unique l))%nat.
Proof.
  destruct l as [|k l]; simpl; [lia|]. intros _.
  unfold unique, drop_duplicates. simpl.
  destruct (decide (k ∈ [])) as [Hin|_]; [inversion Hin | simpl; lia].
Qed.

Lemma unique_NoDup {K} `{EqDecision K} (l : list K) : NoDup l -> unique l = l.
Proof.
  intros Hnd. unfold unique, drop_duplicates.
  apply drop_duplicates_from_all.
  - rewrite map_id. exact Hnd.
  - intros a _. apply not_elem_of_nil.
Qed.

Lemma zip_elem_l {A B} (l : list A) (k : list B) (x : A) :
  length l = length k -> x ∈ l -> exists y, (x, y) ∈ zip l k.
Proof.
  intros Hlen Hx. apply list_elem_of_lookup_1 in Hx as [i Hi].
  destruct (lookup_lt_is_Some_2 k i) as [y Hy].
  { rewrite <- Hlen. apply lookup_lt_Some in Hi. exact Hi. }
  exists y. apply (list_elem_of_lookup_2 _ i). apply lookup_zip_Some. auto.
Qed.

End FirstRows.

Module NodeClaims.
Import Frame Ingest Nodes NodeSpecs NodeFacts CreateNodesFacts CreateNodesReturns.
Import FirstRows Fixtures.

Lemma numbered_stops_stop_id (n : nat) :
  map stop_id (numbered_stops n) = map pretty (seq 0 n).
Proof. unfold numbered_stops. rewrite map_map. reflexivity. Qed.

Lemma numbered_stops_distinct (n : nat) :
  length (unique (map stop_id (numbered_stops n))) = n.
Proof.
  rewrite numbered_stops_stop_id, unique_NoDup.
  - rewrite length_map, length_seq. reflexivity.
  - apply (NoDup_fmap_2 pretty). apply NoDup_seq.
Qed.

(** With [n] stops the physical nodes are numbered up to [1000000 + n],
    and the first service node has the number 1500001. *)
Lemma numbered_stops_collide (n : nat) :
  500001 <= Z.of_nat n ->
  exists P dict S a b,
    physical_node_df stop_node_type (numbered_stops n) = Ok (P, dict)
    /\ service_node_df stop_node_type dict (numbered_stops n) = Ok S
    /\ a ∈ P /\ b ∈ S /\ node_id a = 1500001 /\ node_id b = 1500001.
Proof.
  intros Hn.
  destruct (create_nodes_returns stop_node_type stop_node_type (numbered_stops n))
    as (P & dict & S & HP & HS & _ & HPids & HSids & _).
  { apply length_pos_nonempty. unfold numbered_stops.
    rewrite !length_map, length_seq. lia. }
  rewrite numbered_stops_distinct in HPids.
  assert (Ha : 1500001 ∈ map node_id P).
  { rewrite HPids. apply node_ids_elem. lia. }
  assert (Hb : 1500001 ∈ map node_id S).
  { rewrite HSids. apply node_ids_elem.
    assert (0 < length (unique (map directed_service_stop_id (numbered_stops n))))%nat.
    { apply unique_nonempty. unfold numbered_stops.
      rewrite !length_map, length_seq. lia. }
    lia. }
  apply list_elem_of_fmap in Ha as (a & Ha & Hain).
  apply list_elem_of_fmap in Hb as (b & Hb & Hbin).
  exists P, dict, S, a, b. repeat split; auto.
Qed.

Section WithTables.

Variable convert_route_type_to_node_type_p : Z -> string.
Variable convert_route_type_to_node_type_s : Z -> string.

(** C6, amended.  For a frame with rows and at most 499999 different
    stops, [create_nodes] returns the physical nodes followed by the
    service nodes; every physical [node_id] lies in 1000001 .. 1499999,
    every service [node_id] is at least 1500001, and no physical node
    shares its [node_id] with a service node. *)
Theorem node_id_ranges (df : list Enriched) :
  (0 < length df)%nat ->
  Z.of_nat (length (unique (map stop_id df))) <= 499999 ->
  exists P dict S,
    physical_node_df convert_route_type_to_node_type_p df = Ok (P, dict)
    /\ service_node_df convert_route_type_to_node_type_s dict df = Ok S
    /\ create_nodes convert_route_type_to_node_type_p
                    convert_route_type_to_node_type_s df = Ok (P ++ S)
    /\ (forall n, n ∈ P -> 1000001 <= node_id n <= 1499999)
    /\ (forall n, n ∈ S -> 1500001 <= node_id n)
    /\ (forall n m, n ∈ P -> m ∈ S -> node_id n <> node_id m).
Proof.
  intros Hrows Hbound.
  destruct (create_nodes_returns convert_route_type_to_node_type_p
                                 convert_route_type_to_node_type_s df
                                 (length_pos_nonempty df Hrows))
    as (P & dict & S & HP & HS & Hall & HPids & HSids & _).
  assert (HPr : forall n, n ∈ P -> 1000001 <= node_id n <= 1499999).
  { intros n Hn.
    assert (Hin : node_id n ∈ map node_id P)
      by (apply list_elem_of_fmap; exists n; auto).
    rewrite HPids in Hin. apply node_ids_elem in Hin. lia. }
  assert (HSr : forall n, n ∈ S -> 1500001 <= node_id n).
  { intros n Hn.
    assert (Hin : node_id n ∈ map node_id S)
      by (apply list_elem_of_fmap; exists n; auto).
    rewrite HSids in Hin. apply node_ids_elem in Hin. lia. }
  exists P, dict, S. repeat split; auto; try (apply HPr; assumption).
  intros n m Hn Hm. specialize (HPr n Hn). specialize (HSr m Hm). lia.
Qed.

End WithTables.

Lemma node_id_ranges_witness :
  exists P dict S,
    physical_node_df stop_node_type two_stop_frame = Ok (P, dict)
    /\ service_node_df stop_node_type dict two_stop_frame = Ok S
    /\ create_nodes stop_node_type stop_node_type two_stop_frame = Ok (P ++ S)
    /\ (forall n, n ∈ P -> 1000001 <= node_id n <= 1499999)
    /\ (forall n, n ∈ S -> 1500001 <= node_id n)
    /\ (forall n m, n ∈ P -> m ∈ S -> node_id n <> node_id m).
Proof.
  apply (node_id_ranges stop_node_type stop_node_type two_stop_frame).
  - simpl. lia.
  - vm_compute. discriminate.
Defined.

(** C6 fails as stated.  A frame with 500001 different stops gets the
    physical node numbers 1000001 .. 1500001: the last one is above
    1499999 and is also the number of the first service node. *)
Lemma node_id_collision_counterexample :
  exists P dict S a b,
    physical_node_df stop_node_type (numbered_stops (Z.to_nat 500001)) = Ok (P, dict)
    /\ service_node_df stop_node_type dict (numbered_stops (Z.to_nat 500001)) = Ok S
    /\ a ∈ P /\ b ∈ S /\ node_id a = 1500001 /\ node_id b = 1500001.
Proof. apply numbered_stops_collide. lia. Qed.

Section FirstOccurrence.

Variable convert_route_type_to_node_type_p : Z -> string.

(** C10.  Let [r], at position [i], be the first row of the frame with
    the [stop_id] [s].  The physical node table has one node per name,
    and its node named [s] takes its coordinates, [route_type],
    [route_id], [node_type] and [terminal_flag] from [r]; no later row
    with that [stop_id] has a part in it. *)
Theorem physical_node_of_first_occurrence (df : list Enriched) (s : string)
    (i : nat) (r : Enriched) :
  first_occurrence df s i r ->
  exists P dict n,
    physical_node_df convert_route_type_to_node_type_p df = Ok (P, dict)
    /\ NoDup (map name P)
    /\ n ∈ P /\ name n = s
    /\ x_coord n = stop_lon r /\ y_coord n = stop_lat r
    /\ n_route_type n = route_type r /\ n_route_id n = route_id r
    /\ node_type n = convert_route_type_to_node_type_p (route_type r)
    /\ n_terminal_flag n = terminal_flag r.
Proof.
  intros (Hi & Hs & Hfirst).
  assert (Hin : (i, r) ∈ temp_df_of stop_id df).
  { apply temp_df_of_first; [exact Hi|]. intros j r' Hj Hr'. rewrite Hs.
    apply (Hfirst j r' Hj Hr'). }
  destruct (physical_node_df_returns convert_route_type_to_node_type_p df)
    as (P & HP & HF).
  pose proof (physical_node_df_columns convert_route_type_to_node_type_p _ _ _ P
                (eq_sym (node_ids_length 1000000 _)) HF) as [_ Hnames].
  assert (Hnm : (i, s) ∈ sorted_names stop_id (temp_df_of stop_id df)).
  { apply sorted_names_elem. exists r. split; [exact Hin | symmetry; exact Hs]. }
  destruct (zip_elem_l _ (node_ids 1000000
                            (length (sorted_names stop_id (temp_df_of stop_id df))))
                       _ (eq_sym (node_ids_length 1000000 _)) Hnm) as [id Hrow].
  destruct (Forall2_elem_l _ _ _ _ HF Hrow) as (n & Hn & Hnode).
  apply physical_node_Ok in Hnode as (r0 & Hr0 & Hfrom). simpl in Hr0.
  assert (r0 = r).
  { pose proof (loc_elem _ _ _ (temp_df_NoDup stop_id df) Hr0) as H1.
    pose proof (loc_elem _ _ _ (temp_df_NoDup stop_id df) Hin) as H2.
    congruence. }
  subst r0.
  destruct Hfrom as (Hname & _ & _ & Hx & Hy & Hrt & Hrid & Hnt & _ & Htf).
  eexists P, _, n. split; [exact HP|]. split.
  { rewrite Hnames, sorted_names_snd. unfold temp_df_of, drop_duplicates.
    apply drop_duplicates_from_NoDup. }
  repeat split; auto.
Qed.

End FirstOccurrence.

Lemma physical_node_of_first_occurrence_witness :
  exists P dict n,
    physical_node_df stop_node_type shared_stop_frame = Ok (P, dict)
    /\ NoDup (map name P)
    /\ n ∈ P /\ name n = "B"
    /\ x_coord n = (1 # 1000)%Q /\ y_coord n = 0%Q
    /\ n_route_type n = 3 /\ n_route_id n = "R1"
    /\ node_type n = stop_node_type 3
    /\ n_terminal_flag n = "destination".
Proof.
  apply (physical_node_of_first_occurrence stop_node_type shared_stop_frame "B" 1
           (enrich "Metro" (trip_T1, route_R1)
                   (labelled_stop_time "B" 2 440 "destination") stop_B)).
  split; [reflexivity|]. split; [reflexivity|].
  intros j r' Hj Hr'. assert (j = 0%nat) as -> by lia.
  simpl in Hr'. injection Hr' as <-. simpl. discriminate.
Defined.

(** The table of [shared_stop_frame]: the stop B, which the bus trip T1
    reaches before the rail trip T2 leaves it, is a bus stop and a
    destination. *)
Example shared_stop_nodes :
  exists P dict,
    physical_node_df stop_node_type shared_stop_frame = Ok (P, dict)
    /\ map (fun n => (name n, node_id n, n_route_type n, n_route_id n, n_terminal_flag n)) P
       = [ ("A", 1000001, 3, "R1", "origin");
           ("B", 1000002, 3, "R1", "destination");
           ("C", 1000003, 2, "R2", "destination") ].
Proof. eexists _, _. split; [vm_compute; reflexivity | vm_compute; reflexivity]. Qed.

End NodeClaims.

(** ** Link identifiers *)

Module LinkClaims.
Import Frame Ingest Nodes Links Fixtures.

Section WithHelpers.

Variable convert_route_type_to_node_type_p : Z -> string.
Variable convert_route_type_to_node_type_s : Z -> string.
Variable convert_route_type_to_link_type : Z -> string.
Variable allowed_use_function : Z -> string.
Variable calculate_distance_from_geometry : Q -> Q -> Q -> Q -> Q.
Variables period_start_time period_end_time : Z.

(** The inbound link of the first service node is numbered
    [1000000 + number_of_route_links], the number of the last service
    link, and its outbound link one more. *)
Lemma boarding_links_first_ids directed_service_dict node_lon_dict node_lat_dict
    frequency_dict (number_of_route_links : Z) (row : Node) (rows : list Node)
    (links : list Link) :
  boarding_links convert_route_type_to_link_type allowed_use_function
                 calculate_distance_from_geometry period_start_time period_end_time
                 directed_service_dict node_lon_dict node_lat_dict frequency_dict
                 number_of_route_links 0 (row :: rows) = Ok links ->
  exists inbound outbound rest,
    links = inbound :: outbound :: rest
    /\ link_id inbound = 1000000 + number_of_route_links
    /\ link_id outbound = 1000000 + number_of_route_links + 1.
Proof.
  simpl. unfold boarding_links_of_node.
  destruct (node_lon_dict !! physical_node_id row); [simpl|discriminate].
  destruct (node_lat_dict !! physical_node_id row); [simpl|discriminate].
  destruct (directed_service_dict !! node_id row); [simpl|discriminate].
  destruct (frequency_dict !! n_directed_service_id row); [simpl|discriminate].
  destruct (boarding_links _ _ _ _ _ _ _ _ _ _ _ rows) as [rest|]; [simpl|discriminate].
  intros [= <-]. eexists _, _, rest. split; [reflexivity|]. simpl. split; lia.
Qed.

(** C3 fails on the code.  For the trip T1 from A to B the one service
    link gets the number 1000001, and so does the first boarding link:
    the boarding links are numbered from
    [1000000 + number_of_route_links + 0]. *)
Theorem boarding_link_repeats_service_link_id :
  exists node_df links,
    create_nodes convert_route_type_to_node_type_p
                 convert_route_type_to_node_type_s two_stop_frame = Ok node_df
    /\ create_service_boarding_links convert_route_type_to_link_type
         allowed_use_function calculate_distance_from_geometry
         period_start_time period_end_time two_stop_frame node_df [] = Ok links
    /\ map (fun l => (link_type_name l, link_id l)) links
       = [ ("service_links", 1000001);
           ("boarding_links", 1000001); ("boarding_links", 1000002);
           ("boarding_links", 1000003); ("boarding_links", 1000004) ].
Proof.
  eexists _, _. split; [vm_compute; reflexivity|].
  split; [vm_compute; reflexivity|]. vm_compute. reflexivity.
Qed.

End WithHelpers.

End LinkClaims.

(** ** Transferring links *)

Module TransferClaims.
Import Frame Ingest Nodes Links LinkSpecs Fixtures.


Section WithHelpers.

Variable calculate_distance_from_geometry : Q -> Q -> Q -> Q -> Q.
Variable transferring_penalty : string -> string -> Q.
Variable allowed_use_transferring : string -> string -> string.





(** The stops A and B of the bus route R1 and the stop C of the rail
    route R2, 200 and 100 away from C: A and B are not joined to each
    other, each is joined to C, and the turn of C emits the pair to A and
    skips B, whose route it has already served. *)
Example shared_stop_transfers :
  exists node_df,
    create_nodes stop_node_type stop_node_type shared_stop_frame = Ok node_df
    /\ map (fun l => (link_id l, from_node_id l, to_node_id l, l_length l))
           (create_transferring_links grid_distance transferring_penalty
                                      allowed_use_transferring node_df [])
       = [ (1, 1000001, 1000003, 200%Q); (2, 1000003, 1000001, 200%Q);
           (3, 1000002, 1000003, 100%Q); (4, 1000003, 1000002, 100%Q);
           (5, 1000003, 1000001, 200%Q); (6, 1000001, 1000003, 200%Q) ].
Proof. eexists. split; vm_compute; reflexivity. Qed.

End WithHelpers.

End TransferClaims.

(** ** Paths and required files *)

Module UtilityFacts.
Import UtilityLib.

(** X1.  [path2linux] leaves no backslash, keeps the length of the path, and
    changes nothing in a path it has already converted. *)
Theorem path2linux_normal (path : string) :
  ~ In backslash (list_ascii_of_string (path2linux path))
  /\ String.length (path2linux path) = String.length path
  /\ path2linux (path2linux path) = path2linux path.
Proof.
  induction path as [|c rest (IHno & IHlen & IHidem)]; simpl.
  - repeat split; auto.
  - split; [|split].
    + intros [Hc|Hin]; [|exact (IHno Hin)].
      destruct (Ascii.eqb c backslash) eqn:E.
      * discriminate Hc.
      * apply Ascii.eqb_neq in E. congruence.
    + rewrite IHlen. reflexivity.
    + rewrite IHidem. f_equal.
      destruct (Ascii.eqb c backslash) eqn:E; [reflexivity | rewrite E; reflexivity].
Qed.

Lemma last_segment_no_dot (file : string) :
  has_dot file = false -> last_segment file = file.
Proof.
  destruct file as [|c rest]; simpl; [reflexivity|].
  intros H. apply orb_false_iff in H as [Hc Hrest]. rewrite Hrest, Hc. reflexivity.
Qed.

Lemma has_dot_app (a b : string) : has_dot (a +:+ b) = has_dot a || has_dot b.
Proof.
  induction a as [|c a IH]; simpl; [reflexivity|]. rewrite IH, orb_assoc. reflexivity.
Qed.

Lemma last_segment_suffix (pre t : string) :
  has_dot t = false -> last_segment (pre +:+ "." +:+ t) = t.
Proof.
  intros Ht. induction pre as [|c pre IH]; simpl.
  - change (EmptyString +:+ t) with t. rewrite Ht. reflexivity.
  - rewrite has_dot_app. simpl. rewrite orb_true_r. exact IH.
Qed.

Lemma last_segment_split (file : string) :
  has_dot (last_segment file) = false
  /\ (file = last_segment file
      \/ exists pre, file = pre +:+ "." +:+ last_segment file).
Proof.
  induction file as [|c rest [IHdot IH]]; simpl.
  - split; [reflexivity | left; reflexivity].
  - destruct (has_dot rest) eqn:Hrest.
    + split; [exact IHdot|]. right. destruct IH as [IH|[pre IH]].
      * rewrite <- IH in IHdot. congruence.
      * exists (String c pre).
        change (String c rest = String c (pre +:+ "." +:+ last_segment rest)).
        f_equal. exact IH.
    + destruct (Ascii.eqb c "."%char) eqn:Hc.
      * split; [exact Hrest|]. right. exists EmptyString.
        apply Ascii.eqb_eq in Hc. subst c. reflexivity.
      * split; [simpl; rewrite Hc, Hrest; reflexivity | left; reflexivity].
Qed.

(** X2.  The extension test [file.split(".")[-1] == file_type], for a type
    without a dot: it holds for the names that end with a dot and the
    type, and for the name that is the type itself, and for no other. *)
Theorem extension_test (file file_type : string) :
  has_dot file_type = false ->
  (last_segment file = file_type
   <-> file = file_type \/ exists pre, file = pre +:+ "." +:+ file_type).
Proof.
  intros Ht. split.
  - intros <-. apply last_segment_split.
  - intros [->|[pre ->]].
    + apply last_segment_no_dot. exact Ht.
    + apply last_segment_suffix. exact Ht.
Qed.

Lemma extension_test_witness :
  last_segment "stops.txt" = "txt"
  <-> "stops.txt" = "txt" \/ exists pre, "stops.txt" = pre +:+ "." +:+ "txt".
Proof. apply (extension_test "stops.txt" "txt"). reflexivity. Defined.

(** X3.  A folder that holds the five required files passes the test of
    [read_gtfs_data], whatever else it holds and whatever the path
    separator of the platform. *)
Theorem required_files_found (os_path_join : string -> string -> string)
    (listdir : list string) (gtfs_dir : string) :
  (forall file, file ∈ required_files -> file ∈ listdir) ->
  required_files_exist os_path_join listdir gtfs_dir = true.
Proof.
  intros Hall. unfold required_files_exist, check_required_files_exist.
  apply forallb_forall. intros path Hpath. apply bool_decide_eq_true.
  apply in_map_iff in Hpath as (file & <- & Hfile).
  apply list_elem_of_In in Hfile.
  unfold get_txt_files_from_folder.
  apply (list_elem_of_fmap_2 (fun file => path2linux (os_path_join gtfs_dir file))).
  apply list_elem_of_filter. split; [|apply Hall; exact Hfile].
  unfold required_files in Hfile.
  repeat (apply elem_of_cons in Hfile as [->|Hfile]; [reflexivity|]).
  inversion Hfile.
Qed.

Lemma required_files_found_witness :
  required_files_exist (fun a b => a +:+ "/" +:+ b)
                       ("calendar.txt" :: "notes" :: required_files) "feed" = true.
Proof.
  apply required_files_found.
  intros file Hfile. apply elem_of_cons. right. apply elem_of_cons. right. exact Hfile.
Defined.

End UtilityFacts.

(** ** Ingest: what the tables keep and what they join *)

Module IngestExtra.
Import Frame Ingest Fixtures IngestFacts NodeFacts.

Lemma unique_elem {K} `{EqDecision K} (l : list K) (k : K) : k ∈ unique l <-> k ∈ l.
Proof.
  unfold unique, drop_duplicates.
  pose proof (drop_duplicates_from_keys (fun k : K => k) [] l k) as H.
  rewrite !map_id in H. rewrite H. split; [tauto|].
  intros Hk. split; [exact Hk | apply not_elem_of_nil].
Qed.

Lemma groupby_elem {A} (key : A -> string) (df : list A) (k : string) (rows : list A) :
  (k, rows) ∈ groupby key df <->
  k ∈ map key df /\ rows = filter (fun a => key a = k) df.
Proof.
  unfold groupby. rewrite list_elem_of_fmap. split.
  - intros (k' & [= -> ->] & Hk). split; [|reflexivity].
    rewrite merge_sort_Permutation in Hk. apply (proj1 (unique_elem _ _)) in Hk. exact Hk.
  - intros [Hk ->]. exists k. split; [reflexivity|].
    rewrite merge_sort_Permutation. apply unique_elem. exact Hk.
Qed.

Lemma int_le_total {A} (key : A -> Z) : Total (int_le key).
Proof. intros a b. unfold int_le. lia. Qed.

Lemma int_le_trans {A} (key : A -> Z) : Transitive (int_le key).
Proof. intros a b c. unfold int_le. lia. Qed.

Lemma merge_elem {A B K : Type} `{EqDecision K}
    (kl : A -> K) (kr : B -> K) (left : list A) (right : list B) (a : A) (b : B) :
  (a, b) ∈ merge kl kr left right <-> a ∈ left /\ b ∈ right /\ kr b = kl a.
Proof.
  unfold merge. rewrite list_elem_of_In, in_flat_map. split.
  - intros (a' & Ha' & Hin). apply list_elem_of_In in Hin, Ha'.
    apply list_elem_of_fmap in Hin as (b' & [= -> ->] & Hb).
    apply list_elem_of_filter in Hb as [Hk Hb]. auto.
  - intros (Ha & Hb & Hk). exists a. split; [apply list_elem_of_In; exact Ha|].
    apply list_elem_of_In. apply list_elem_of_fmap. exists b. split; [reflexivity|].
    apply list_elem_of_filter. auto.
Qed.

(** X4.  A row of [stop_times] stays exactly when its arrival time is
    neither null nor empty nor a blank and its departure time is neither
    empty nor a blank; a null departure time does not remove it. *)
Theorem stop_time_row_stays (df : list StopTimeIn) (r : StopTimeIn) :
  r ∈ drop_rows_without_time df <->
  r ∈ df
  /\ (exists a, sti_arrival_time r = Some a /\ a <> EmptyString /\ a <> " ")
  /\ sti_departure_time r <> Some EmptyString
  /\ sti_departure_time r <> Some " ".
Proof. apply drop_rows_without_time_spec. Qed.

(** X5.  Two trips of one route get the same [directed_route_id] only
    when they run in the same direction, a file without the column
    [direction_id] counting as direction 0. *)
Theorem directed_route_id_separates_directions (a b : TripIn) :
  ti_route_id a = ti_route_id b ->
  t_directed_route_id (direct_trip a) = t_directed_route_id (direct_trip b) ->
  default 0 (ti_direction_id a) = default 0 (ti_direction_id b).
Proof.
  unfold direct_trip, recode_direction. simpl. intros -> H.
  apply String.app_inj in H. apply (String.app_inj ".") in H.
  apply pretty_Z_inj in H. lia.
Qed.

Lemma directed_route_id_separates_directions_witness :
  default 0 (ti_direction_id {| ti_route_id := "R1"; ti_trip_id := "T1";
                                ti_direction_id := Some 0 |})
  = default 0 (ti_direction_id {| ti_route_id := "R1"; ti_trip_id := "T2";
                                  ti_direction_id := None |}).
Proof.
  apply directed_route_id_separates_directions; reflexivity.
Defined.

Lemma unique_is_NoDup {K} `{EqDecision K} (l : list K) : NoDup (unique l).
Proof.
  unfold unique, drop_duplicates.
  pose proof (drop_duplicates_from_NoDup (fun k : K => k) [] l) as H.
  rewrite map_id in H. exact H.
Qed.

Lemma groupby_keys_NoDup {A} (key : A -> string) (df : list A) :
  NoDup (map fst (groupby key df)).
Proof.
  unfold groupby. rewrite map_map. simpl. rewrite map_id.
  rewrite merge_sort_Permutation. apply unique_is_NoDup.
Qed.

(** The rows of a frame, shared out by key over a list of distinct keys
    that holds the key of every row, are the rows of the frame. *)
Lemma concat_filter_cons {A} (key : A -> string) (a : A) (df : list A)
    (ks : list string) :
  NoDup ks ->
  (key a ∈ ks ->
   concat (map (fun k => filter (fun r => key r = k) (a :: df)) ks)
   ≡ₚ a :: concat (map (fun k => filter (fun r => key r = k) df) ks))
  /\ (key a ∉ ks ->
      concat (map (fun k => filter (fun r => key r = k) (a :: df)) ks)
      = concat (map (fun k => filter (fun r => key r = k) df) ks)).
Proof.
  induction ks as [|k ks IH]; intros Hnd.
  - split; [intros Hin; inversion Hin | reflexivity].
  - apply NoDup_cons in Hnd as [Hk Hnd]. destruct (IH Hnd) as [IHin IHout].
    simpl. destruct (decide (key a = k)) as [Heq|Hne].
    + rewrite (filter_cons_True (fun r => key r = k)) by exact Heq.
      assert (Hout : key a ∉ ks) by (rewrite Heq; exact Hk).
      split; [intros _; rewrite (IHout Hout); reflexivity|].
      intros Hnot. exfalso. apply Hnot. rewrite Heq. apply list_elem_of_here.
    + rewrite (filter_cons_False (fun r => key r = k)) by exact Hne.
      split.
      * intros Hin. apply elem_of_cons in Hin as [Heq|Hin]; [contradiction|].
        rewrite (IHin Hin). symmetry. apply Permutation_middle.
      * intros Hnot. rewrite IHout; [reflexivity|].
        intros Hin. apply Hnot. apply elem_of_cons. right. exact Hin.
Qed.

Lemma concat_filter_keys {A} (key : A -> string) (df : list A) (ks : list string) :
  NoDup ks -> (forall a, a ∈ df -> key a ∈ ks) ->
  concat (map (fun k => filter (fun r => key r = k) df) ks) ≡ₚ df.
Proof.
  intros Hnd. induction df as [|a df IH]; intros Hall.
  - clear. induction ks as [|k ks IH]; [reflexivity | exact IH].
  - destruct (concat_filter_cons key a df ks Hnd) as [Hin _].
    rewrite Hin by (apply Hall; apply list_elem_of_here).
    constructor. apply IH. intros b Hb. apply Hall. apply elem_of_cons. right. exact Hb.
Qed.

Lemma concat_sorted_frames (ks : list string) (df : list StopTime) :
  concat (map (fun k => sort_values_int st_stop_sequence
                          (filter (fun r => st_trip_id r = k) df)) ks)
  ≡ₚ concat (map (fun k => filter (fun r => st_trip_id r = k) df) ks).
Proof.
  induction ks as [|k ks IH]; simpl; [reflexivity|].
  unfold sort_values_int at 1. rewrite merge_sort_Permutation, IH. reflexivity.
Qed.

Lemma trip_frames_by_key (df : list StopTime) :
  trip_frames df
  = map (fun k => sort_values_int st_stop_sequence
                    (filter (fun r => st_trip_id r = k) df))
        (map fst (groupby st_trip_id df)).
Proof.
  unfold trip_frames, groupby. rewrite !map_map. reflexivity.
Qed.

(** X8.  The loop over the trips sees each trip once, and each row of
    [stop_time_df] once: the frames of the loop, one after the other, are
    the rows of [stop_time_df] in another order, and they are the frames
    of a list of trips without repetition, each with the rows of its trip
    and no other, as many times as [stop_time_df] has them, in the order
    of [stop_sequence]; no frame is empty. *)
Theorem trip_frames_partition (df : list StopTime) :
  concat (trip_frames df) ≡ₚ df
  /\ exists trip_ids,
       NoDup trip_ids
       /\ Forall2 (fun k g => g <> []
                              /\ StronglySorted (int_le st_stop_sequence) g
                              /\ g ≡ₚ filter (fun r => st_trip_id r = k) df)
                  trip_ids (trip_frames df).
Proof.
  rewrite trip_frames_by_key.
  pose proof (groupby_keys_NoDup st_trip_id df) as Hnd.
  assert (Hkeys : forall k, k ∈ map fst (groupby st_trip_id df) <-> k ∈ map st_trip_id df).
  { intros k. unfold groupby. rewrite map_map. simpl. rewrite map_id.
    rewrite merge_sort_Permutation. apply unique_elem. }
  split.
  - rewrite concat_sorted_frames. apply concat_filter_keys; [exact Hnd|].
    intros a Ha. apply Hkeys. apply list_elem_of_fmap. exists a. auto.
  - exists (map fst (groupby st_trip_id df)). split; [exact Hnd|].
    apply Forall2_fmap_r. apply Forall_Forall2_diag. apply Forall_forall.
    intros k Hk. apply Hkeys in Hk.
    assert (Hperm : sort_values_int st_stop_sequence
                      (filter (fun r => st_trip_id r = k) df)
                    ≡ₚ filter (fun r => st_trip_id r = k) df)
      by (unfold sort_values_int; apply merge_sort_Permutation).
    split; [|split].
    + apply list_elem_of_fmap in Hk as (r & -> & Hr). intros Hnil.
      assert (Hin : r ∈ filter (fun a => st_trip_id a = st_trip_id r) df)
        by (apply list_elem_of_filter; auto).
      rewrite <- Hperm, Hnil in Hin. inversion Hin.
    + apply StronglySorted_merge_sort; [apply int_le_trans | apply int_le_total].
    + exact Hperm.
Qed.

Lemma repair_quotes_trip_ids (routes routes' : list Route) (trips trips' : list Trip) :
  repair_quotes routes trips = Ok (routes', trips') ->
  map t_trip_id trips' = map t_trip_id trips.
Proof.
  unfold repair_quotes.
  destruct (first_is_quote (map r_route_id routes)) as [qr|]; [simpl|discriminate].
  destruct (first_is_quote (map t_route_id trips)) as [qt|]; [simpl|discriminate].
  destruct (negb (Bool.eqb qr qt)); [destruct qr|]; intros [= <- <-];
    [reflexivity | rewrite map_map; reflexivity | reflexivity].
Qed.

Section ReadGtfsData.

Variable other_time : string -> result (option Z).
Variables determine_terminal_flag stop_sequence_label_pass : list StopTime -> list StopTime.
Variables period_start_time period_end_time : Z.

(** X6.  [read_gtfs_data] reads the first row of the agency table, and
    then the first row of the routes table: when the agency table has no
    row, or when there are trips and the routes table has no row, it
    raises [KeyError]. *)
Theorem read_gtfs_data_needs_first_rows (gtfs : GTFS) :
  agency_df gtfs = [] \/ (trip_df gtfs <> [] /\ route_df gtfs = []) ->
  exists msg,
    read_gtfs_data other_time determine_terminal_flag stop_sequence_label_pass
                   period_start_time period_end_time gtfs = Err (KeyError msg).
Proof.
  unfold read_gtfs_data. intros [Hagency|[Htrips Hroutes]].
  - rewrite Hagency. simpl. eexists. reflexivity.
  - destruct (head (agency_df gtfs)); simpl; [|eexists; reflexivity].
    destruct (trip_df gtfs) as [|t trips]; [contradiction|].
    rewrite Hroutes. simpl. eexists. reflexivity.
Qed.

(** X7.  The merges of [read_gtfs_data] are inner merges: whenever it
    returns, whatever pandas makes of the times that are not in the
    clock form, every row of the enriched frame has the agency of the
    feed, a trip of the trips table, a route of [trip_route_df] and a
    stop of the stops table, so a stop time whose trip, route or stop is
    unknown leaves no row. *)
Theorem enriched_rows_are_joined (gtfs : GTFS) (trip_route_df : list (Trip * Route))
    (df : list Enriched) :
  read_gtfs_data other_time determine_terminal_flag stop_sequence_label_pass
                 period_start_time period_end_time gtfs = Ok (trip_route_df, df) ->
  Forall (IngestSpecs.joined gtfs trip_route_df) df.
Proof.
  unfold read_gtfs_data.
  destruct (head (agency_df gtfs)) as [agency|] eqn:Hagency; [simpl|discriminate].
  destruct (recode_trips (trip_df gtfs)) as [directed|] eqn:Hdirected;
    [simpl|discriminate].
  assert (Hdir : directed = map direct_trip (trip_df gtfs))
    by (unfold recode_trips in Hdirected; destruct (trip_df gtfs);
        [discriminate | injection Hdirected as <-; reflexivity]).
  subst directed.
  destruct (repair_quotes (route_df gtfs) (map direct_trip (trip_df gtfs)))
    as [[routes trips]|] eqn:Hrepair; [simpl|discriminate].
  destruct (rmap (convert_row other_time) (drop_rows_without_time (stop_time_df gtfs)))
    as [stop_times|]; [simpl|discriminate].
  destruct (concat_frames _) as [with_terminal|]; [simpl|discriminate].
  intros [= <- <-]. apply Forall_forall. intros r Hr.
  apply list_elem_of_fmap in Hr as ([[tr st] s] & -> & Hin). simpl.
  apply merge_elem in Hin as (Hin & Hs & Hstop). simpl in Hstop.
  apply merge_elem in Hin as (Htr & _ & Htrip). simpl in Htrip.
  pose proof Htr as Hpair. destruct tr as [t route].
  apply merge_elem in Hpair as (Ht & _ & Hroute). simpl in *.
  unfold IngestSpecs.joined. simpl. split; [exact Hagency|]. split; [|split].
  - assert (Hid : t_trip_id t ∈ map t_trip_id trips)
      by (apply list_elem_of_fmap; exists t; auto).
    rewrite (repair_quotes_trip_ids _ _ _ _ Hrepair), map_map in Hid.
    apply list_elem_of_fmap in Hid as (t0 & Heq & Ht0).
    exists t0. split; [exact Ht0 | symmetry; exact Heq].
  - exists (t, route). repeat split; auto.
  - exists s. repeat split; auto.
Qed.

End ReadGtfsData.

Lemma read_gtfs_data_needs_first_rows_witness :
  exists msg, read_gtfs_data clock_only id id 420 480
                {| agency_df := []; stop_df := [stop_A]; route_df := [route_R1];
                   trip_df := []; stop_time_df := [] |} = Err (KeyError msg).
Proof.
  apply read_gtfs_data_needs_first_rows. left. reflexivity.
Defined.

Lemma enriched_rows_are_joined_witness :
  Forall (IngestSpecs.joined orphan_feed [(trip_T1, route_R1)]) orphan_frame.
Proof.
  apply (enriched_rows_are_joined clock_only id id 420 480). vm_compute. reflexivity.
Defined.

End IngestExtra.

(** ** The node table: numbering, order and the two kinds of node *)

Module NodesExtra.
Import Frame Ingest Nodes NodeSpecs NodeFacts CreateNodesFacts CreateNodesReturns.
Import FirstRows Fixtures.

Lemma str_le_total {A} (key : A -> string) : Total (str_le key).
Proof. intros a b. unfold str_le. apply String.leb_total. Qed.

Lemma names_column_sorted (key : Enriched -> string) (temp_df : list (nat * Enriched)) :
  Sorted (fun a b => String.leb a b = true) (map snd (sorted_names key temp_df)).
Proof.
  apply (Sorted_fmap snd (str_le snd)); [intros x y H; exact H|].
  unfold sorted_names, sort_values_str. apply Sorted_merge_sort. apply str_le_total.
Qed.

Lemma names_column_NoDup (key : Enriched -> string) (df : list Enriched) :
  NoDup (map snd (sorted_names key (temp_df_of key df))).
Proof.
  rewrite sorted_names_snd. unfold temp_df_of, drop_duplicates.
  apply drop_duplicates_from_NoDup.
Qed.

Lemma names_column_elem (key : Enriched -> string) (df : list Enriched) (x : string) :
  x ∈ map snd (sorted_names key (temp_df_of key df)) <-> x ∈ map key df.
Proof.
  rewrite sorted_names_snd. unfold temp_df_of, drop_duplicates.
  rewrite (drop_duplicates_from_keys (fun p : nat * Enriched => key p.2) []).
  rewrite <- (map_map snd key), labelled_snd. split; [tauto|].
  intros H. split; [exact H | apply not_elem_of_nil].
Qed.

Lemma node_ids_seq (base : Z) (n : nat) :
  node_ids base n = map (fun k => base + Z.of_nat k) (seq 1 n).
Proof.
  unfold node_ids, linspace_1. rewrite map_map. apply map_ext. intros k. lia.
Qed.

Lemma zip_map_map {A B C} (f : A -> B) (g : A -> C) (l : list A) :
  zip (map f l) (map g l) = map (fun x => (f x, g x)) l.
Proof. induction l as [|a l IH]; simpl; [reflexivity | rewrite IH; reflexivity]. Qed.

Lemma filter_all {A} (P : A -> Prop) `{forall a, Decision (P a)} (l : list A) :
  Forall P l -> filter P l = l.
Proof.
  induction 1 as [|a l Ha _ IH]; [reflexivity|].
  rewrite filter_cons_True by exact Ha. rewrite IH. reflexivity.
Qed.

Lemma filter_none {A} (P : A -> Prop) `{forall a, Decision (P a)} (l : list A) :
  Forall (fun a => ~ P a) l -> filter P l = [].
Proof.
  induction 1 as [|a l Ha _ IH]; [reflexivity|].
  rewrite filter_cons_False by exact Ha. exact IH.
Qed.

Section WithTables.

Variable convert_route_type_to_node_type_p : Z -> string.
Variable convert_route_type_to_node_type_s : Z -> string.

(** The rows of the service node table, one for each row of the sorted
    names: its name and number, and the row of [temp_df] it reads. *)
Lemma service_node_df_rows (dict : gmap string Z) (df : list Enriched) (S : list Node) :
  service_node_df convert_route_type_to_node_type_s dict df = Ok S ->
  Forall2 (fun row n =>
             name n = row.1.2 /\ node_id n = row.2
             /\ exists r, (row.1.1, r) ∈ temp_df_of directed_service_stop_id df
                          /\ dict !! stop_id r = Some (physical_node_id n)
                          /\ n_directed_service_id n = directed_service_id r
                          /\ ServiceSpecs.service_from
                               convert_route_type_to_node_type_s r n)
          (zip (sorted_names directed_service_stop_id
                             (temp_df_of directed_service_stop_id df))
               (node_ids 1500000
                  (length (sorted_names directed_service_stop_id
                                        (temp_df_of directed_service_stop_id df)))))
          S.
Proof.
  unfold service_node_df.
  destruct (physical_ids_of dict (temp_df_of directed_service_stop_id df))
    as [physical|] eqn:Hphys; [simpl|discriminate].
  intros HS. apply rmap_Forall2 in HS.
  apply physical_ids_of_Ok in Hphys. apply rmap_Forall2 in Hphys.
  eapply Forall2_impl; [exact HS|]. intros row n Hn. simpl in Hn.
  unfold service_node in Hn.
  destruct (loc physical row.1.1) as [pid|] eqn:Hpid; [simpl in Hn|discriminate].
  destruct (loc (temp_df_of directed_service_stop_id df) row.1.1) as [r|] eqn:Hr;
    [simpl in Hn|discriminate].
  injection Hn as <-. simpl. split; [reflexivity|]. split; [reflexivity|].
  apply loc_Ok in Hpid. apply loc_Ok in Hr. exists r. split; [exact Hr|].
  split; [|split; [reflexivity | repeat split]].
  destruct (Forall2_elem_r _ _ _ _ Hphys Hpid) as ([j r'] & Hin & Hrow).
  simpl in Hrow.
  destruct (dict !! stop_id r') as [i|] eqn:Hd; [simpl in Hrow|discriminate].
  injection Hrow as -> ->.
  assert (r' = r).
  { pose proof (loc_elem _ _ _ (temp_df_NoDup directed_service_stop_id df) Hin) as H1.
    pose proof (loc_elem _ _ _ (temp_df_NoDup directed_service_stop_id df) Hr) as H2.
    congruence. }
  subst r'. exact Hd.
Qed.

(** X9.  For a frame with rows, [create_nodes] returns the physical
    nodes followed by the service nodes.  Each table has one node for
    each different name ([stop_id], [directed_service_stop_id]) of the
    frame, in increasing order of the names, and numbers its nodes
    1000001, 1000002, ... and 1500001, 1500002, ... in that order. *)
Theorem create_nodes_numbering (df : list Enriched) :
  (0 < length df)%nat ->
  exists P S,
    create_nodes convert_route_type_to_node_type_p
                 convert_route_type_to_node_type_s df = Ok (P ++ S)
    /\ map node_id P = map (fun k => 1000000 + Z.of_nat k) (seq 1 (length P))
    /\ map node_id S = map (fun k => 1500000 + Z.of_nat k) (seq 1 (length S))
    /\ Sorted (fun a b => String.leb a b = true) (map name P)
    /\ Sorted (fun a b => String.leb a b = true) (map name S)
    /\ NoDup (map name P) /\ NoDup (map name S)
    /\ (forall x, x ∈ map name P <-> x ∈ map stop_id df)
    /\ (forall x, x ∈ map name S <-> x ∈ map directed_service_stop_id df).
Proof.
  intros Hrows.
  destruct (create_nodes_returns convert_route_type_to_node_type_p
              convert_route_type_to_node_type_s df (length_pos_nonempty df Hrows))
    as (P & dict & S & HP & HS & Hall & HPids & HSids & _).
  destruct (physical_node_df_returns convert_route_type_to_node_type_p df)
    as (P' & HP' & HF).
  rewrite HP in HP'. injection HP' as <- _.
  apply physical_node_df_columns in HF as [_ HPnames];
    [|rewrite node_ids_length; reflexivity].
  pose proof (service_node_df_rows dict df S HS) as HFS.
  assert (HSnames : map name S
                    = map snd (sorted_names directed_service_stop_id
                                 (temp_df_of directed_service_stop_id df))).
  { rewrite (Forall2_map_eq _ name (fun row : nat * string * Z => row.1.2) _ _
                            (fun row n H => proj1 H) HFS).
    rewrite <- (map_map fst snd). f_equal. apply fst_zip.
    rewrite node_ids_length. lia. }
  assert (HlenP : length P = length (unique (map stop_id df))).
  { rewrite <- (length_map node_id P), HPids, node_ids_length. reflexivity. }
  assert (HlenS : length S = length (unique (map directed_service_stop_id df))).
  { rewrite <- (length_map node_id S), HSids, node_ids_length. reflexivity. }
  exists P, S. split; [exact Hall|].
  split; [rewrite HPids, HlenP; apply node_ids_seq|].
  split; [rewrite HSids, HlenS; apply node_ids_seq|].
  rewrite HPnames, HSnames.
  split; [apply names_column_sorted|]. split; [apply names_column_sorted|].
  split; [apply names_column_NoDup|]. split; [apply names_column_NoDup|].
  split; intros x; apply names_column_elem.
Qed.

(** The two tables of [create_nodes]: a physical node is its own
    physical node, and a service node has the number of the physical node
    named after the stop of its row. *)
Lemma create_nodes_tables (df : list Enriched) :
  df <> [] ->
  exists P S,
    create_nodes convert_route_type_to_node_type_p
                 convert_route_type_to_node_type_s df = Ok (P ++ S)
    /\ map node_id P = node_ids 1000000 (length (unique (map stop_id df)))
    /\ map node_id S
       = node_ids 1500000 (length (unique (map directed_service_stop_id df)))
    /\ Forall (fun n => physical_node_id n = node_id n) P
    /\ Forall (fun n => exists r p,
                  r ∈ df /\ p ∈ P
                  /\ name n = directed_service_stop_id r
                  /\ n_directed_service_id n = directed_service_id r
                  /\ name p = stop_id r
                  /\ physical_node_id n = node_id p) S
    /\ forall r, r ∈ df -> directed_service_stop_id r ∈ map name S.
Proof.
  intros Hne.
  destruct (create_nodes_returns convert_route_type_to_node_type_p
              convert_route_type_to_node_type_s df Hne)
    as (P & dict & S & HP & HS & Hall & HPids & HSids & _).
  destruct (physical_node_df_returns convert_route_type_to_node_type_p df)
    as (P' & HP' & HF).
  rewrite HP in HP'. injection HP' as <- Hdict.
  pose proof HF as HF'.
  apply physical_node_df_columns in HF' as [HPid HPnames];
    [|rewrite node_ids_length; reflexivity].
  exists P, S. split; [exact Hall|]. split; [exact HPids|]. split; [exact HSids|].
  split; [|split].
  3:{ pose proof (service_node_df_rows dict df S HS) as HFS.
      rewrite (Forall2_map_eq _ name (fun row : nat * string * Z => row.1.2) _ _
                              (fun row n H => proj1 H) HFS).
      rewrite <- (map_map fst snd), fst_zip by (rewrite node_ids_length; lia).
      intros r Hr. apply names_column_elem. apply list_elem_of_fmap. exists r. auto. }
  - apply Forall_forall. intros n Hn.
    destruct (Forall2_elem_r _ _ _ _ HF Hn) as (row & _ & Hrow).
    apply physical_node_Ok in Hrow as (r & _ & _ & Hid & Hpid & _). congruence.
  - pose proof (service_node_df_rows dict df S HS) as HFS.
    apply Forall_forall. intros n Hn.
    destruct (Forall2_elem_r _ _ _ _ HFS Hn)
      as ([[i nm] id] & Hrow & Hname & _ & r & Hr & Hd & Hsid & _).
    simpl in *.
    apply elem_of_zip_l in Hrow.
    apply sorted_names_elem in Hrow as (r0 & Hr0 & Hnm).
    assert (r0 = r).
    { pose proof (loc_elem _ _ _ (temp_df_NoDup directed_service_stop_id df) Hr0) as H1.
      pose proof (loc_elem _ _ _ (temp_df_NoDup directed_service_stop_id df) Hr) as H2.
      congruence. }
    subst r0.
    rewrite Hdict in Hd. unfold dict_zip in Hd.
    apply foldl_insert_value in Hd as [Hd|Hd]; [|rewrite lookup_empty in Hd; discriminate].
    rewrite <- HPnames, <- HPid, zip_map_map in Hd.
    apply list_elem_of_fmap in Hd as (p & [= Hpn Hpi] & Hp).
    exists r, p. split; [apply temp_df_subset in Hr; exact Hr|].
    split; [exact Hp|]. split; [congruence|]. split; [exact Hsid|]. split; congruence.
Qed.

(** X10.  For a frame with rows, every physical node is its own
    [physical_node_id], and every service node carries the [node_id] of
    the physical node named after the stop of the row it is made from. *)
Theorem service_nodes_attach_to_stops (df : list Enriched) :
  (0 < length df)%nat ->
  exists P S,
    create_nodes convert_route_type_to_node_type_p
                 convert_route_type_to_node_type_s df = Ok (P ++ S)
    /\ Forall (fun n => physical_node_id n = node_id n) P
    /\ Forall (fun n => exists r p,
                  r ∈ df /\ p ∈ P
                  /\ name n = directed_service_stop_id r
                  /\ name p = stop_id r
                  /\ physical_node_id n = node_id p) S.
Proof.
  intros Hrows.
  destruct (create_nodes_tables df (length_pos_nonempty df Hrows))
    as (P & S & Hall & _ & _ & HP & HS & _).
  exists P, S. split; [exact Hall|]. split; [exact HP|].
  eapply Forall_impl; [exact HS|]. intros n (r & p & H1 & H2 & H3 & _ & H4 & H5).
  exists r, p. auto.
Qed.

(** X11.  For a frame with rows and at most 499999 different stops, the
    tests the link builders apply to the node table,
    [node_id == physical_node_id] and [node_id != physical_node_id],
    give back the physical nodes and the service nodes of [create_nodes]. *)
Theorem node_table_splits (df : list Enriched) :
  (0 < length df)%nat ->
  Z.of_nat (length (unique (map stop_id df))) <= 499999 ->
  exists P S,
    create_nodes convert_route_type_to_node_type_p
                 convert_route_type_to_node_type_s df = Ok (P ++ S)
    /\ Links.physical_of (P ++ S) = P
    /\ filter (fun n => node_id n ≠ physical_node_id n) (P ++ S) = S.
Proof.
  intros Hrows Hbound.
  destruct (create_nodes_tables df (length_pos_nonempty df Hrows))
    as (P & S & Hall & HPids & HSids & HP & HS & _).
  assert (HS' : Forall (fun n => node_id n ≠ physical_node_id n) S).
  { apply Forall_forall. intros n Hn.
    pose proof (proj1 (Forall_forall _ _) HS n Hn) as (r & p & _ & Hp & _ & _ & _ & Hpid).
    assert (Hi : node_id p ∈ map node_id P) by (apply list_elem_of_fmap; exists p; auto).
    assert (Hj : node_id n ∈ map node_id S) by (apply list_elem_of_fmap; exists n; auto).
    rewrite HPids in Hi. rewrite HSids in Hj.
    apply node_ids_elem in Hi. apply node_ids_elem in Hj. lia. }
  exists P, S. split; [exact Hall|]. unfold Links.physical_of.
  rewrite !filter_app. split.
  - rewrite (filter_all _ P), (filter_none _ S), app_nil_r; [reflexivity| |].
    + eapply Forall_impl; [exact HS'|]. intros n Hn Heq. apply Hn. exact Heq.
    + eapply Forall_impl; [exact HP|]. intros n Hn. symmetry. exact Hn.
  - rewrite (filter_none _ P), (filter_all _ S); [reflexivity|exact HS'|].
    eapply Forall_impl; [exact HP|]. intros n Hn Hne. apply Hne. symmetry. exact Hn.
Qed.

(** X19.  Let [r], at position [i], be the first row of the frame with
    the [directed_service_stop_id] [s].  The service node table has one
    node per name, and its node named [s] takes its route, its service,
    its flag and its coordinates, moved by 0.0001, from [r]. *)
Theorem service_node_of_first_occurrence (df : list Enriched) (s : string)
    (i : nat) (r : Enriched) :
  df !! i = Some r ->
  directed_service_stop_id r = s ->
  (forall j r', (j < i)%nat -> df !! j = Some r' -> directed_service_stop_id r' <> s) ->
  exists P S n,
    create_nodes convert_route_type_to_node_type_p
                 convert_route_type_to_node_type_s df = Ok (P ++ S)
    /\ NoDup (map name S)
    /\ n ∈ S /\ name n = s
    /\ ServiceSpecs.service_from convert_route_type_to_node_type_s r n.
Proof.
  intros Hi Hs Hfirst.
  assert (Hin : (i, r) ∈ temp_df_of directed_service_stop_id df).
  { apply temp_df_of_first; [exact Hi|]. intros j r' Hj Hr'. rewrite Hs.
    apply (Hfirst j r' Hj Hr'). }
  assert (Hne : df <> []) by (intros ->; discriminate Hi).
  destruct (create_nodes_returns convert_route_type_to_node_type_p
              convert_route_type_to_node_type_s df Hne)
    as (P & dict & S & _ & HS & Hall & _ & _ & _).
  pose proof (service_node_df_rows dict df S HS) as HFS.
  assert (Hnm : (i, s) ∈ sorted_names directed_service_stop_id
                           (temp_df_of directed_service_stop_id df)).
  { apply sorted_names_elem. exists r. split; [exact Hin | symmetry; exact Hs]. }
  destruct (zip_elem_l _ (node_ids 1500000
                            (length (sorted_names directed_service_stop_id
                                       (temp_df_of directed_service_stop_id df))))
                       _ (eq_sym (node_ids_length 1500000 _)) Hnm) as [id Hrow].
  destruct (Forall2_elem_l _ _ _ _ HFS Hrow)
    as (n & Hn & Hname & _ & r0 & Hr0 & _ & _ & Hfrom).
  simpl in Hr0, Hname.
  assert (r0 = r).
  { pose proof (loc_elem _ _ _ (temp_df_NoDup directed_service_stop_id df) Hr0) as H1.
    pose proof (loc_elem _ _ _ (temp_df_NoDup directed_service_stop_id df) Hin) as H2.
    congruence. }
  subst r0. exists P, S, n. split; [exact Hall|]. split.
  { rewrite (Forall2_map_eq _ name (fun row : nat * string * Z => row.1.2) _ _
                            (fun row n H => proj1 H) HFS).
    rewrite <- (map_map fst snd), fst_zip by (rewrite node_ids_length; lia).
    apply names_column_NoDup. }
  auto.
Qed.

End WithTables.

Lemma create_nodes_numbering_witness :
  exists P S,
    create_nodes stop_node_type stop_node_type shared_stop_frame = Ok (P ++ S)
    /\ map node_id P = map (fun k => 1000000 + Z.of_nat k) (seq 1 (length P))
    /\ map node_id S = map (fun k => 1500000 + Z.of_nat k) (seq 1 (length S))
    /\ Sorted (fun a b => String.leb a b = true) (map name P)
    /\ Sorted (fun a b => String.leb a b = true) (map name S)
    /\ NoDup (map name P) /\ NoDup (map name S)
    /\ (forall x, x ∈ map name P <-> x ∈ map stop_id shared_stop_frame)
    /\ (forall x, x ∈ map name S
                  <-> x ∈ map directed_service_stop_id shared_stop_frame).
Proof.
  apply (create_nodes_numbering stop_node_type stop_node_type shared_stop_frame).
  simpl. lia.
Defined.

Lemma service_nodes_attach_to_stops_witness :
  exists P S,
    create_nodes stop_node_type stop_node_type shared_stop_frame = Ok (P ++ S)
    /\ Forall (fun n => physical_node_id n = node_id n) P
    /\ Forall (fun n => exists r p,
                  r ∈ shared_stop_frame /\ p ∈ P
                  /\ name n = directed_service_stop_id r
                  /\ name p = stop_id r
                  /\ physical_node_id n = node_id p) S.
Proof.
  apply (service_nodes_attach_to_stops stop_node_type stop_node_type shared_stop_frame).
  simpl. lia.
Defined.

Lemma node_table_splits_witness :
  exists P S,
    create_nodes stop_node_type stop_node_type shared_stop_frame = Ok (P ++ S)
    /\ Links.physical_of (P ++ S) = P
    /\ filter (fun n => node_id n ≠ physical_node_id n) (P ++ S) = S.
Proof.
  apply (node_table_splits stop_node_type stop_node_type shared_stop_frame).
  - simpl. lia.
  - vm_compute. discriminate.
Defined.

Lemma service_node_of_first_occurrence_witness :
  exists P S n,
    create_nodes stop_node_type stop_node_type shared_stop_frame = Ok (P ++ S)
    /\ NoDup (map name S)
    /\ n ∈ S /\ name n = "R1.2.B:A;B"
    /\ ServiceSpecs.service_from stop_node_type
         (enrich "Metro" (trip_T1, route_R1)
                 (labelled_stop_time "B" 2 440 "destination") stop_B) n.
Proof.
  apply (service_node_of_first_occurrence stop_node_type stop_node_type
           shared_stop_frame "R1.2.B:A;B" 1).
  - reflexivity.
  - reflexivity.
  - intros j r' Hj Hr'. assert (j = 0%nat) as -> by lia.
    simpl in Hr'. injection Hr' as <-. vm_compute. discriminate.
Defined.

End NodesExtra.

(** ** Service and boarding links: numbers and pairs *)

Module LinksExtra.
Import Frame Ingest Nodes Links LinkSpecs Fixtures.

Lemma numbered_from_cons (base : Z) (a : Link) (l : list Link) :
  numbered_from base (a :: l) <-> link_id a = base + 1 /\ numbered_from (base + 1) l.
Proof.
  unfold numbered_from.
  change (length (a :: l)) with (S (length l)).
  change (seq 1 (S (length l))) with (1%nat :: seq 2 (length l)).
  rewrite <- seq_shift, !map_cons, map_map. split.
  - intros [= H1 H2]. split; [lia|]. rewrite H2. apply map_ext. intros k. lia.
  - intros [H1 H2]. f_equal; [lia|]. rewrite H2. apply map_ext. intros k. lia.
Qed.

Lemma numbered_from_nil (base : Z) : numbered_from base [].
Proof. reflexivity. Qed.

Lemma numbered_from_app (base : Z) (l1 l2 : list Link) :
  numbered_from base l1 ->
  numbered_from (base + Z.of_nat (length l1)) l2 ->
  numbered_from base (l1 ++ l2).
Proof.
  revert base. induction l1 as [|a l1 IH]; intros base H1 H2.
  - change (length (@nil Link)) with 0%nat in H2.
    replace (base + Z.of_nat 0) with base in H2 by lia. exact H2.
  - rewrite <- app_comm_cons. apply numbered_from_cons in H1 as [Ha H1].
    apply numbered_from_cons. split; [exact Ha|]. apply IH; [exact H1|].
    replace (base + 1 + Z.of_nat (length l1))
      with (base + Z.of_nat (length (a :: l1))); [exact H2|].
    change (length (a :: l1)) with (S (length l1)). lia.
Qed.

Lemma Qmin_le_r (a b : Q) : (Qmin a b <= b)%Q.
Proof.
  unfold Qmin. destruct (Qle_bool a b) eqn:E.
  - apply Qle_bool_iff. exact E.
  - apply Qle_refl.
Qed.

Section WithHelpers.

Variable convert_route_type_to_link_type : Z -> string.
Variable allowed_use_function : Z -> string.
Variable calculate_distance_from_geometry : Q -> Q -> Q -> Q -> Q.
Variables period_start_time period_end_time : Z.

Lemma service_link_Ok node_id_dict agency_name0 number_of_trips
    (number_of_route_links : Z) (a b : Enriched) (l : Link) :
  service_link convert_route_type_to_link_type allowed_use_function
               calculate_distance_from_geometry node_id_dict agency_name0
               number_of_trips number_of_route_links a b = Ok l ->
  link_id l = 1000000 + number_of_route_links + 1 /\ link_type l = 1.
Proof.
  unfold service_link.
  destruct (node_id_dict !! directed_service_stop_id a); [simpl|discriminate].
  destruct (node_id_dict !! directed_service_stop_id b); [simpl|discriminate].
  intros [= <-]. split; reflexivity.
Qed.

Lemma service_links_of_line_cons node_id_dict agency_name0 number_of_trips
    (number_of_route_links : Z) (a b : Enriched) (rest : list Enriched) :
  service_links_of_line convert_route_type_to_link_type allowed_use_function
    calculate_distance_from_geometry node_id_dict agency_name0 number_of_trips
    number_of_route_links (a :: b :: rest)
  = let* l := service_link convert_route_type_to_link_type allowed_use_function
                calculate_distance_from_geometry node_id_dict agency_name0
                number_of_trips number_of_route_links a b in
    let* r := service_links_of_line convert_route_type_to_link_type
                allowed_use_function calculate_distance_from_geometry node_id_dict
                agency_name0 number_of_trips (number_of_route_links + 1)
                (b :: rest) in
    Ok (l :: r.1, r.2).
Proof. reflexivity. Qed.

Lemma service_links_of_line_shape node_id_dict agency_name0 number_of_trips
    (one_line_df : list Enriched) :
  forall (number_of_route_links : Z) (links : list Link) (number' : Z),
    service_links_of_line convert_route_type_to_link_type allowed_use_function
      calculate_distance_from_geometry node_id_dict agency_name0 number_of_trips
      number_of_route_links one_line_df = Ok (links, number') ->
    number' = number_of_route_links + Z.of_nat (length links)
    /\ numbered_from (1000000 + number_of_route_links) links
    /\ Forall (fun l => link_type l = 1) links.
Proof.
  induction one_line_df as [|a line IH]; intros R links R' H.
  - injection H as <- <-. simpl. split; [lia|]. split; [reflexivity | constructor].
  - destruct line as [|b rest].
    + injection H as <- <-. simpl. split; [lia|]. split; [reflexivity | constructor].
    + rewrite service_links_of_line_cons in H.
      destruct (service_link _ _ _ _ _ _ _ a b) as [l|] eqn:Hl;
        [cbn [rbind] in H|discriminate].
      destruct (service_links_of_line _ _ _ _ _ _ (R + 1) (b :: rest))
        as [[ls R'']|] eqn:Hr; [cbn [rbind fst snd] in H|discriminate].
      injection H as <- <-. apply IH in Hr as (-> & Hn & Ht).
      apply service_link_Ok in Hl as [Hid Hty].
      split; [change (length (l :: ls)) with (S (length ls)); lia|].
      split; [|constructor; assumption].
      apply numbered_from_cons. split; [exact Hid|].
      replace (1000000 + R + 1) with (1000000 + (R + 1)) by lia. exact Hn.
Qed.

Lemma service_group_shape node_id_dict (l0 svc : list Link) (st st' : ServiceState)
    (g : string * list Enriched) :
  one_agency_link_list st = l0 ++ svc ->
  number_of_route_links st = Z.of_nat (length svc) ->
  numbered_from 1000000 svc ->
  Forall (fun l => link_type l = 1) svc ->
  service_group convert_route_type_to_link_type allowed_use_function
                calculate_distance_from_geometry node_id_dict st g = Ok st' ->
  exists svc',
    one_agency_link_list st' = l0 ++ svc'
    /\ number_of_route_links st' = Z.of_nat (length svc')
    /\ numbered_from 1000000 svc'
    /\ Forall (fun l => link_type l = 1) svc'.
Proof.
  intros Hlist Hnum Hids Hty. unfold service_group.
  destruct (decide (g.1 ∈ labeled_directed_service_list st)).
  - intros [= <-]. exists svc. auto.
  - destruct (head (unique (map trip_id g.2))) as [first_trip|]; [simpl|discriminate].
    destruct (service_links_of_line _ _ _ _ _ _ _ _) as [[new number']|] eqn:Hline;
      [simpl|discriminate].
    intros [= <-]. simpl.
    apply service_links_of_line_shape in Hline as (-> & Hn & Ht).
    exists (svc ++ new). rewrite Hlist, <- app_assoc.
    split; [reflexivity|]. split; [rewrite Hnum, length_app; lia|].
    split; [|apply Forall_app; auto].
    apply numbered_from_app; [exact Hids|]. rewrite <- Hnum. exact Hn.
Qed.

Lemma service_groups_shape node_id_dict (l0 : list Link)
    (groups : list (string * list Enriched)) :
  forall (svc : list Link) (st st' : ServiceState),
    one_agency_link_list st = l0 ++ svc ->
    number_of_route_links st = Z.of_nat (length svc) ->
    numbered_from 1000000 svc ->
    Forall (fun l => link_type l = 1) svc ->
    service_groups convert_route_type_to_link_type allowed_use_function
                   calculate_distance_from_geometry node_id_dict st groups = Ok st' ->
    exists svc',
      one_agency_link_list st' = l0 ++ svc'
      /\ number_of_route_links st' = Z.of_nat (length svc')
      /\ numbered_from 1000000 svc'
      /\ Forall (fun l => link_type l = 1) svc'.
Proof.
  induction groups as [|g groups IH]; intros svc st st' Hlist Hnum Hids Hty; simpl.
  - intros [= <-]. exists svc. auto.
  - destruct (service_group _ _ _ _ st g) as [st1|] eqn:Hg; [simpl|discriminate].
    intros Hrest.
    destruct (service_group_shape _ _ _ _ _ _ Hlist Hnum Hids Hty Hg)
      as (svc1 & Hlist1 & Hnum1 & Hids1 & Hty1).
    exact (IH svc1 st1 st' Hlist1 Hnum1 Hids1 Hty1 Hrest).
Qed.

(** The boarding links: two for each service node, numbered on from
    [1000000 + number_of_route_links + number_of_sta2route_links]. *)
Lemma boarding_links_shape directed_service_dict node_lon_dict node_lat_dict
    frequency_dict (number_of_route_links : Z) (rows : list Node) :
  forall (number_of_sta2route_links : Z) (links : list Link),
    boarding_links convert_route_type_to_link_type allowed_use_function
      calculate_distance_from_geometry period_start_time period_end_time
      directed_service_dict node_lon_dict node_lat_dict frequency_dict
      number_of_route_links number_of_sta2route_links rows = Ok links ->
    exists pairs,
      links = flat_map (fun p : Link * Link => [p.1; p.2]) pairs
      /\ Forall2 boarding_pair rows pairs
      /\ numbered_from (1000000 + number_of_route_links + number_of_sta2route_links - 1)
                       links
      /\ Forall (fun l => link_type l = 2) links.
Proof.
  induction rows as [|row rows IH]; intros k links; simpl.
  - intros [= <-]. exists []. repeat split; constructor.
  - unfold boarding_links_of_node.
    destruct (node_lon_dict !! physical_node_id row); [simpl|discriminate].
    destruct (node_lat_dict !! physical_node_id row); [simpl|discriminate].
    destruct (directed_service_dict !! node_id row); [simpl|discriminate].
    destruct (frequency_dict !! n_directed_service_id row); [simpl|discriminate].
    destruct (boarding_links _ _ _ _ _ _ _ _ _ _ (k + 2) rows) as [rest|] eqn:Hrest;
      [simpl|discriminate].
    intros [= <-]. apply IH in Hrest as (pairs & -> & HF & Hn & Ht).
    eexists ((_, _) :: pairs). split; [simpl; reflexivity|]. split; [|split].
    + constructor; [|exact HF]. unfold boarding_pair. simpl.
      repeat split; try reflexivity. eexists. split; [reflexivity|]. apply Qmin_le_r.
    + apply numbered_from_cons. simpl. split; [lia|].
      apply numbered_from_cons. simpl. split; [lia|].
      replace (1000000 + number_of_route_links + k - 1 + 1 + 1)
        with (1000000 + number_of_route_links + (k + 2) - 1) by lia.
      exact Hn.
    + constructor; [reflexivity|]. constructor; [reflexivity | exact Ht].
Qed.

(** What [create_service_boarding_links] appends to an empty list. *)
Lemma create_service_boarding_links_shape (df : list Enriched) (node_df : list Node)
    (links : list Link) :
  create_service_boarding_links convert_route_type_to_link_type allowed_use_function
    calculate_distance_from_geometry period_start_time period_end_time
    df node_df [] = Ok links ->
  exists service pairs,
    links = service ++ flat_map (fun p : Link * Link => [p.1; p.2]) pairs
    /\ numbered_from 1000000 service
    /\ Forall (fun l => link_type l = 1) service
    /\ Forall2 boarding_pair
               (filter (fun n => node_id n ≠ physical_node_id n) node_df) pairs
    /\ numbered_from (1000000 + Z.of_nat (length service) - 1)
                     (flat_map (fun p : Link * Link => [p.1; p.2]) pairs)
    /\ Forall (fun l => link_type l = 2)
              (flat_map (fun p : Link * Link => [p.1; p.2]) pairs).
Proof.
  unfold create_service_boarding_links.
  destruct (service_groups _ _ _ _ _ _) as [st|] eqn:Hst; [simpl|discriminate].
  destruct (boarding_links _ _ _ _ _ _ _ _ _ _ _ _) as [boarding|] eqn:Hb;
    [simpl|discriminate].
  intros [= <-].
  eapply (service_groups_shape _ [] _ []) in Hst
    as (service & Hlist & Hnum & Hids & Hty);
    [|reflexivity|reflexivity|apply numbered_from_nil|constructor].
  simpl in Hlist.
  apply boarding_links_shape in Hb as (pairs & -> & HF & Hn & Ht).
  exists service, pairs. rewrite Hlist. split; [reflexivity|].
  split; [exact Hids|]. split; [exact Hty|]. split; [exact HF|].
  split; [|exact Ht]. rewrite Hnum in Hn.
  replace (1000000 + Z.of_nat (length service) + 0 - 1)
    with (1000000 + Z.of_nat (length service) - 1) in Hn by lia.
  exact Hn.
Qed.

(** X12.  When [create_service_boarding_links] returns, starting from an
    empty list, the list holds the service links and then the boarding
    links.  The service links are numbered 1000001, 1000002, ...; the
    boarding links are numbered on from 1000000 plus the number of
    service links, so that the first of them has the number of the last
    service link. *)
Theorem service_boarding_link_ids (df : list Enriched) (node_df : list Node)
    (links : list Link) :
  create_service_boarding_links convert_route_type_to_link_type allowed_use_function
    calculate_distance_from_geometry period_start_time period_end_time
    df node_df [] = Ok links ->
  exists service boarding,
    links = service ++ boarding
    /\ Forall (fun l => link_type l = 1) service
    /\ Forall (fun l => link_type l = 2) boarding
    /\ numbered_from 1000000 service
    /\ numbered_from (1000000 + Z.of_nat (length service) - 1) boarding.
Proof.
  intros H. apply create_service_boarding_links_shape in H
    as (service & pairs & -> & Hids & Hty & _ & Hn & Ht).
  eexists service, _. split; [reflexivity|]. auto.
Qed.

(** X13.  The boarding links come in pairs, one pair for each node of
    the node table whose [node_id] is not its [physical_node_id], in the
    order of the table: a link from the physical node to the service
    node with a waiting time of at most 10 minutes, and a link back with
    the time 1. *)
Theorem boarding_links_pair_up (df : list Enriched) (node_df : list Node)
    (links : list Link) :
  create_service_boarding_links convert_route_type_to_link_type allowed_use_function
    calculate_distance_from_geometry period_start_time period_end_time
    df node_df [] = Ok links ->
  exists service pairs,
    links = service ++ flat_map (fun p : Link * Link => [p.1; p.2]) pairs
    /\ Forall (fun l => link_type l = 1) service
    /\ Forall2 boarding_pair
               (filter (fun n => node_id n ≠ physical_node_id n) node_df) pairs.
Proof.
  intros H. apply create_service_boarding_links_shape in H
    as (service & pairs & -> & _ & Hty & HF & _).
  exists service, pairs. auto.
Qed.

End WithHelpers.

Lemma service_boarding_link_ids_witness :
  exists service boarding,
    two_stop_links = service ++ boarding
    /\ Forall (fun l => link_type l = 1) service
    /\ Forall (fun l => link_type l = 2) boarding
    /\ numbered_from 1000000 service
    /\ numbered_from (1000000 + Z.of_nat (length service) - 1) boarding.
Proof.
  apply (service_boarding_link_ids bus_link_type walk_use grid_distance 420 480
           two_stop_frame two_stop_nodes).
  vm_compute. reflexivity.
Defined.

Lemma boarding_links_pair_up_witness :
  exists service pairs,
    two_stop_links = service ++ flat_map (fun p : Link * Link => [p.1; p.2]) pairs
    /\ Forall (fun l => link_type l = 1) service
    /\ Forall2 boarding_pair
               (filter (fun n => node_id n ≠ physical_node_id n) two_stop_nodes) pairs.
Proof.
  apply (boarding_links_pair_up bus_link_type walk_use grid_distance 420 480
           two_stop_frame two_stop_nodes).
  vm_compute. reflexivity.
Defined.

End LinksExtra.

(** ** Transferring links: numbers and directions *)

Module TransferExtra.
Import Frame Ingest Nodes Links LinkSpecs LinksExtra.

Section WithHelpers.

Variable calculate_distance_from_geometry : Q -> Q -> Q -> Q -> Q.
Variable transferring_penalty : string -> string -> Q.
Variable allowed_use_transferring : string -> string -> string.

Lemma transfer_from_shape (p : Node) (neighbors : list Node) :
  forall (count : Z) (labeled_list : list (string * string)) (number : Z),
  exists pairs,
    (transfer_from calculate_distance_from_geometry transferring_penalty
                   allowed_use_transferring p neighbors count labeled_list number).1
    = flat_map (fun q : Link * Link => [q.1; q.2]) pairs
    /\ Forall reciprocal pairs
    /\ numbered_from number (flat_map (fun q : Link * Link => [q.1; q.2]) pairs)
    /\ (transfer_from calculate_distance_from_geometry transferring_penalty
                      allowed_use_transferring p neighbors count labeled_list number).2
       = number + Z.of_nat (length (flat_map (fun q : Link * Link => [q.1; q.2]) pairs))
    /\ Forall (fun l => link_type l = 3)
              (flat_map (fun q : Link * Link => [q.1; q.2]) pairs).
Proof.
  induction neighbors as [|q rest IH]; intros count labeled_list number; simpl.
  - exists []. simpl. repeat split; try constructor. lia.
  - destruct (10 <=? count).
    { exists []. simpl. repeat split; try constructor. lia. }
    destruct (decide ((n_route_id p, n_agency_name p) = (n_route_id q, n_agency_name q)));
      [apply IH|].
    destruct (Qlt_bool (321869 # 1000) _ || Qlt_bool _ 1); [apply IH|].
    destruct (decide ((n_route_id q, n_agency_name q) ∈ labeled_list)); [apply IH|].
    destruct (IH (count + 1) (labeled_list ++ [(n_route_id q, n_agency_name q)])
                 (number + 1 + 1)) as (pairs & Heq & Hrec & Hnum & Hcount & Hty).
    eexists ((_, _) :: pairs). simpl. rewrite Heq, Hcount.
    split; [reflexivity|]. split; [|split; [|split]].
    + constructor; [|exact Hrec]. repeat split.
    + apply numbered_from_cons. simpl. split; [reflexivity|].
      apply numbered_from_cons. simpl. split; [reflexivity | exact Hnum].
    + lia.
    + constructor; [reflexivity|]. constructor; [reflexivity | exact Hty].
Qed.

Lemma transfer_loop_shape (physical_node_df origins : list Node) :
  forall number : Z,
  exists pairs,
    transfer_loop calculate_distance_from_geometry transferring_penalty
                  allowed_use_transferring physical_node_df origins number
    = flat_map (fun q : Link * Link => [q.1; q.2]) pairs
    /\ Forall reciprocal pairs
    /\ numbered_from number (flat_map (fun q : Link * Link => [q.1; q.2]) pairs)
    /\ Forall (fun l => link_type l = 3)
              (flat_map (fun q : Link * Link => [q.1; q.2]) pairs).
Proof.
  induction origins as [|p origins IH]; intros number; simpl.
  - exists []. simpl. repeat split; constructor.
  - unfold transfer_of_origin.
    destruct (transfer_from_shape p
                (filter (fun n => in_box (x_coord p) (y_coord p) n = true)
                        physical_node_df) 0 [] number)
      as (pairs1 & Heq1 & Hrec1 & Hnum1 & Hcount1 & Hty1).
    rewrite Heq1, Hcount1.
    destruct (IH (number + Z.of_nat (length (flat_map (fun q : Link * Link => [q.1; q.2])
                                                     pairs1))))
      as (pairs2 & Heq2 & Hrec2 & Hnum2 & Hty2).
    rewrite Heq2. exists (pairs1 ++ pairs2). rewrite flat_map_app.
    split; [reflexivity|]. split; [apply Forall_app; auto|].
    split; [apply numbered_from_app; assumption | apply Forall_app; auto].
Qed.

(** X14.  [create_transferring_links] keeps the links it is given and
    appends the transferring links two by two: a link and the link that
    joins the same two nodes the other way, with the same length.  The
    transferring links are numbered 1, 2, 3, ... in the order of the
    list, whatever the numbers of the links before them. *)
Theorem transfer_links_numbered_in_pairs (all_node_df : list Node)
    (all_link_list : list Link) :
  exists pairs,
    create_transferring_links calculate_distance_from_geometry transferring_penalty
                              allowed_use_transferring all_node_df all_link_list
    = all_link_list ++ flat_map (fun q : Link * Link => [q.1; q.2]) pairs
    /\ Forall reciprocal pairs
    /\ numbered_from 0 (flat_map (fun q : Link * Link => [q.1; q.2]) pairs)
    /\ Forall (fun l => link_type l = 3)
              (flat_map (fun q : Link * Link => [q.1; q.2]) pairs).
Proof.
  unfold create_transferring_links.
  destruct (transfer_loop_shape (physical_of all_node_df) (physical_of all_node_df) 0)
    as (pairs & Heq & Hrec & Hnum & Hty).
  exists pairs. rewrite Heq. auto.
Qed.




End WithHelpers.

End TransferExtra.

(** ** Quoted route identifiers, and the run as a whole *)

Module MainExtra.
Import Frame Ingest Nodes Links Assembly Fixtures FrameFacts IngestFacts.

Lemma append_cons (c : ascii) (s1 s2 : string) :
  String c s1 +:+ s2 = String c (s1 +:+ s2).
Proof. reflexivity. Qed.

Lemma rev_app_append (s1 s2 acc : string) :
  String.rev_app (s1 +:+ s2) acc = String.rev_app s2 (String.rev_app s1 acc).
Proof.
  revert acc. induction s1 as [|c s1 IH]; intros acc; [reflexivity|].
  rewrite append_cons. simpl. apply IH.
Qed.

Lemma rev_app_rev_app (s acc acc' : string) :
  String.rev_app (String.rev_app s acc) acc' = String.rev_app acc (s +:+ acc').
Proof.
  revert acc acc'. induction s as [|c s IH]; intros acc acc'; [reflexivity|].
  simpl. rewrite IH. simpl. rewrite append_cons. reflexivity.
Qed.

Lemma rev_rev (s : string) : String.rev (String.rev s) = s.
Proof.
  unfold String.rev. rewrite rev_app_rev_app. simpl.
  induction s as [|c s IH]; [reflexivity|]. rewrite append_cons, IH. reflexivity.
Qed.

(** An identifier in double quotes is stripped to the identifier, when
    stripping would not change the identifier itself. *)
Lemma strip_quote_quoted (s : string) :
  lstrip_quote s = s -> lstrip_quote (String.rev s) = String.rev s ->
  strip_quote (quoted s) = s.
Proof.
  intros Hl Hr. unfold strip_quote, quoted. simpl.
  destruct s as [|c s]; [reflexivity|].
  assert (Hc : Ascii.eqb c dquote = false).
  { simpl in Hl. destruct (Ascii.eqb c dquote) eqn:E; [|reflexivity].
    exfalso. clear Hr. revert c Hl E. induction s as [|d s IH]; intros c Hl E.
    - discriminate Hl.
    - simpl in Hl. destruct (Ascii.eqb d dquote) eqn:Ed.
      + assert (Hlen : String.length (lstrip_quote s) = String.length (String c (String d s)))
          by (rewrite Hl; reflexivity).
        assert (Hle : forall t, (String.length (lstrip_quote t) <= String.length t)%nat).
        { clear. induction t as [|e t IHt]; simpl; [lia|].
          destruct (Ascii.eqb e dquote); simpl; lia. }
        specialize (Hle s). simpl in Hlen. lia.
      + injection Hl as Hcd _. subst d. congruence. }
  rewrite append_cons. simpl. rewrite Hc.
  change (String c (s +:+ String dquote EmptyString))
    with (String c s +:+ String dquote EmptyString).
  unfold String.rev. rewrite rev_app_append. simpl.
  change (Ascii.eqb dquote dquote) with true. simpl.
  change (String.rev_app s (String c EmptyString)) with (String.rev (String c s)).
  rewrite Hr. apply rev_rev.
Qed.

(** X16.  When the first route identifier of the routes table begins
    with a double quote and the first one of the trips table does not,
    the quotes are stripped from the routes table and the trips table is
    left as it is: a route written [s] in quotes becomes the route [s]
    that the trips name. *)
Theorem quoted_route_is_repaired (routes : list Route) (trips : list Trip)
    (r : Route) (s : string) :
  first_is_quote (map r_route_id routes) = Ok true ->
  first_is_quote (map t_route_id trips) = Ok false ->
  r ∈ routes ->
  r_route_id r = quoted s ->
  lstrip_quote s = s -> lstrip_quote (String.rev s) = String.rev s ->
  exists routes',
    repair_quotes routes trips = Ok (routes', trips)
    /\ set_route_id_r r s ∈ routes'
    /\ length routes' = length routes.
Proof.
  intros Hr Ht Hin Hid Hl Hrev. unfold repair_quotes. rewrite Hr, Ht. simpl.
  eexists. split; [reflexivity|]. split; [|rewrite length_map; reflexivity].
  apply list_elem_of_fmap. exists r. split; [|exact Hin].
  rewrite Hid, strip_quote_quoted by assumption. reflexivity.
Qed.

Lemma quoted_route_is_repaired_witness :
  exists routes',
    repair_quotes [quoted_route] [green_trip] = Ok (routes', [green_trip])
    /\ set_route_id_r quoted_route "green2" ∈ routes'
    /\ length routes' = length [quoted_route].
Proof.
  apply (quoted_route_is_repaired [quoted_route] [green_trip] quoted_route "green2");
    try reflexivity.
  apply list_elem_of_here.
Defined.

Section Main.

Variable other_time : string -> result (option Z).
Variable determine_terminal_flag : list StopTime -> list StopTime.
Variable stop_sequence_label_pass : list StopTime -> list StopTime.
Variable convert_route_type_to_node_type_p : Z -> string.
Variable convert_route_type_to_node_type_s : Z -> string.
Variable convert_route_type_to_link_type : Z -> string.
Variable allowed_use_function : Z -> string.
Variable calculate_distance_from_geometry : Q -> Q -> Q -> Q -> Q.
Variable transferring_penalty : string -> string -> Q.
Variable allowed_use_transferring : string -> string -> string.
Variables period_start_time period_end_time : Z.

(** X15.  Whenever [main] returns its two tables, whatever pandas makes
    of the times that are not in the clock form, the times of the feed
    were all converted, some trip of the feed has its minimum arrival
    time in the window (with no such trip the run ends in the
    [ValueError] of [pd.concat]), and no two rows of the link table join
    the same pair of nodes in the same direction. *)
Theorem main_returns (gtfs : GTFS) (node_df : list Node) (all_link_df : list Link) :
  main other_time determine_terminal_flag stop_sequence_label_pass
       convert_route_type_to_node_type_p convert_route_type_to_node_type_s
       convert_route_type_to_link_type allowed_use_function
       calculate_distance_from_geometry transferring_penalty
       allowed_use_transferring
       period_start_time period_end_time gtfs = Ok (node_df, all_link_df) ->
  NoDup (map endpoints all_link_df)
  /\ exists stop_times g m,
       rmap (convert_row other_time)
            (drop_rows_without_time (stop_time_df gtfs)) = Ok stop_times
       /\ g ∈ trip_frames stop_times
       /\ min_arrival g m
       /\ period_start_time <= m <= period_end_time.
Proof.
  unfold main. intros H.
  destruct (read_gtfs_data _ _ _ _ _ _) as [read|] eqn:Hread;
    [simpl in H|discriminate].
  destruct (create_nodes _ _ _) as [nodes|]; [simpl in H|discriminate].
  destruct (create_service_boarding_links _ _ _ _ _ _ _ _) as [links|];
    [simpl in H|discriminate].
  injection H as _ <-. split.
  - unfold drop_duplicate_links. apply drop_duplicates_last_NoDup.
  - unfold read_gtfs_data in Hread.
    destruct (of_option _ _) as [agency|]; [simpl in Hread|discriminate].
    destruct (recode_trips _) as [trips|]; [simpl in Hread|discriminate].
    destruct (repair_quotes _ _) as [rep|]; [simpl in Hread|discriminate].
    destruct (rmap (convert_row other_time) _) as [stop_times|];
      [simpl in Hread|discriminate].
    destruct (select_trips period_start_time period_end_time stop_times)
      as [|g gs] eqn:Hsel; [discriminate|].
    assert (Hg : g ∈ select_trips period_start_time period_end_time stop_times)
      by (rewrite Hsel; apply list_elem_of_here).
    unfold select_trips in Hg. apply list_elem_of_filter in Hg as [Hw Hg].
    apply in_window_iff in Hw as (m & Hm & Hrange).
    exists stop_times, g, m. auto.
Qed.

End Main.

Lemma main_returns_witness :
  NoDup (map endpoints orphan_network.2)
  /\ exists stop_times g m,
       rmap (convert_row clock_only)
            (drop_rows_without_time (stop_time_df orphan_feed)) = Ok stop_times
       /\ g ∈ trip_frames stop_times
       /\ min_arrival g m
       /\ 420 <= m <= 480.
Proof.
  apply (main_returns clock_only id id stop_node_type stop_node_type bus_link_type walk_use
           grid_distance no_penalty walk_transfer 420 480 orphan_feed orphan_network.1).
  vm_compute. reflexivity.
Defined.

End MainExtra.

(** ** From the enriched frame to the links: no lookup fails *)

Module PipelineExtra.
Import Frame Ingest Nodes Links LinkSpecs Fixtures.
Import NodeFacts CreateNodesFacts CreateNodesReturns FirstRows IngestExtra NodesExtra LinksExtra.

Lemma dict_zip_Z_lookup {V} (keys : list Z) (values : list V) (k : Z) :
  length keys = length values -> k ∈ keys -> is_Some (dict_zip_Z keys values !! k).
Proof.
  intros Hlen Hk. unfold dict_zip_Z. apply foldl_insert_lookup. left.
  assert (H : map fst (zip keys values) = keys) by (apply fst_zip; lia).
  rewrite H. exact Hk.
Qed.

Lemma dict_zip_is_Some {V} (keys : list string) (values : list V) (k : string) :
  length keys = length values -> k ∈ keys -> is_Some (dict_zip keys values !! k).
Proof.
  intros Hlen Hk. destruct (dict_zip_lookup keys values k Hlen Hk) as (v & Hv & _).
  exists v. exact Hv.
Qed.

Section WithHelpers.

Variable convert_route_type_to_node_type_p : Z -> string.
Variable convert_route_type_to_node_type_s : Z -> string.
Variable convert_route_type_to_link_type : Z -> string.
Variable allowed_use_function : Z -> string.
Variable calculate_distance_from_geometry : Q -> Q -> Q -> Q -> Q.
Variables period_start_time period_end_time : Z.

Lemma service_links_of_line_total (node_id_dict : gmap string Z)
    agency_name0 number_of_trips (one_line_df : list Enriched) :
  (forall r, r ∈ one_line_df -> is_Some (node_id_dict !! directed_service_stop_id r)) ->
  forall number_of_route_links : Z,
  exists out,
    service_links_of_line convert_route_type_to_link_type allowed_use_function
      calculate_distance_from_geometry node_id_dict agency_name0 number_of_trips
      number_of_route_links one_line_df = Ok out.
Proof.
  induction one_line_df as [|a line IH]; intros Hall R; [eexists; reflexivity|].
  destruct line as [|b rest]; [eexists; reflexivity|].
  rewrite service_links_of_line_cons.
  destruct (Hall a) as [x Hx]; [apply list_elem_of_here|].
  destruct (Hall b) as [y Hy]; [apply elem_of_cons; right; apply list_elem_of_here|].
  unfold service_link. rewrite Hx, Hy. cbn [of_option rbind].
  destruct (IH (fun r Hr => Hall r (proj2 (elem_of_cons _ _ _) (or_intror Hr))) (R + 1))
    as [out Hout].
  rewrite Hout. cbn [rbind]. eexists. reflexivity.
Qed.

Lemma service_group_total (node_id_dict : gmap string Z) (st : ServiceState)
    (g : string * list Enriched) :
  g.2 <> [] ->
  (forall r, r ∈ g.2 -> is_Some (node_id_dict !! directed_service_stop_id r)) ->
  (forall k, k ∈ labeled_directed_service_list st -> is_Some (frequency_dict st !! k)) ->
  exists st',
    service_group convert_route_type_to_link_type allowed_use_function
                  calculate_distance_from_geometry node_id_dict st g = Ok st'
    /\ is_Some (frequency_dict st' !! g.1)
    /\ (forall k, is_Some (frequency_dict st !! k) -> is_Some (frequency_dict st' !! k))
    /\ (forall k, k ∈ labeled_directed_service_list st' ->
                  is_Some (frequency_dict st' !! k)).
Proof.
  intros Hrows Hall Hlab. unfold service_group.
  destruct (decide (g.1 ∈ labeled_directed_service_list st)) as [Hin|Hnot].
  - exists st. split; [reflexivity|]. split; [apply Hlab; exact Hin|]. auto.
  - assert (Hlen : (0 < length (unique (map trip_id g.2)))%nat).
    { apply unique_nonempty. rewrite length_map.
      destruct g.2; [congruence | simpl; lia]. }
    destruct (unique (map trip_id g.2)) as [|first_trip trips] eqn:Htrips;
      [simpl in Hlen; lia|].
    cbn [head of_option rbind].
    destruct (service_links_of_line_total node_id_dict
                (default EmptyString
                   (agency_name <$> head (sort_values_int stop_sequence
                      (filter (fun r => trip_id r = first_trip) g.2))))
                (Z.of_nat (length (first_trip :: trips)))
                (sort_values_int stop_sequence
                   (filter (fun r => trip_id r = first_trip) g.2)))
      with (number_of_route_links := number_of_route_links st) as [out Hout].
    { intros r Hr. unfold sort_values_int in Hr.
      rewrite merge_sort_Permutation in Hr.
      apply list_elem_of_filter in Hr as [_ Hr]. apply Hall. exact Hr. }
    rewrite Hout. cbn [rbind]. eexists. split; [reflexivity|]. cbn.
    split; [rewrite lookup_insert_eq; eexists; reflexivity|]. split.
    + intros k Hk. destruct (decide (g.1 = k)) as [->|Hne].
      * rewrite lookup_insert_eq. eexists. reflexivity.
      * rewrite lookup_insert_ne by exact Hne. exact Hk.
    + intros k Hk. destruct (decide (g.1 = k)) as [->|Hne].
      * rewrite lookup_insert_eq. eexists. reflexivity.
      * rewrite lookup_insert_ne by exact Hne. apply Hlab.
        apply elem_of_app in Hk as [Hk|Hk]; [exact Hk|].
        apply list_elem_of_singleton in Hk. congruence.
Qed.

Lemma service_groups_total (node_id_dict : gmap string Z)
    (groups : list (string * list Enriched)) :
  (forall g, g ∈ groups ->
             g.2 <> []
             /\ forall r, r ∈ g.2 -> is_Some (node_id_dict !! directed_service_stop_id r)) ->
  forall st : ServiceState,
    (forall k, k ∈ labeled_directed_service_list st -> is_Some (frequency_dict st !! k)) ->
    exists st',
      service_groups convert_route_type_to_link_type allowed_use_function
                     calculate_distance_from_geometry node_id_dict st groups = Ok st'
      /\ (forall g, g ∈ groups -> is_Some (frequency_dict st' !! g.1))
      /\ (forall k, is_Some (frequency_dict st !! k) -> is_Some (frequency_dict st' !! k)).
Proof.
  induction groups as [|g groups IH]; intros Hall st Hlab; simpl.
  - exists st. split; [reflexivity|]. split; [intros g Hg; inversion Hg | auto].
  - destruct (Hall g) as [Hne Hrows]; [apply list_elem_of_here|].
    destruct (service_group_total node_id_dict st g Hne Hrows Hlab)
      as (st1 & Hst1 & Hkey & Hkeep & Hlab1).
    rewrite Hst1. cbn [rbind].
    destruct (IH (fun g' Hg' => Hall g' (proj2 (elem_of_cons _ _ _) (or_intror Hg')))
                 st1 Hlab1) as (st' & Hst' & Hkeys & Hkeep').
    exists st'. split; [exact Hst'|]. split.
    + intros g' Hg'. apply elem_of_cons in Hg' as [->|Hg'].
      * apply Hkeep'. exact Hkey.
      * apply Hkeys. exact Hg'.
    + intros k Hk. apply Hkeep', Hkeep. exact Hk.
Qed.

Lemma boarding_links_total (directed_service_dict : gmap Z string)
    (node_lon_dict node_lat_dict : gmap Z Q) (frequency_dict : gmap string Z)
    (number_of_route_links : Z) (rows : list Node) :
  (forall row, row ∈ rows ->
               is_Some (node_lon_dict !! physical_node_id row)
               /\ is_Some (node_lat_dict !! physical_node_id row)
               /\ is_Some (directed_service_dict !! node_id row)
               /\ is_Some (frequency_dict !! n_directed_service_id row)) ->
  forall number_of_sta2route_links : Z,
  exists links,
    boarding_links convert_route_type_to_link_type allowed_use_function
      calculate_distance_from_geometry period_start_time period_end_time
      directed_service_dict node_lon_dict node_lat_dict frequency_dict
      number_of_route_links number_of_sta2route_links rows = Ok links.
Proof.
  induction rows as [|row rows IH]; intros Hall k; simpl; [eexists; reflexivity|].
  destruct (Hall row) as ([lon Hlon] & [lat Hlat] & [ds Hds] & [f Hf]);
    [apply list_elem_of_here|].
  unfold boarding_links_of_node. rewrite Hlon, Hlat, Hds, Hf. cbn [of_option rbind].
  destruct (IH (fun r Hr => Hall r (proj2 (elem_of_cons _ _ _) (or_intror Hr))) (k + 2))
    as [rest Hrest].
  rewrite Hrest. cbn [rbind]. eexists. reflexivity.
Qed.

(** X17.  For a frame with rows, the node table of [create_nodes] has
    every key the link builder looks up: [create_nodes] returns, and
    [create_service_boarding_links] returns on its table without a
    [KeyError]. *)
Theorem links_are_built (df : list Enriched) :
  (0 < length df)%nat ->
  exists node_df links,
    create_nodes convert_route_type_to_node_type_p
                 convert_route_type_to_node_type_s df = Ok node_df
    /\ create_service_boarding_links convert_route_type_to_link_type
         allowed_use_function calculate_distance_from_geometry
         period_start_time period_end_time df node_df [] = Ok links.
Proof.
  intros Hrows.
  destruct (create_nodes_tables convert_route_type_to_node_type_p
              convert_route_type_to_node_type_s df (length_pos_nonempty df Hrows))
    as (P & S & Hall & _ & _ & HP & HS & Hcover).
  exists (P ++ S). unfold create_service_boarding_links.
  destruct (service_groups_total
              (dict_zip (map name (P ++ S)) (map node_id (P ++ S)))
              (groupby directed_service_id df))
    with (st := {| one_agency_link_list := @nil Link; number_of_route_links := 0;
                   frequency_dict := ∅; labeled_directed_service_list := [] |})
    as (st & Hst & Hkeys & _).
  { intros [k rows] Hg. apply groupby_elem in Hg as [Hk ->]. simpl. split.
    - apply list_elem_of_fmap in Hk as (r & -> & Hr). intros Hnil.
      assert (Hin : r ∈ filter (fun a => directed_service_id a = directed_service_id r) df)
        by (apply list_elem_of_filter; auto).
      rewrite Hnil in Hin. inversion Hin.
    - intros r Hr. apply list_elem_of_filter in Hr as [_ Hr].
      apply dict_zip_is_Some; [rewrite !length_map; reflexivity|].
      rewrite map_app. apply elem_of_app. right. apply Hcover. exact Hr. }
  { intros k Hk. inversion Hk. }
  destruct (boarding_links_total
              (dict_zip_Z (map node_id (P ++ S)) (map name (P ++ S)))
              (dict_zip_Z (map node_id (P ++ S)) (map x_coord (P ++ S)))
              (dict_zip_Z (map node_id (P ++ S)) (map y_coord (P ++ S)))
              (frequency_dict st) (number_of_route_links st)
              (filter (fun n => node_id n ≠ physical_node_id n) (P ++ S)))
    with (number_of_sta2route_links := 0) as [boarding Hb].
  { intros row Hrow. apply list_elem_of_filter in Hrow as [Hne Hrow].
    apply elem_of_app in Hrow as [Hrow|Hrow].
    { pose proof (proj1 (Forall_forall _ _) HP row Hrow) as Heq. congruence. }
    pose proof (proj1 (Forall_forall _ _) HS row Hrow)
      as (r & p & Hr & Hp & _ & Hsid & _ & Hpid).
    assert (Hphys : physical_node_id row ∈ map node_id (P ++ S)).
    { rewrite Hpid, map_app. apply elem_of_app. left.
      apply list_elem_of_fmap. exists p. auto. }
    assert (Hself : node_id row ∈ map node_id (P ++ S)).
    { rewrite map_app. apply elem_of_app. right.
      apply list_elem_of_fmap. exists row. auto. }
    split; [apply dict_zip_Z_lookup; [rewrite !length_map; reflexivity | exact Hphys]|].
    split; [apply dict_zip_Z_lookup; [rewrite !length_map; reflexivity | exact Hphys]|].
    split; [apply dict_zip_Z_lookup; [rewrite !length_map; reflexivity | exact Hself]|].
    rewrite Hsid.
    apply (Hkeys (directed_service_id r,
                  filter (fun a => directed_service_id a = directed_service_id r) df)).
    apply groupby_elem. split; [|reflexivity].
    apply list_elem_of_fmap. exists r. auto. }
  eexists. split; [exact Hall|]. rewrite Hst. cbn [rbind]. rewrite Hb. cbn [rbind].
  reflexivity.
Qed.

End WithHelpers.

Lemma links_are_built_witness :
  exists node_df links,
    create_nodes stop_node_type stop_node_type two_stop_frame = Ok node_df
    /\ create_service_boarding_links bus_link_type walk_use grid_distance 420 480
         two_stop_frame node_df [] = Ok links.
Proof.
  apply (links_are_built stop_node_type stop_node_type bus_link_type walk_use
           grid_distance 420 480 two_stop_frame).
  simpl. lia.
Defined.

End PipelineExtra.
